(** * Project analyzer: scanner, rule engine, scorers and report renderer

    A shallow embedding of the analysis pipeline of the project-analyzer
    skill:

    - [analyze-structure.py]  (class [ProjectAnalyzer]),
    - [detect-patterns.py]    (class [PatternDetector]),
    - [generate-report.py]    (class [ReportGenerator]),
    - [memory_integration.py] (method [_calculate_health_score]),

    followed by the properties of the specification that are stated about
    them.  Python values are embedded as follows: [str] as [string] (the
    UTF-8 bytes), [int] as [Z], [float] as an IEEE-754 binary64 value
    ([spec_float] with 53 bits of precision), a [set] of strings as
    [gset string], a [dict] that is only read by key as [gmap], a [dict]
    that is iterated in insertion order as an association list, and a
    raised exception as the [Raise] case of [PyResult]. *)

From Stdlib Require Import ZArith List Ascii Bool Lia SpecFloat.
From Stdlib Require Import DecimalString DecimalZ DecimalPos Sorted Permutation.
From stdpp Require Import gmap strings.

Local Open Scope Z_scope.

(* ===================================================================== *)
(** ** Exceptions *)
(* ===================================================================== *)

(** The exception classes that the scripts raise or catch; [IOError]
    is [OSError] with its subclasses. *)
Inductive exn : Type :=
| ZeroDivisionError
| OverflowError
| TypeError
| ValueError
| AttributeError
| IOError
| JSONDecodeError
| UnicodeDecodeError.

Inductive PyResult (A : Type) : Type :=
| Ok (a : A)
| Raise (e : exn).

Arguments Ok {A} a.
Arguments Raise {A} e.

#[global] Instance PyResult_ret : MRet PyResult := fun A a => Ok a.
#[global] Instance PyResult_bind : MBind PyResult := fun A B k r =>
  match r with
  | Ok a => k a
  | Raise e => Raise e
  end.

(* ===================================================================== *)
(** ** Python string methods *)
(* ===================================================================== *)

Module PyStr.

(** [s.startswith(p)] *)
Definition startswith (s p : string) : bool := String.prefix p s.

(** [s.endswith(suf)] *)
Definition endswith (s suf : string) : bool :=
  let n := String.length s in
  let k := String.length suf in
  (k <=? n)%nat && String.eqb (String.substring (n - k) k s) suf.

(** [sub in s] *)
Fixpoint contains (sub s : string) : bool :=
  String.prefix sub s ||
  match s with
  | EmptyString => false
  | String _ s' => contains sub s'
  end.

(** [s[1:]] *)
Definition tail (s : string) : string :=
  match s with
  | EmptyString => EmptyString
  | String _ s' => s'
  end.

(** [s[:-1]] *)
Fixpoint init (s : string) : string :=
  match s with
  | EmptyString => EmptyString
  | String c EmptyString => EmptyString
  | String c s' => String c (init s')
  end.

(** [sep.join(l)] *)
Fixpoint join (sep : string) (l : list string) : string :=
  match l with
  | [] => ""
  | [x] => x
  | x :: l' => x +:+ sep +:+ join sep l'
  end.

Definition is_upper (c : ascii) : bool :=
  let n := nat_of_ascii c in (65 <=? n)%nat && (n <=? 90)%nat.
Definition is_lower (c : ascii) : bool :=
  let n := nat_of_ascii c in (97 <=? n)%nat && (n <=? 122)%nat.
Definition to_upper (c : ascii) : ascii :=
  if is_lower c then ascii_of_nat (nat_of_ascii c - 32) else c.
Definition to_lower (c : ascii) : ascii :=
  if is_upper c then ascii_of_nat (nat_of_ascii c + 32) else c.

(** [s.replace(a, b)] for single characters [a], [b] *)
Fixpoint replace_char (a b : ascii) (s : string) : string :=
  match s with
  | EmptyString => EmptyString
  | String c s' => String (if Ascii.eqb c a then b else c) (replace_char a b s')
  end.

(** [s.title()] on ASCII text: a letter that follows a letter is put in
    lower case, any other letter in upper case. *)
Fixpoint title_from (previous_is_cased : bool) (s : string) : string :=
  match s with
  | EmptyString => EmptyString
  | String c s' =>
      String (if previous_is_cased then to_lower c else to_upper c)
             (title_from (is_upper c || is_lower c) s')
  end.

Definition title (s : string) : string := title_from false s.

(** [str(n)] for an integer *)
Definition of_Z (n : Z) : string := NilZero.string_of_int (Z.to_int n).

(** [s.lower()] on ASCII text *)
Fixpoint lower (s : string) : string :=
  match s with
  | EmptyString => EmptyString
  | String c s' => String (to_lower c) (lower s')
  end.

(** [s.strip()] on ASCII text: the white space of [str.strip] below
    code point 128 *)
Definition is_space (c : ascii) : bool :=
  let n := nat_of_ascii c in
  ((9 <=? n)%nat && (n <=? 13)%nat) || ((28 <=? n)%nat && (n <=? 32)%nat).

Fixpoint lstrip (s : string) : string :=
  match s with
  | EmptyString => EmptyString
  | String c s' => if is_space c then lstrip s' else s
  end.

Fixpoint rstrip (s : string) : string :=
  match s with
  | EmptyString => EmptyString
  | String c s' =>
      match rstrip s' with
      | EmptyString => if is_space c then EmptyString else String c EmptyString
      | r => String c r
      end
  end.

Definition strip (s : string) : string := rstrip (lstrip s).

End PyStr.

(* ===================================================================== *)
(** ** Python floats (IEEE-754 binary64) *)
(* ===================================================================== *)

Module PyFloat.

Definition prec : Z := 53.
Definition emax : Z := 1024.

Definition float : Type := spec_float.

(** An integer as an exact, not yet rounded, binary number. *)
Definition exact (z : Z) : float :=
  match z with
  | Z0 => S754_zero false
  | Zpos p => S754_finite false p 0
  | Zneg p => S754_finite true p 0
  end.

Definition is_infinite (x : float) : bool :=
  match x with
  | S754_infinity _ => true
  | _ => false
  end.

(** [float(z)]: the nearest double, [OverflowError] when [z] is too
    large for one. *)
Definition of_int (z : Z) : PyResult float :=
  let x := binary_normalize prec emax z 0 false in
  if is_infinite x then Raise OverflowError else Ok x.

(** A decimal literal [n/d] (such as [0.7] = 7/10): the nearest double. *)
Definition literal (n d : Z) : float := SFdiv prec emax (exact n) (exact d).

(** [a / b] on integers: the correctly rounded quotient. *)
Definition int_truediv (a b : Z) : PyResult float :=
  if b =? 0 then Raise ZeroDivisionError
  else
    let q := SFdiv prec emax (exact a) (exact b) in
    if is_infinite q then Raise OverflowError else Ok q.

Definition mul (x y : float) : float := SFmul prec emax x y.
Definition sub (x y : float) : float := SFsub prec emax x y.

(** [x * n], [n - x] and [x - n] for a float [x] and an integer [n]:
    the integer is converted first. *)
Definition mul_int (x : float) (n : Z) : PyResult float :=
  y ← of_int n; Ok (mul x y).
Definition int_sub (n : Z) (x : float) : PyResult float :=
  y ← of_int n; Ok (sub y x).
Definition sub_int (x : float) (n : Z) : PyResult float :=
  y ← of_int n; Ok (sub x y).

Definition ltb (x y : float) : bool := SFltb x y.
Definition leb (x y : float) : bool := SFleb x y.
Definition eqb (x y : float) : bool := SFeqb x y.
(** [x > n] and [x >= n] for an integer constant [n] that is a double *)
Definition constant (n : Z) : float := binary_normalize prec emax n 0 false.
Definition gt_int (x : float) (n : Z) : bool := SFltb (constant n) x.
Definition ge_int (x : float) (n : Z) : bool := SFleb (constant n) x.

(** The integer part and the nearest integer (ties to even) of the
    positive binary number [m * 2^e]. *)
Definition trunc_pos (m : positive) (e : Z) : Z :=
  if 0 <=? e then Z.pos m * 2 ^ e else Z.pos m / 2 ^ (- e).

Definition round_half_even_pos (m : positive) (e : Z) : Z :=
  if 0 <=? e then Z.pos m * 2 ^ e
  else
    let d := 2 ^ (- e) in
    let q := Z.pos m / d in
    let r := Z.pos m mod d in
    match 2 * r ?= d with
    | Lt => q
    | Gt => q + 1
    | Eq => if Z.even q then q else q + 1
    end.

(** [int(x)] *)
Definition to_int (x : float) : PyResult Z :=
  match x with
  | S754_zero _ => Ok 0
  | S754_infinity _ => Raise OverflowError
  | S754_nan => Raise ValueError
  | S754_finite s m e => Ok (if s then - trunc_pos m e else trunc_pos m e)
  end.

(** [format(x, '.0f')] *)
Definition format_0f (x : float) : string :=
  match x with
  | S754_zero s => if s then "-0" else "0"
  | S754_infinity s => if s then "-inf" else "inf"
  | S754_nan => "nan"
  | S754_finite s m e =>
      (if s then "-" else "") +:+ PyStr.of_Z (round_half_even_pos m e)
  end.

End PyFloat.

(* ===================================================================== *)
(** ** analyze-structure.py *)
(* ===================================================================== *)

Module ProjectAnalyzer.

(** [PROJECT_INDICATORS] (a dict, iterated in insertion order) *)
Definition PROJECT_INDICATORS : list (string * list string) :=
  [ ("node",   ["package.json"; "package-lock.json"; "node_modules/"]);
    ("python", ["requirements.txt"; "setup.py"; "pyproject.toml"; "__pycache__/"]);
    ("java",   ["pom.xml"; "build.gradle"; "build.gradle.kts"; "gradlew"]);
    ("rust",   ["Cargo.toml"; "Cargo.lock"; "target/"]);
    ("go",     ["go.mod"; "go.sum"]);
    ("ruby",   ["Gemfile"; "Gemfile.lock"]);
    ("php",    ["composer.json"; "composer.lock"]);
    ("csharp", ["*.csproj"; "*.sln"]) ].

(** The project tree below the root: a directory lists its entries by
    name, in the order in which [os.walk] reports them. *)
#[warnings="-register-all"] Inductive Node : Type :=
| File
| Dir (entries : list (string * Node)).

(** Induction on a tree, with the hypothesis for every entry of a
    directory *)
Fixpoint Node_induction (P : Node -> Prop) (HF : P File)
         (HD : forall entries, Forall (fun e => P (snd e)) entries -> P (Dir entries))
         (node : Node) {struct node} : P node :=
  match node with
  | File => HF
  | Dir entries =>
      HD entries
         ((fix all (es : list (string * Node)) : Forall (fun e => P (snd e)) es :=
             match es with
             | [] => List.Forall_nil _
             | (name, sub) :: es' =>
                 @List.Forall_cons _ (fun e => P (snd e)) (name, sub) es'
                             (Node_induction P HF HD sub) (all es')
             end) entries)
  end.

Definition is_dir (n : Node) : bool :=
  match n with
  | Dir _ => true
  | File => false
  end.

(** The result of [scan_structure] (the keys of [structure] that are
    computed from the walk and the type detection). *)
Record Structure : Type := mkStructure {
  files : list string;
  directories : list string;
  file_count : Z;
  directory_count : Z;
  project_types : list string;
}.

Definition skip_patterns : list string :=
  [ "node_modules"; "__pycache__"; ".git"; ".venv"; "venv";
    "target"; "dist"; "build"; ".next"; ".nuxt";
    "*.pyc"; "*.class"; "*.o"; "*.so" ].

(** [_should_skip]: the loop over [skip_patterns] *)
Fixpoint should_skip_loop (patterns : list string) (name : string) : bool :=
  match patterns with
  | [] => false
  | pattern :: rest =>
      if PyStr.startswith pattern "*" then
        if PyStr.endswith name (PyStr.tail pattern) then true
        else should_skip_loop rest name
      else if String.eqb name pattern || PyStr.startswith name pattern then true
      else should_skip_loop rest name
  end.

Definition _should_skip (name : string) : bool :=
  should_skip_loop skip_patterns name.

(** [str(rel_root / name)]: a relative path is the list of its
    components, [rel_root] of the project root being the empty list. *)
Definition path_str (components : list string) : string :=
  PyStr.join "/" components.

Definition append_directory (st : Structure) (rel_path : list string) : Structure :=
  {| files := files st;
     directories := directories st ++ [path_str rel_path];
     file_count := file_count st;
     directory_count := directory_count st + 1;
     project_types := project_types st |}.

Definition append_file (st : Structure) (rel_path : list string) : Structure :=
  {| files := files st ++ [path_str rel_path];
     directories := directories st;
     file_count := file_count st + 1;
     directory_count := directory_count st;
     project_types := project_types st |}.

Definition dir_names (entries : list (string * Node)) : list string :=
  map fst (List.filter (fun e => is_dir (snd e)) entries).
Definition file_names (entries : list (string * Node)) : list string :=
  map fst (List.filter (fun e => negb (is_dir (snd e))) entries).

(** The body of the [for root, dirs, files in os.walk(...)] loop for one
    directory, followed by the walk of the sub-directories that were
    kept in [dirs]. *)
Fixpoint walk (rel_root : list string) (node : Node) (st : Structure) {struct node}
  : Structure :=
  match node with
  | File => st
  | Dir entries =>
      let dirs := List.filter (fun d => negb (_should_skip d)) (dir_names entries) in
      let st1 :=
        fold_left (fun s dir_name => append_directory s (rel_root ++ [dir_name]))
                  dirs st in
      let st2 :=
        fold_left (fun s file_name =>
                     if _should_skip file_name then s
                     else append_file s (rel_root ++ [file_name]))
                  (file_names entries) st1 in
      (fix descend (es : list (string * Node)) (s : Structure) : Structure :=
         match es with
         | [] => s
         | (name, File) :: es' => descend es' s
         | (name, (Dir _) as sub) :: es' =>
             if _should_skip name then descend es' s
             else descend es' (walk (rel_root ++ [name]) sub s)
         end) entries st2
  end.

(** One indicator of [_detect_project_types] *)
Definition indicator_matches (files directories : list string) (indicator : string)
  : bool :=
  if PyStr.endswith indicator "/" then
    existsb (fun d => PyStr.startswith d (PyStr.init indicator)) directories
  else if PyStr.startswith indicator "*" then
    let pattern := PyStr.tail indicator in
    existsb (fun f => PyStr.endswith f pattern) files
  else
    bool_decide (indicator ∈ files) || existsb (fun f => PyStr.endswith f indicator) files.

(** The inner [for indicator in indicators] loop with its [break] *)
Fixpoint any_indicator (files directories : list string) (indicators : list string)
  : bool :=
  match indicators with
  | [] => false
  | indicator :: rest =>
      if indicator_matches files directories indicator then true
      else any_indicator files directories rest
  end.

Fixpoint detect_loop (files directories : list string)
         (table : list (string * list string)) (detected_types : list string)
  : list string :=
  match table with
  | [] => detected_types
  | (project_type, indicators) :: rest =>
      detect_loop files directories rest
        (if any_indicator files directories indicators
         then detected_types ++ [project_type] else detected_types)
  end.

Definition _detect_project_types (files directories : list string) : list string :=
  detect_loop files directories PROJECT_INDICATORS [].

Definition scan_structure (root : Node) : Structure :=
  let structure :=
    {| files := []; directories := []; file_count := 0; directory_count := 0;
       project_types := [] |} in
  let structure := walk [] root structure in
  {| files := files structure;
     directories := directories structure;
     file_count := file_count structure;
     directory_count := directory_count structure;
     project_types := _detect_project_types (files structure) (directories structure) |}.

(** [FRAMEWORK_INDICATORS] (a dict, iterated in insertion order) *)
Definition FRAMEWORK_INDICATORS : list (string * list string) :=
  [ ("react",   ["react"; "@types/react"]);
    ("vue",     ["vue"; "@vue/"]);
    ("angular", ["@angular/"]);
    ("express", ["express"]);
    ("django",  ["django"; "Django"]);
    ("flask",   ["flask"; "Flask"]);
    ("spring",  ["spring-boot"; "org.springframework"]);
    ("laravel", ["laravel/framework"]) ].

(** A manifest at the project root: not there, there but raising [e]
    when it is opened, decoded or parsed ([IOError] from [open],
    [UnicodeDecodeError] from the reader, [JSONDecodeError] from
    [json.load]), or read. *)
Inductive Manifest (A : Type) : Type :=
| Missing
| Failing (e : exn)
| Loaded (a : A).

Arguments Missing {A}.
Arguments Failing {A} e.
Arguments Loaded {A} a.

(** What [data.get(key, {})] finds under a key of the parsed manifest:
    nothing (the default [{}]), a JSON object, of which the keys are
    kept, or a JSON value of another kind. *)
Inductive Entry : Type :=
| NoEntry
| Keys (keys : list string)
| NotAMapping.

(** The parsed [package.json]: a JSON object, of which the two keys that
    are read are kept, or a JSON value of another kind (an array, a
    string, a number, [true], [false] or [null]). *)
Inductive PackageJson : Type :=
| Document (dependencies dev_dependencies : Entry)
| NotADocument.

(** The inner [for indicator in indicators] loop with its [break];
    [found] is the test made on one indicator. *)
Fixpoint any_found (found : string -> bool) (indicators : list string) : bool :=
  match indicators with
  | [] => false
  | indicator :: rest => if found indicator then true else any_found found rest
  end.

Fixpoint frameworks_loop (found : string -> bool) (table : list (string * list string))
         (frameworks : list string) : list string :=
  match table with
  | [] => frameworks
  | (framework, indicators) :: rest =>
      frameworks_loop found rest
        (if any_found found indicators then frameworks ++ [framework] else frameworks)
  end.

(** [{**entry}]: unpacking a value that is not a mapping is a
    [TypeError]. *)
Definition unpack (entry : Entry) : PyResult (list string) :=
  match entry with
  | NoEntry => Ok []
  | Keys keys => Ok keys
  | NotAMapping => Raise TypeError
  end.

(** The body of the first [try] once [json.load] has returned [data]:
    [data.get] is an [AttributeError] on a value that is not a dict. *)
Definition package_body (data : PackageJson) (frameworks : list string)
  : PyResult (list string) :=
  match data with
  | NotADocument => Raise AttributeError
  | Document dependencies dev_dependencies =>
      deps ← unpack dependencies;
      dev_deps ← unpack dev_dependencies;
      let dependencies := deps ++ dev_deps in
      Ok (frameworks_loop
            (fun indicator =>
               existsb (fun dep => PyStr.contains indicator dep) dependencies)
            FRAMEWORK_INDICATORS frameworks)
  end.

(** The classes of [except (json.JSONDecodeError, IOError)] and of
    [except IOError] *)
Definition json_or_io_error (e : exn) : bool :=
  match e with
  | JSONDecodeError | IOError => true
  | _ => false
  end.

Definition io_error (e : exn) : bool :=
  match e with
  | IOError => true
  | _ => false
  end.

(** [try: body except classes: pass], around a body that raises, if it
    does, before it appends to [frameworks]: an exception of the classes
    leaves [frameworks] as it was, any other one escapes. *)
Definition try_pass (caught : exn -> bool) (body : PyResult (list string))
           (frameworks : list string) : PyResult (list string) :=
  match body with
  | Ok frameworks' => Ok frameworks'
  | Raise e => if caught e then Ok frameworks else Raise e
  end.

(** The two [if ... .exists():] blocks *)
Definition package_block (package_json : Manifest PackageJson)
           (frameworks : list string) : PyResult (list string) :=
  match package_json with
  | Missing => Ok frameworks
  | Failing e => try_pass json_or_io_error (Raise e) frameworks
  | Loaded data => try_pass json_or_io_error (package_body data frameworks) frameworks
  end.

Definition requirements_block (requirements_txt : Manifest string)
           (frameworks : list string) : PyResult (list string) :=
  match requirements_txt with
  | Missing => Ok frameworks
  | Failing e => try_pass io_error (Raise e) frameworks
  | Loaded content =>
      try_pass io_error
        (Ok (frameworks_loop (fun indicator => PyStr.contains indicator content)
                             FRAMEWORK_INDICATORS frameworks))
        frameworks
  end.

(** [_detect_frameworks].  [package_json] is what opening and parsing
    the manifest gives, [requirements_txt] what reading the file gives.
    The result is [list(set(frameworks))]: the elements of the set, each
    once, in an order that Python does not fix. *)
Definition _detect_frameworks (package_json : Manifest PackageJson)
           (requirements_txt : Manifest string) : PyResult (list string) :=
  frameworks ← package_block package_json [];
  frameworks ← requirements_block requirements_txt frameworks;
  Ok (elements (list_to_set frameworks : gset string)).

Definition ci_indicators : list string :=
  [ ".github/workflows"; ".gitlab-ci.yml"; ".circleci/config.yml";
    "azure-pipelines.yml"; "Jenkinsfile" ].

Fixpoint check_ci_loop (files directories : list string) (indicators : list string)
  : bool :=
  match indicators with
  | [] => false
  | indicator :: rest =>
      if PyStr.endswith indicator ".yml" || PyStr.endswith indicator "file" then
        if bool_decide (indicator ∈ files)
           || existsb (fun f => PyStr.endswith f indicator) files
        then true
        else check_ci_loop files directories rest
      else
        if existsb (fun d => PyStr.startswith d indicator) directories then true
        else check_ci_loop files directories rest
  end.

Definition _check_ci_setup (files directories : list string) : bool :=
  check_ci_loop files directories ci_indicators.

Definition test_indicators : list string := ["test"; "tests"; "spec"; "__tests__"].

Definition _check_test_setup (directories : list string) : bool :=
  existsb
    (fun d => existsb (fun indicator => PyStr.contains indicator (PyStr.lower d))
                      test_indicators)
    directories.

(** [(self.project_path / '.git').exists()] *)
Definition has_git (root : Node) : bool :=
  match root with
  | File => false
  | Dir entries => existsb (fun e => String.eqb (fst e) ".git") entries
  end.

(** The result of [get_project_info] (without the absolute path) *)
Record ProjectInfo : Type := mkProjectInfo {
  i_name : string;
  i_type : string;
  i_types : list string;
  i_frameworks : list string;
  i_files : Z;
  i_directories : Z;
  i_git : bool;
  i_ci : bool;
  i_tests : bool;
}.

(** [get_project_info]; the scan that it starts with fails when
    [_detect_frameworks] does. *)
Definition get_project_info (project_name : string) (root : Node)
           (package_json : Manifest PackageJson)
           (requirements_txt : Manifest string) : PyResult ProjectInfo :=
  let structure := scan_structure root in
  frameworks ← _detect_frameworks package_json requirements_txt;
  Ok {| i_name := project_name;
        i_type := match project_types structure with
                  | t :: _ => t
                  | [] => "unknown"
                  end;
        i_types := project_types structure;
        i_frameworks := frameworks;
        i_files := file_count structure;
        i_directories := directory_count structure;
        i_git := has_git root;
        i_ci := _check_ci_setup (files structure) (directories structure);
        i_tests := _check_test_setup (directories structure) |}.

End ProjectAnalyzer.

(* ===================================================================== *)
(** ** list.sort *)
(* ===================================================================== *)

Module PyList.

Section Sort.
Context {A K : Type}.
Variable key : A -> K.
Variable lt : K -> K -> bool.

(** [l.sort(key=key, reverse=True)]: the keys are compared with [<]
    only, the result is in descending order of key and elements of
    equal key keep their original order (the sort is stable, also
    when reversed).  The library routine is embedded as the stable
    insertion sort with that contract. *)
Fixpoint insert_reverse (x : A) (l : list A) : list A :=
  match l with
  | [] => [x]
  | y :: l' =>
      if lt (key x) (key y) then y :: insert_reverse x l' else x :: y :: l'
  end.

Fixpoint sort_reverse (l : list A) : list A :=
  match l with
  | [] => []
  | x :: l' => insert_reverse x (sort_reverse l')
  end.

(** [a] does not come after [b] in descending order of key. *)
Definition not_below (a b : A) : Prop := lt (key a) (key b) = false.
End Sort.

End PyList.

(* ===================================================================== *)
(** ** detect-patterns.py *)
(* ===================================================================== *)

Module PatternDetector.

(** One entry of [recommendation.variants] *)
Record Variant : Type := mkVariant {
  v_condition : option string;
  v_template : string;
}.

Record Recommendation : Type := mkRecommendation {
  template : string;
  reason : string;
  variants : option (list Variant);
}.

(** The [check] of a rule: absent, a path, or a list of paths. *)
Inductive Check : Type :=
| CheckNone
| CheckStr (path : string)
| CheckList (paths : list string).

(** A rule of the configuration.  The keys read with [pattern.get] may
    be absent. *)
Record Pattern : Type := mkPattern {
  p_id : string;
  p_type : option string;
  p_check : Check;
  p_applies_when : option string;
  p_confidence : option string;
  p_severity : option string;
  p_recommendation : option Recommendation;
}.

Record Detection : Type := mkDetection {
  d_id : string;
  d_type : option string;
  d_confidence : string;
  d_severity : string;
  issue_found : bool;
  d_recommendation : option Recommendation;
}.

(** An element of [results['recommendations']] *)
Record Advice : Type := mkAdvice {
  a_id : string;
  a_template : string;
  a_reason : string;
  a_severity : string;
  a_confidence : string;
  priority_score : PyFloat.float;
}.

Record Summary : Type := mkSummary {
  total_patterns : Z;
  issues_found : Z;
  high_severity : Z;
  medium_severity : Z;
  low_severity : Z;
}.

(** The scanner's output as the rule engine reads it *)
Record ProjectStructure : Type := mkProjectStructure {
  project_name : string;
  project_types : list string;
  frameworks : list string;
  files : list string;
  directories : list string;
}.

Record Results : Type := mkResults {
  r_project_name : string;
  r_project_types : list string;
  r_frameworks : list string;
  detections : list Detection;
  recommendations : list Advice;
  summary : Summary;
}.

(** [any(p(x) for x in s)] over a set *)
Definition any_in (p : string -> bool) (s : gset string) : bool :=
  existsb p (elements s).

Definition _check_condition (condition : string) (files directories : gset string)
  : bool :=
  if PyStr.contains "package.json exists" condition then
    bool_decide ("package.json" ∈ files)
  else if PyStr.contains "requirements.txt" condition
          || PyStr.contains "setup.py exists" condition then
    bool_decide ("requirements.txt" ∈ files) || bool_decide ("setup.py" ∈ files)
  else if PyStr.contains "pom.xml" condition
          || PyStr.contains "build.gradle exists" condition then
    any_in (fun f => PyStr.contains "pom.xml" f || PyStr.contains "build.gradle" f) files
  else true.

(** [check not in files and not any(f.endswith(check) for f in files)]:
    a list is unhashable, and [endswith(None)] is a type error. *)
Definition _check_file_absence (check : Check) (files : gset string) : PyResult bool :=
  match check with
  | CheckStr path =>
      Ok (negb (bool_decide (path ∈ files))
          && negb (any_in (fun f => PyStr.endswith f path) files))
  | CheckList _ => Raise TypeError
  | CheckNone => if bool_decide (elements files = []) then Ok true else Raise TypeError
  end.

Fixpoint directory_absence_loop (check : list string) (directories : gset string)
  : bool :=
  match check with
  | [] => true
  | path :: rest =>
      if PyStr.endswith path ".yml" || PyStr.endswith path ".yaml" then true
      else if any_in (fun d => PyStr.startswith d path) directories then false
      else directory_absence_loop rest directories
  end.

Definition _check_directory_absence (check : Check) (directories : gset string)
  : PyResult bool :=
  match check with
  | CheckStr path => Ok (directory_absence_loop [path] directories)
  | CheckList paths => Ok (directory_absence_loop paths directories)
  | CheckNone => Raise TypeError
  end.

Definition _check_file_quality (file_path : Check) (project_structure : ProjectStructure)
  : bool :=
  let present :=
    match file_path with
    | CheckStr path => bool_decide (path ∈ files project_structure)
    | _ => false
    end in
  if negb present then false else false.

Fixpoint _select_variant (variants : list Variant) (files directories : gset string)
  : option Variant :=
  match variants with
  | [] => None
  | variant :: rest =>
      if _check_condition (default "" (v_condition variant)) files directories
      then Some variant
      else _select_variant rest files directories
  end.

(** Truth value of an optional string: [None] and [''] are false. *)
Definition truthy (s : option string) : bool :=
  match s with
  | None => false
  | Some s => negb (String.eqb s "")
  end.

Definition type_is (pattern_type : option string) (name : string) : bool :=
  match pattern_type with
  | Some t => String.eqb t name
  | None => false
  end.

(** The dispatch on [pattern_type]; an unknown type leaves
    [issue_found] at its initial [False]. *)
Definition check_issue (pattern_type : option string) (check : Check)
           (files directories : gset string) (project_structure : ProjectStructure)
  : PyResult bool :=
  if type_is pattern_type "file_absence" then _check_file_absence check files
  else if type_is pattern_type "directory_absence" then
    _check_directory_absence check directories
  else if type_is pattern_type "file_quality" then
    Ok (_check_file_quality check project_structure)
  else Ok false.

(** The [recommendation] key given to the detection, if any *)
Definition attach_recommendation (pattern : Pattern) (found : bool)
           (files directories : gset string) : option Recommendation :=
  if found then
    match p_recommendation pattern with
    | Some recommendation =>
        Some match variants recommendation with
             | Some vs =>
                 match _select_variant vs files directories with
                 | Some variant =>
                     {| template := v_template variant;
                        reason := reason recommendation;
                        variants := variants recommendation |}
                 | None => recommendation
                 end
             | None => recommendation
             end
    | None => None
    end
  else None.

Definition _apply_pattern (pattern : Pattern) (files directories : gset string)
           (project_structure : ProjectStructure) : PyResult (option Detection) :=
  let pattern_type := p_type pattern in
  let check := p_check pattern in
  if truthy (p_applies_when pattern)
     && negb (_check_condition (default "" (p_applies_when pattern)) files directories)
  then Ok None
  else
    found ← check_issue pattern_type check files directories project_structure;
    Ok (Some {| d_id := p_id pattern;
                d_type := pattern_type;
                d_confidence := default "medium" (p_confidence pattern);
                d_severity := default "medium" (p_severity pattern);
                issue_found := found;
                d_recommendation :=
                  attach_recommendation pattern found files directories |}).

Definition confidence_map : gmap string PyFloat.float :=
  list_to_map [("high", PyFloat.literal 10 10); ("medium", PyFloat.literal 7 10);
               ("low", PyFloat.literal 4 10)].
Definition severity_map : gmap string Z :=
  list_to_map [("high", 10); ("medium", 5); ("low", 2)].
Definition multiplier_map : gmap string PyFloat.float :=
  list_to_map [("high", PyFloat.literal 10 10); ("medium", PyFloat.literal 6 10);
               ("low", PyFloat.literal 3 10)].

Definition _calculate_priority (detection : Detection) : PyFloat.float :=
  let confidence :=
    default (PyFloat.literal 7 10) (confidence_map !! d_confidence detection) in
  let severity := d_severity detection in
  let priority_score := default 5 (severity_map !! severity) in
  let multiplier := default (PyFloat.literal 6 10) (multiplier_map !! severity) in
  PyFloat.mul (PyFloat.mul confidence multiplier) (PyFloat.constant priority_score).

(** The body of [for pattern in self.patterns] once the rule has a
    detection. *)
Definition record_detection (results : Results) (detection : Detection) : Results :=
  let s := summary results in
  let severity := d_severity detection in
  if issue_found detection then
    {| r_project_name := r_project_name results;
       r_project_types := r_project_types results;
       r_frameworks := r_frameworks results;
       detections := detections results ++ [detection];
       recommendations :=
         match d_recommendation detection with
         | Some recommendation =>
             recommendations results ++
             [ {| a_id := d_id detection;
                  a_template := template recommendation;
                  a_reason := reason recommendation;
                  a_severity := severity;
                  a_confidence := d_confidence detection;
                  priority_score := _calculate_priority detection |} ]
         | None => recommendations results
         end;
       summary :=
         {| total_patterns := total_patterns s;
            issues_found := issues_found s + 1;
            high_severity :=
              if String.eqb severity "high" then high_severity s + 1
              else high_severity s;
            medium_severity :=
              if String.eqb severity "high" then medium_severity s
              else if String.eqb severity "medium" then medium_severity s + 1
              else medium_severity s;
            low_severity :=
              if String.eqb severity "high" then low_severity s
              else if String.eqb severity "medium" then low_severity s
              else if String.eqb severity "low" then low_severity s + 1
              else low_severity s |} |}
  else
    {| r_project_name := r_project_name results;
       r_project_types := r_project_types results;
       r_frameworks := r_frameworks results;
       detections := detections results ++ [detection];
       recommendations := recommendations results;
       summary := s |}.

Fixpoint detect_loop (patterns : list Pattern) (files directories : gset string)
         (project_structure : ProjectStructure) (results : Results)
  : PyResult Results :=
  match patterns with
  | [] => Ok results
  | pattern :: rest =>
      detection ← _apply_pattern pattern files directories project_structure;
      detect_loop rest files directories project_structure
        match detection with
        | Some detection => record_detection results detection
        | None => results
        end
  end.

(** [detect], for a detector whose [self.patterns] is [patterns] *)
Definition detect (patterns : list Pattern) (project_structure : ProjectStructure)
  : PyResult Results :=
  let results :=
    {| r_project_name := project_name project_structure;
       r_project_types := project_types project_structure;
       r_frameworks := frameworks project_structure;
       detections := [];
       recommendations := [];
       summary := {| total_patterns := Z.of_nat (length patterns);
                     issues_found := 0; high_severity := 0;
                     medium_severity := 0; low_severity := 0 |} |} in
  let files : gset string := list_to_set (files project_structure) in
  let directories : gset string := list_to_set (directories project_structure) in
  results ← detect_loop patterns files directories project_structure results;
  Ok {| r_project_name := r_project_name results;
        r_project_types := r_project_types results;
        r_frameworks := r_frameworks results;
        detections := detections results;
        recommendations :=
          PyList.sort_reverse priority_score PyFloat.ltb (recommendations results);
        summary := summary results |}.

End PatternDetector.

(* ===================================================================== *)
(** ** The health score, before it is printed or truncated *)
(* ===================================================================== *)

(** The value of [max(0, x)] is the integer [0] or the float [x]. *)
Inductive Number : Type :=
| Int (n : Z)
| Float (x : PyFloat.float).

(** [max(0, x)]: [x] replaces [0] only when [x > 0]. *)
Definition max_zero (x : PyFloat.float) : Number :=
  if PyFloat.gt_int x 0 then Float x else Int 0.

Definition newline : string := String (ascii_of_nat 10) EmptyString.

(* ===================================================================== *)
(** ** memory_integration.py *)
(* ===================================================================== *)

Module MemoryIntegration.

(** [_calculate_health_score], applied to the [summary] of the analysis
    results (an absent summary is the empty dict). *)
Definition _calculate_health_score (summary : gmap string Z) : PyResult Z :=
  let total_patterns := default 1 (summary !! "total_patterns") in
  let issues_found := default 0 (summary !! "issues_found") in
  let high_severity := default 0 (summary !! "high_severity") in
  let medium_severity := default 0 (summary !! "medium_severity") in
  ratio ← PyFloat.int_truediv issues_found total_patterns;
  issues_penalty ← PyFloat.mul_int ratio 100;
  let high_penalty := high_severity * 20 in
  let medium_penalty := medium_severity * 10 in
  d1 ← PyFloat.int_sub 100 issues_penalty;
  d2 ← PyFloat.sub_int d1 high_penalty;
  d3 ← PyFloat.sub_int d2 medium_penalty;
  match max_zero d3 with
  | Int n => Ok n
  | Float x => PyFloat.to_int x
  end.

Import PatternDetector.

(** The session file [.claude/project-session-id] of one directory: not
    there, there but failing to be read, or read. *)
Inductive SessionFile : Type :=
| NoFile
| Failing
| Holds (text : string).

(** The loop of [_get_project_session_id]: [levels] gives the session
    file of the current directory, of its parent, and so on up to the
    root of the file system; [rounds] is the [range(5)]. *)
Fixpoint search_session (rounds : nat) (levels : list SessionFile) : option string :=
  match rounds with
  | O => None
  | S rounds' =>
      match levels with
      | [] => None
      | Holds text :: _ => Some (PyStr.strip text)
      | Failing :: _ => None
      | NoFile :: [] => None
      | NoFile :: parents => search_session rounds' parents
      end
  end.

Definition _get_project_session_id (levels : list SessionFile) : option string :=
  search_session 5 levels.

(** [__init__]: the [session_id] attribute of the new object *)
Definition __init__ (session_id : option string) (levels : list SessionFile)
  : PyResult string :=
  let chosen :=
    if truthy session_id then session_id else _get_project_session_id levels in
  if truthy chosen then Ok (default "" chosen) else Raise ValueError.

(** The values of a parameter dict *)
Inductive Value : Type :=
| Str (s : string)
| Num (n : Z)
| Strs (l : list string).

(** Truth value of [params.get(key)] *)
Definition value_truthy (v : option Value) : bool :=
  match v with
  | None => false
  | Some (Str s) => negb (String.eqb s "")
  | Some (Num n) => negb (n =? 0)
  | Some (Strs l) => match l with [] => false | _ => true end
  end.

(** [params.get(key) == text] *)
Definition value_is (v : option Value) (text : string) : bool :=
  match v with
  | Some (Str s) => String.eqb s text
  | _ => false
  end.

Definition ensure_isolation (params : gmap string Value) : PyResult unit :=
  if negb (value_is (params !! "session_filter_mode") "session_only") then
    Raise ValueError
  else if negb (value_truthy (params !! "session_id")) then Raise ValueError
  else Ok tt.

(** The [content] dict of [store_analysis] *)
Record Content : Type := mkContent {
  c_timestamp : string;
  c_project_name : string;
  c_patterns_detected : Z;
  c_issues_found : Z;
  c_recommendations : list Advice;
  c_confidence_scores : gmap string string;
  c_project_type : list string;
  c_frameworks : list string;
  c_health_score : Z;
}.

(** The analysis results as [store_analysis] reads them; an absent key
    is the default of its [get]. *)
Record Analysis : Type := mkAnalysis {
  an_detections : list Detection;
  an_summary : gmap string Z;
  an_recommendations : list Advice;
  an_project_types : list string;
  an_frameworks : list string;
}.

(** [{d['id']: d['confidence'] for d in detections}] *)
Definition confidence_scores (detections : list Detection) : gmap string string :=
  fold_left (fun scores d => <[d_id d := d_confidence d]> scores) detections ∅.

Section Serialised.

(** [json.dumps(content, indent=2)] and [datetime.now().isoformat()] *)
Variable json_dumps : Content -> string.
Variable now : string.

Definition create_isolated_params (session_id : string) (content : Content)
           (tags : list string) (importance : Z) : gmap string Value :=
  let content_str := json_dumps content in
  list_to_map
    [ ("content", Str content_str);
      ("tags", Strs tags);
      ("importance", Num importance);
      ("source", Str "project-catalyst-analyzer");
      ("domain", Str "project-catalyst");
      ("session_filter_mode", Str "session_only");
      ("session_id", Str session_id) ].

Definition store_analysis (session_id : string) (analysis_results : Analysis)
           (project_name : string) : PyResult (gmap string Value) :=
  health_score ← _calculate_health_score (an_summary analysis_results);
  let content :=
    {| c_timestamp := now;
       c_project_name := project_name;
       c_patterns_detected := Z.of_nat (length (an_detections analysis_results));
       c_issues_found := default 0 (an_summary analysis_results !! "issues_found");
       c_recommendations := an_recommendations analysis_results;
       c_confidence_scores := confidence_scores (an_detections analysis_results);
       c_project_type := an_project_types analysis_results;
       c_frameworks := an_frameworks analysis_results;
       c_health_score := health_score |} in
  let params :=
    create_isolated_params session_id content
      ["project-analysis"; "catalyst"; "pattern-detection"; project_name] 8 in
  _ ← ensure_isolation params;
  Ok params.

Definition retrieve_analysis_history (session_id : string) (project_name : string)
  : PyResult (gmap string Value) :=
  let params : gmap string Value :=
    list_to_map
      [ ("query", Str ("project-analysis " +:+ project_name));
        ("tags", Strs ["project-analysis"; project_name]);
        ("session_filter_mode", Str "session_only");
        ("session_id", Str session_id);
        ("limit", Num 10);
        ("response_format", Str "concise") ] in
  _ ← ensure_isolation params;
  Ok params.

(** The module-level [store_analysis_to_memory] *)
Definition store_analysis_to_memory (levels : list SessionFile)
           (analysis_results : Analysis) (project_name : string)
           (session_id : option string) : PyResult (gmap string Value) :=
  integration ← __init__ session_id levels;
  store_analysis integration analysis_results project_name.

End Serialised.

End MemoryIntegration.

(* ===================================================================== *)
(** ** generate-report.py *)
(* ===================================================================== *)

Module ReportGenerator.

Import PatternDetector.

(** The attributes set by [__init__] from the results document *)
Record Generator : Type := mkGenerator {
  g_project_name : string;
  g_project_types : list string;
  g_frameworks : list string;
  g_detections : list Detection;
  g_recommendations : list Advice;
  g_summary : gmap string Z;
}.

Definition STATUS_ICONS : gmap string string :=
  list_to_map [("ok", "✅"); ("warning", "⚠️"); ("error", "❌"); ("info", "ℹ️");
               ("search", "🔍"); ("chart", "📊"); ("rocket", "🚀")].

Definition _get_category (detection_id : string) : string :=
  if PyStr.contains "gitignore" detection_id || PyStr.contains "git-" detection_id then
    "Git Configuration"
  else if PyStr.contains "readme" detection_id
          || PyStr.contains "contributing" detection_id
          || PyStr.contains "license" detection_id then
    "Documentation"
  else if PyStr.contains "ci" detection_id || PyStr.contains "workflow" detection_id
          || PyStr.contains "docker" detection_id then
    "CI/CD"
  else if PyStr.contains "eslint" detection_id || PyStr.contains "prettier" detection_id then
    "Code Quality"
  else if PyStr.contains "editorconfig" detection_id then "Setup"
  else "Other".

Definition descriptions : gmap string string :=
  list_to_map
    [ ("missing-gitignore", "Missing .gitignore");
      ("missing-ci-workflow", "No CI/CD configuration");
      ("missing-git-hooks", "Missing Git hooks");
      ("missing-readme", "Missing README.md");
      ("readme-minimal", "README.md is minimal");
      ("missing-contributing", "Missing CONTRIBUTING.md");
      ("missing-license", "Missing LICENSE");
      ("missing-build-workflow", "Missing build workflow");
      ("missing-release-workflow", "Missing release workflow");
      ("missing-dockerfile", "Missing Dockerfile");
      ("missing-eslint", "Missing ESLint configuration");
      ("missing-prettier", "Missing Prettier configuration");
      ("missing-editorconfig", "Missing .editorconfig") ].

Definition _get_description (detection_id : string) : string :=
  default (PyStr.title (PyStr.replace_char "-" " " detection_id))
          (descriptions !! detection_id).

Definition _generate_header : string :=
  STATUS_ICONS !!! "search" +:+ " Project Analysis Results".

Definition _generate_project_info (self : Generator) : string :=
  let project_type :=
    match g_project_types self with
    | [] => "Unknown"
    | types => PyStr.title (PyStr.join ", " types)
    end in
  let lines := ["Project: " +:+ g_project_name self; "Type: " +:+ project_type] in
  let lines :=
    match g_frameworks self with
    | [] => lines
    | fws => lines ++ ["Frameworks: " +:+ PyStr.title (PyStr.join ", " fws)]
    end in
  let total_patterns := default 0 (g_summary self !! "total_patterns") in
  let issues_found := default 0 (g_summary self !! "issues_found") in
  PyStr.join newline
    (lines ++ ["Patterns Checked: " +:+ PyStr.of_Z total_patterns;
               "Issues Found: " +:+ PyStr.of_Z issues_found]).

Definition _format_issue (detection : Detection) : string :=
  let detection_id := d_id detection in
  let confidence := d_confidence detection in
  let severity := d_severity detection in
  let icon :=
    if String.eqb severity "high" then STATUS_ICONS !!! "error"
    else if String.eqb severity "medium" then STATUS_ICONS !!! "warning"
    else STATUS_ICONS !!! "info" in
  let description := _get_description detection_id in
  let head :=
    icon +:+ " " +:+ description +:+ " (confidence: " +:+ confidence
         +:+ ", severity: " +:+ severity +:+ ")" in
  match d_recommendation detection with
  | Some recommendation =>
      head +:+ newline
           +:+ "     → /apply-template " +:+ template recommendation +:+ newline
           +:+ "     Reason: " +:+ reason recommendation
  | None => head
  end.

(** The [categories] dict of [_generate_category_status], in insertion
    order. *)
Definition categories : list (string * list Detection) :=
  [ ("Git Configuration", []); ("Documentation", []); ("CI/CD", []);
    ("Code Quality", []); ("Setup", []) ].

(** [category in categories] *)
Definition has_category (category : string) (cats : list (string * list Detection))
  : bool :=
  existsb (fun c => String.eqb (fst c) category) cats.

(** [categories[category].append(detection)] *)
Fixpoint append_to (category : string) (detection : Detection)
         (cats : list (string * list Detection)) : list (string * list Detection) :=
  match cats with
  | [] => []
  | (name, ds) :: rest =>
      if String.eqb name category then (name, ds ++ [detection]) :: rest
      else (name, ds) :: append_to category detection rest
  end.

(** The grouping loop *)
Definition group_detections (detections : list Detection)
  : list (string * list Detection) :=
  fold_left
    (fun cats detection =>
       let category := _get_category (d_id detection) in
       if has_category category cats then append_to category detection cats
       else cats)
    detections categories.

(** The lines produced for one item of [categories.items()] *)
Definition category_lines (category : string) (detections : list Detection)
  : list string :=
  match detections with
  | [] => []
  | _ =>
      let issues := List.filter issue_found detections in
      let has_high_severity :=
        existsb (fun d => String.eqb (d_severity d) "high") issues in
      let status_icon :=
        match issues with
        | [] => STATUS_ICONS !!! "ok"
        | _ => if has_high_severity then STATUS_ICONS !!! "error"
               else STATUS_ICONS !!! "warning"
        end in
      (category +:+ ": " +:+ status_icon)
        :: map (fun d => "  " +:+ _format_issue d) issues
  end.

Definition category_status_lines (detections : list Detection) : list string :=
  flat_map (fun c => category_lines (fst c) (snd c)) (group_detections detections).

Definition _generate_category_status (self : Generator) : string :=
  PyStr.join newline (category_status_lines (g_detections self)).

(** The two lines of the [i]-th priority action, for
    [enumerate(top_recommendations, 1)] *)
Fixpoint action_lines (i : Z) (recs : list Advice) : list string :=
  match recs with
  | [] => []
  | rec :: rest =>
      ("  " +:+ PyStr.of_Z i +:+ ". " +:+ _get_description (a_id rec)
            +:+ " (" +:+ a_severity rec +:+ " severity)")
        :: ("     → /apply-template " +:+ a_template rec)
        :: action_lines (i + 1) rest
  end.

Definition _generate_priority_actions (self : Generator) : string :=
  match g_recommendations self with
  | [] => STATUS_ICONS !!! "ok" +:+ " No priority actions needed!"
  | recs => PyStr.join newline ("Priority Actions:" :: action_lines 1 (take 5 recs))
  end.

(** [health_score >= n] for the value of [max(0, ...)] *)
Definition at_least (health_score : Number) (n : Z) : bool :=
  match health_score with
  | Int z => n <=? z
  | Float x => PyFloat.ge_int x n
  end.

(** [f"{health_score:.0f}"] *)
Definition format_score (health_score : Number) : string :=
  match health_score with
  | Int z => PyStr.of_Z z
  | Float x => PyFloat.format_0f x
  end.

Definition _generate_health_score (self : Generator) : PyResult string :=
  let total_patterns := default 1 (g_summary self !! "total_patterns") in
  let issues_found := default 0 (g_summary self !! "issues_found") in
  let high_severity := default 0 (g_summary self !! "high_severity") in
  let medium_severity := default 0 (g_summary self !! "medium_severity") in
  ratio ← PyFloat.int_truediv issues_found total_patterns;
  issues_penalty ← PyFloat.mul_int ratio 100;
  let high_penalty := high_severity * 20 in
  let medium_penalty := medium_severity * 10 in
  d1 ← PyFloat.int_sub 100 issues_penalty;
  d2 ← PyFloat.sub_int d1 high_penalty;
  d3 ← PyFloat.sub_int d2 medium_penalty;
  let health_score := max_zero d3 in
  let '(rating, icon) :=
    if at_least health_score 90 then ("Excellent", STATUS_ICONS !!! "rocket")
    else if at_least health_score 75 then ("Good", STATUS_ICONS !!! "ok")
    else if at_least health_score 50 then ("Fair", STATUS_ICONS !!! "warning")
    else ("Needs Improvement", STATUS_ICONS !!! "error") in
  Ok (icon +:+ " Project Health: " +:+ format_score health_score
           +:+ "/100 (" +:+ rating +:+ ")").

Definition generate_report (self : Generator) : PyResult string :=
  let header := _generate_header in
  let project_info := _generate_project_info self in
  let category_status := _generate_category_status self in
  let priority_actions := _generate_priority_actions self in
  health_score ← _generate_health_score self;
  Ok (PyStr.join (newline +:+ newline)
        [header; project_info; category_status; priority_actions; health_score]).

(** The [summary] of a results document, as [json.load] gives it back *)
Definition summary_document (s : Summary) : gmap string Z :=
  list_to_map
    [ ("total_patterns", total_patterns s); ("issues_found", issues_found s);
      ("high_severity", high_severity s); ("medium_severity", medium_severity s);
      ("low_severity", low_severity s) ].

(** [__init__], for the results document that [detect] produces *)
Definition __init__ (results : Results) : Generator :=
  {| g_project_name := r_project_name results;
     g_project_types := r_project_types results;
     g_frameworks := r_frameworks results;
     g_detections := detections results;
     g_recommendations := recommendations results;
     g_summary := summary_document (summary results) |}.

End ReportGenerator.

(* ===================================================================== *)
(** ** Notions used to state the properties *)
(* ===================================================================== *)

Module Spec.

Import PatternDetector.

(** *** Priority scorer: the lookup tables as the specification words them *)

Definition confidence_weight (confidence : string) : PyFloat.float :=
  if String.eqb confidence "high" then PyFloat.literal 10 10
  else if String.eqb confidence "medium" then PyFloat.literal 7 10
  else if String.eqb confidence "low" then PyFloat.literal 4 10
  else PyFloat.literal 7 10.

Definition severity_base (severity : string) : Z :=
  if String.eqb severity "high" then 10
  else if String.eqb severity "medium" then 5
  else if String.eqb severity "low" then 2
  else 5.

Definition severity_multiplier (severity : string) : PyFloat.float :=
  if String.eqb severity "high" then PyFloat.literal 10 10
  else if String.eqb severity "medium" then PyFloat.literal 6 10
  else if String.eqb severity "low" then PyFloat.literal 3 10
  else PyFloat.literal 6 10.

(** *** Rule engine *)

(** The rule passes its [applies_when] gate. *)
Definition applicable (pattern : Pattern) (files directories : gset string) : bool :=
  negb (truthy (p_applies_when pattern)
        && negb (_check_condition (default "" (p_applies_when pattern))
                                  files directories)).

(** The [check] of the rule has the shape its type works on: a path
    for [file_absence], a path or a list of paths for
    [directory_absence]. *)
Definition well_formed (pattern : Pattern) : bool :=
  if type_is (p_type pattern) "file_absence" then
    match p_check pattern with CheckStr _ => true | _ => false end
  else if type_is (p_type pattern) "directory_absence" then
    match p_check pattern with CheckNone => false | _ => true end
  else true.

(** The type is none of the three that [_apply_pattern] dispatches on. *)
Definition unknown_type (pattern : Pattern) : bool :=
  negb (type_is (p_type pattern) "file_absence")
  && negb (type_is (p_type pattern) "directory_absence")
  && negb (type_is (p_type pattern) "file_quality").

(** The recommendation that [detect] derives from a detection *)
Definition advice_of (detection : Detection) : list Advice :=
  if issue_found detection then
    match d_recommendation detection with
    | Some recommendation =>
        [ {| a_id := d_id detection;
             a_template := template recommendation;
             a_reason := reason recommendation;
             a_severity := d_severity detection;
             a_confidence := d_confidence detection;
             priority_score := _calculate_priority detection |} ]
    | None => []
    end
  else [].

(** What one rule contributes to [detections] and to the
    recommendations, before they are sorted *)
Definition rule_detections (files directories : gset string)
           (project_structure : ProjectStructure) (pattern : Pattern)
  : list Detection :=
  match _apply_pattern pattern files directories project_structure with
  | Ok (Some detection) => [detection]
  | _ => []
  end.

Definition rule_advice (files directories : gset string)
           (project_structure : ProjectStructure) (pattern : Pattern)
  : list Advice :=
  flat_map advice_of (rule_detections files directories project_structure pattern).

(** The detection of an applicable rule on which no issue is found *)
Definition passing_detection (pattern : Pattern) : Detection :=
  {| d_id := p_id pattern;
     d_type := p_type pattern;
     d_confidence := default "medium" (p_confidence pattern);
     d_severity := default "medium" (p_severity pattern);
     issue_found := false;
     d_recommendation := None |}.

(** A positive, finite double *)
Definition positive_float (x : PyFloat.float) : Prop :=
  exists m e, x = S754_finite false m e.

(** A marker of a [directory_absence] rule is present in the inventory:
    a marker with a config-file extension as a file, any other as the
    prefix of a directory. *)
Definition config_extension (path : string) : bool :=
  PyStr.endswith path ".yml" || PyStr.endswith path ".yaml".

Definition marker_present (files directories : gset string) (path : string) : bool :=
  if config_extension path then bool_decide (path ∈ files)
  else any_in (fun d => PyStr.startswith d path) directories.

(** *** Report: reading the score back from the health line, as the
    integration test does with [re.search(r'(\d+)/100', report)] and
    [int(match.group(1))] *)

Definition is_digit (c : ascii) : bool :=
  let n := nat_of_ascii c in (48 <=? n)%nat && (n <=? 57)%nat.

(** The longest run of digits at the start of [s], and what follows *)
Fixpoint digits_prefix (s : string) : string * string :=
  match s with
  | EmptyString => ("", "")
  | String c s' =>
      if is_digit c then
        let '(d, rest) := digits_prefix s' in (String c d, rest)
      else ("", s)
  end.

Definition match_here (s : string) : option Z :=
  let '(d, rest) := digits_prefix s in
  if String.prefix "/100" rest then Z.of_uint <$> NilZero.uint_of_string d
  else None.

Fixpoint search_score (s : string) : option Z :=
  match s with
  | EmptyString => None
  | String c s' =>
      match match_here s with
      | Some n => Some n
      | None => search_score s'
      end
  end.

(** [s] holds no decimal digit. *)
Fixpoint no_digit (s : string) : bool :=
  match s with
  | EmptyString => true
  | String c s' => negb (is_digit c) && no_digit s'
  end.

(** *** Report: the category of a detection *)

Definition in_category (category : string) (d : Detection) : bool :=
  String.eqb (ReportGenerator._get_category (d_id d)) category.

(** The [categories] dict whose five lists are given by [base] *)
Definition categories_with (base : string -> list Detection)
  : list (string * list Detection) :=
  map (fun c => (c, base c)) (map fst ReportGenerator.categories).

(** *** Scanner *)

Import ProjectAnalyzer.

Definition slash_free (name : string) : bool := negb (PyStr.contains "/" name).

(** Every name in the tree satisfies [Q]. *)
Fixpoint names_sat (Q : string -> bool) (node : Node) : bool :=
  match node with
  | File => true
  | Dir entries =>
      (fix all (es : list (string * Node)) : bool :=
         match es with
         | [] => true
         | (name, sub) :: es' => Q name && names_sat Q sub && all es'
         end) entries
  end.

(** No name in the tree contains the path separator. *)
Definition names_ok (node : Node) : bool := names_sat slash_free node.

(** The names that the walk keeps *)
Definition kept (Q : string -> bool) (name : string) : Prop :=
  _should_skip name = false /\ Q name = true.

(** An inventory entry that is the path of kept names *)
Definition from_path (Q : string -> bool) (entry : string) : Prop :=
  exists path, path <> [] /\ entry = path_str path /\ Forall (kept Q) path.

(** The counters agree with the lists, and every entry is a path of kept
    names. *)
Definition consistent (Q : string -> bool) (st : Structure) : Prop :=
  file_count st = Z.of_nat (length (ProjectAnalyzer.files st))
  /\ directory_count st = Z.of_nat (length (ProjectAnalyzer.directories st))
  /\ Forall (from_path Q) (ProjectAnalyzer.files st)
  /\ Forall (from_path Q) (ProjectAnalyzer.directories st).

(** [resolves path node]: following [path] from [node] leads to an
    entry of the tree. *)
Fixpoint resolves (path : list string) (node : Node) : Prop :=
  match path with
  | [] => True
  | name :: path' =>
      match node with
      | File => False
      | Dir entries => exists sub, In (name, sub) entries /\ resolves path' sub
      end
  end.

(** [leads_to path node target]: following [path] from [node] ends at
    [target]. *)
Fixpoint leads_to (path : list string) (node target : Node) : Prop :=
  match path with
  | [] => node = target
  | name :: path' =>
      match node with
      | File => False
      | Dir entries => exists sub, In (name, sub) entries /\ leads_to path' sub target
      end
  end.

(** The walk of the sub-directories of a directory, as a function of its
    own *)
Fixpoint descend (rel_root : list string) (es : list (string * Node)) (s : Structure)
  : Structure :=
  match es with
  | [] => s
  | (name, File) :: es' => descend rel_root es' s
  | (name, (Dir _) as sub) :: es' =>
      if _should_skip name then descend rel_root es' s
      else descend rel_root es' (walk (rel_root ++ [name]) sub s)
  end.

(** [st'] holds every entry of [st]. *)
Definition extends (st st' : Structure) : Prop :=
  (forall e, In e (ProjectAnalyzer.files st) -> In e (ProjectAnalyzer.files st'))
  /\ (forall e, In e (ProjectAnalyzer.directories st) -> In e (ProjectAnalyzer.directories st')).

End Spec.

(* ===================================================================== *)
(** ** Further notions *)
(* ===================================================================== *)

Module SpecExtra.

Import ProjectAnalyzer PatternDetector Spec.

(** *** Scanner *)

(** The names and the extensions of the exclusion policy *)
Definition excluded_names : list string :=
  [ "node_modules"; "__pycache__"; ".git"; ".venv"; "venv";
    "target"; "dist"; "build"; ".next"; ".nuxt" ].

Definition excluded_extensions : list string := [".pyc"; ".class"; ".o"; ".so"].

(** [q] starts with one of the excluded names. *)
Definition excluded_by_prefix (q : string) : bool :=
  existsb (fun p => PyStr.startswith q p) excluded_names.

(** [entry] is the path of an entry of the tree, a directory or not as
    [directory] says, none of whose names is excluded. *)
Definition listed (root : Node) (directory : bool) (entry : string) : Prop :=
  exists path target,
    path <> [] /\ entry = path_str path
    /\ Forall (fun c => _should_skip c = false) path
    /\ leads_to path root target /\ is_dir target = directory.

(** Every entry recorded so far is a kept path of the tree. *)
Definition sound (root : Node) (st : Structure) : Prop :=
  Forall (listed root false) (ProjectAnalyzer.files st)
  /\ Forall (listed root true) (ProjectAnalyzer.directories st).

(** *** Rule engine *)

(** The detections on which an issue was found, and those among them of
    a given severity *)
Definition flagged (ds : list Detection) : list Detection :=
  List.filter issue_found ds.

Definition flagged_as (severity : string) (ds : list Detection) : list Detection :=
  List.filter (fun d => issue_found d && String.eqb (d_severity d) severity) ds.

(** The severity is one of the three that have a counter. *)
Definition counted_severity (d : Detection) : bool :=
  String.eqb (d_severity d) "high" || String.eqb (d_severity d) "medium"
  || String.eqb (d_severity d) "low".

(** The type is one of the two absence types. *)
Definition absence_type (pattern_type : option string) : bool :=
  type_is pattern_type "file_absence" || type_is pattern_type "directory_absence".

(** The condition of a variant holds on the inventory. *)
Definition variant_matches (files directories : gset string) (v : Variant) : bool :=
  _check_condition (default "" (v_condition v)) files directories.

(** The rank of a confidence or severity word; any word other than
    [high] and [low] ranks as [medium]. *)
Definition level (word : string) : Z :=
  if String.eqb word "high" then 3
  else if String.eqb word "low" then 1
  else 2.

(** Two inventories list the same paths, in any order and any number of
    times, and agree on the project's name, types and frameworks. *)
Definition same_inventory (a b : ProjectStructure) : Prop :=
  project_name a = project_name b
  /\ project_types a = project_types b
  /\ frameworks a = frameworks b
  /\ (forall f, In f (files a) <-> In f (files b))
  /\ (forall d, In d (directories a) <-> In d (directories b)).

(** A marker that the scanner never lists: it has a config-file
    extension, which [_check_directory_absence] does not look up, or it
    starts with an excluded name. *)
Definition unlisted_marker (path : string) : Prop :=
  config_extension path = true
  \/ exists q, excluded_by_prefix q = true /\ slash_free q = true
               /\ PyStr.startswith path q = true.

(** The markers that a [directory_absence] check looks up: those
    before the first marker with a config-file extension *)
Fixpoint looked_up (paths : list string) : list string :=
  match paths with
  | [] => []
  | path :: rest => if config_extension path then [] else path :: looked_up rest
  end.

(** *** Report: the status of a category *)

(** [ok] when no detection of the category is flagged, [error] when a
    flagged one has severity [high], [warning] otherwise *)
Definition status_word (mine : list Detection) : string :=
  if forallb (fun d => negb (issue_found d)) mine then "ok"
  else if existsb (fun d => issue_found d && String.eqb (d_severity d) "high") mine
       then "error"
       else "warning".

(** The entries of a category that has the detections [mine]: nothing
    when it has none, else its header and its flagged detections *)
Definition category_block (category : string) (mine : list Detection) : list string :=
  match mine with
  | [] => []
  | _ =>
      (category +:+ ": " +:+ ReportGenerator.STATUS_ICONS !!! status_word mine)
        :: map (fun d => "  " +:+ ReportGenerator._format_issue d) (flagged mine)
  end.

(** *** Scanner: manifests *)






End SpecExtra.

(* ===================================================================== *)
(** ** Strings *)
(* ===================================================================== *)

Section StringFacts.

Lemma append_cons (c : ascii) (a b : string) :
  String c a +:+ b = String c (a +:+ b).
Proof. reflexivity. Qed.

Lemma append_nil_l (a : string) : "" +:+ a = a.
Proof. reflexivity. Qed.

Lemma append_nil_r (a : string) : a +:+ "" = a.
Proof. induction a as [|c a IH]; [reflexivity|]. rewrite append_cons, IH. reflexivity. Qed.

Lemma append_assoc (a b c : string) : (a +:+ b) +:+ c = a +:+ b +:+ c.
Proof.
  induction a as [|x a IH]; [reflexivity|]. rewrite !append_cons, IH. reflexivity.
Qed.

Lemma prefix_iff (p s : string) :
  String.prefix p s = true <-> exists r, s = p +:+ r.
Proof.
  revert s; induction p as [|c p IH]; intros s; simpl.
  - split; [intros _; exists s; reflexivity | destruct s; reflexivity].
  - destruct s as [|c' s]; simpl.
    + split; [discriminate | intros [r Hr]; discriminate].
    + destruct (Ascii.ascii_dec c c') as [->|Hne].
      * rewrite IH. split; intros [r Hr]; exists r; rewrite append_cons in *; congruence.
      * split; [discriminate | intros [r Hr]; rewrite append_cons in Hr; congruence].
Qed.

Lemma contains_iff (sub s : string) :
  PyStr.contains sub s = true <-> exists pre post, s = pre +:+ sub +:+ post.
Proof.
  induction s as [|c s IH]; cbn [PyStr.contains].
  - rewrite orb_false_r, prefix_iff. split.
    + intros [r Hr]. exists "", r. exact Hr.
    + intros [pre [post H]]. destruct pre; [exists post; exact H | discriminate].
  - rewrite orb_true_iff, prefix_iff, IH. split.
    + intros [[r Hr] | [pre [post H]]].
      * exists "", r. exact Hr.
      * exists (String c pre), post. rewrite append_cons. congruence.
    + intros [pre [post H]]. destruct pre as [|c' pre].
      * left. exists post. exact H.
      * right. exists pre, post. rewrite append_cons in H. congruence.
Qed.

Lemma contains_trans (a b c : string) :
  PyStr.contains a b = true -> PyStr.contains b c = true -> PyStr.contains a c = true.
Proof.
  rewrite !contains_iff. intros [p1 [q1 ->]] [p2 [q2 ->]].
  exists (p2 +:+ p1), (q1 +:+ q2). rewrite !append_assoc. reflexivity.
Qed.

Lemma contains_join (sep x : string) (l : list string) :
  In x l -> PyStr.contains x (PyStr.join sep l) = true.
Proof.
  induction l as [|y l IH]; [intros []|].
  intros [->|Hin]; apply contains_iff.
  - destruct l as [|z l]; simpl.
    + exists "", "". rewrite append_nil_r. reflexivity.
    + exists "", (sep +:+ PyStr.join sep (z :: l)). reflexivity.
  - destruct l as [|z l]; [destruct Hin|].
    apply IH, contains_iff in Hin as [pre [post Hj]].
    exists (y +:+ sep +:+ pre), post.
    change (PyStr.join sep (y :: z :: l)) with (y +:+ sep +:+ PyStr.join sep (z :: l)).
    rewrite Hj, !append_assoc. reflexivity.
Qed.

Lemma substring_all (s : string) : String.substring 0 (String.length s) s = s.
Proof. induction s; simpl; congruence. Qed.

Lemma endswith_refl (s : string) : PyStr.endswith s s = true.
Proof.
  unfold PyStr.endswith. rewrite Nat.leb_refl, Nat.sub_diag, substring_all.
  simpl. apply String.eqb_refl.
Qed.

End StringFacts.

(* ===================================================================== *)
(** ** Dictionaries *)
(* ===================================================================== *)

Section DictFacts.

Context {V : Type}.

(** [d.get(k, default)] on a three-entry dict literal *)
Lemma dict_get3 (k1 k2 k3 : string) (v1 v2 v3 dflt : V) (k : string) :
  default dflt ((list_to_map [(k1, v1); (k2, v2); (k3, v3)] : gmap string V) !! k)
  = if String.eqb k k1 then v1
    else if String.eqb k k2 then v2
    else if String.eqb k k3 then v3
    else dflt.
Proof.
  cbn [list_to_map foldr uncurry fst snd].
  destruct (String.eqb_spec k k1) as [->|H1]; [rewrite lookup_insert_eq; reflexivity|].
  rewrite lookup_insert_ne by congruence.
  destruct (String.eqb_spec k k2) as [->|H2]; [rewrite lookup_insert_eq; reflexivity|].
  rewrite lookup_insert_ne by congruence.
  destruct (String.eqb_spec k k3) as [->|H3]; [rewrite lookup_insert_eq; reflexivity|].
  rewrite lookup_insert_ne by congruence.
  rewrite lookup_empty. reflexivity.
Qed.

End DictFacts.

(* ===================================================================== *)
(** ** Rule engine: [directory_absence] *)
(* ===================================================================== *)

Section DirectoryAbsence.

Import PatternDetector Spec.

(** A marker with a config-file extension ends the loop with "absent",
    whatever the inventory holds and whatever markers follow it. *)
Lemma directory_absence_config_marker (path : string) (rest : list string)
      (directories : gset string) :
  config_extension path = true ->
  directory_absence_loop (path :: rest) directories = true.
Proof.
  unfold config_extension. intros H. cbn [directory_absence_loop]. rewrite H. reflexivity.
Qed.

(** On markers without a config-file extension the loop does what the
    specification says: the issue is found iff no marker is present. *)
Lemma directory_absence_plain_markers (paths : list string)
      (files directories : gset string) :
  Forall (fun p => config_extension p = false) paths ->
  directory_absence_loop paths directories = true
  <-> Forall (fun p => marker_present files directories p = false) paths.
Proof.
  induction 1 as [|p paths Hp _ IH]; cbn [directory_absence_loop].
  - split; [constructor | reflexivity].
  - unfold config_extension in Hp. rewrite Hp.
    destruct (any_in (fun d => PyStr.startswith d p) directories) eqn:Hany.
    + split; [discriminate|]. intros HF. inversion HF as [|? ? Hm _]; subst.
      unfold marker_present, config_extension in Hm. rewrite Hp in Hm. congruence.
    + rewrite IH. split.
      * intros HF. constructor; [|exact HF].
        unfold marker_present, config_extension. rewrite Hp. exact Hany.
      * intros HF. inversion HF; assumption.
Qed.

(** The unit test of the rule engine: no CI directory, markers
    [.github/workflows] then [.gitlab-ci.yml] *)
Example directory_absence_unit_test :
  _check_directory_absence (CheckList [".github/workflows"; ".gitlab-ci.yml"])
                           (list_to_set ["src"; "tests"]) = Ok true.
Proof. vm_compute. reflexivity. Qed.

(** C1 (the code departs from the claim): with the marker list
    [.gitlab-ci.yml; .github/workflows] and an inventory that holds the
    directory [.github/workflows], the second marker is present but the
    check reports the issue, because the loop returns at the first
    marker; with the two markers swapped it reports no issue.  A
    config-file marker that exists as a file is not looked up either. *)
Theorem C1_directory_absence_stops_at_config_marker :
  let directories : gset string := list_to_set [".github/workflows"] in
  let files : gset string := list_to_set [".gitlab-ci.yml"] in
  marker_present files directories ".github/workflows" = true
  /\ marker_present files directories ".gitlab-ci.yml" = true
  /\ _check_directory_absence (CheckList [".gitlab-ci.yml"; ".github/workflows"])
                              directories = Ok true
  /\ _check_directory_absence (CheckList [".github/workflows"; ".gitlab-ci.yml"])
                              directories = Ok false
  /\ _check_directory_absence (CheckList [".gitlab-ci.yml"]) directories = Ok true.
Proof. vm_compute. repeat split; reflexivity. Qed.

End DirectoryAbsence.

(* ===================================================================== *)
(** ** Health score: division by the number of patterns *)
(* ===================================================================== *)

Section HealthScoreZero.

(** Both copies of the computation divide by [total_patterns] as it is
    found in the summary; the default of [1] only replaces a missing key. *)
Lemma health_score_zero_patterns (summary : gmap string Z) :
  summary !! "total_patterns" = Some 0 ->
  MemoryIntegration._calculate_health_score summary = Raise ZeroDivisionError
  /\ forall self, ReportGenerator.g_summary self = summary ->
                  ReportGenerator._generate_health_score self = Raise ZeroDivisionError.
Proof.
  intros H. split.
  - unfold MemoryIntegration._calculate_health_score. rewrite H. reflexivity.
  - intros self Hs. unfold ReportGenerator._generate_health_score.
    rewrite Hs, H. reflexivity.
Qed.

Lemma health_score_missing_total (summary : gmap string Z) :
  summary !! "total_patterns" = None ->
  MemoryIntegration._calculate_health_score summary
  = MemoryIntegration._calculate_health_score (<["total_patterns" := 1]> summary).
Proof.
  intros H. unfold MemoryIntegration._calculate_health_score.
  rewrite H, lookup_insert_eq, !lookup_insert_ne by discriminate. reflexivity.
Qed.

(** The four cases of the unit test of the persisted score *)
Example health_score_unit_test :
  map (fun '(total, issues, high, medium) =>
         MemoryIntegration._calculate_health_score
           (list_to_map [("total_patterns", total); ("issues_found", issues);
                         ("high_severity", high); ("medium_severity", medium)]))
      [(10, 0, 0, 0); (10, 1, 1, 0); (10, 4, 1, 2); (10, 10, 10, 0)]
  = [Ok 100; Ok 70; Ok 20; Ok 0].
Proof. vm_compute. reflexivity. Qed.

(** C2 (the code departs from the claim): for the summary of an empty
    rule set, all counters [0], neither function returns a score: the
    division raises [ZeroDivisionError]. *)
Theorem C2_health_score_raises_on_zero_patterns :
  let summary : gmap string Z :=
    list_to_map [("total_patterns", 0); ("issues_found", 0); ("high_severity", 0);
                 ("medium_severity", 0); ("low_severity", 0)] in
  MemoryIntegration._calculate_health_score summary = Raise ZeroDivisionError
  /\ ReportGenerator._generate_health_score
       (ReportGenerator.mkGenerator "demo" [] [] [] [] summary)
     = Raise ZeroDivisionError
  /\ ReportGenerator.generate_report
       (ReportGenerator.mkGenerator "demo" [] [] [] [] summary)
     = Raise ZeroDivisionError.
Proof. vm_compute. repeat split; reflexivity. Qed.

End HealthScoreZero.

(* ===================================================================== *)
(** ** Priority scorer *)
(* ===================================================================== *)

Section Priority.

Import PatternDetector Spec.

Lemma confidence_lookup (c : string) :
  default (PyFloat.literal 7 10) (confidence_map !! c) = confidence_weight c.
Proof. unfold confidence_map, confidence_weight. apply dict_get3. Qed.

Lemma severity_lookup (s : string) :
  default 5 (severity_map !! s) = severity_base s.
Proof. unfold severity_map, severity_base. apply dict_get3. Qed.

Lemma multiplier_lookup (s : string) :
  default (PyFloat.literal 6 10) (multiplier_map !! s) = severity_multiplier s.
Proof. unfold multiplier_map, severity_multiplier. apply dict_get3. Qed.

Lemma priority_as_product (detection : Detection) :
  _calculate_priority detection
  = PyFloat.mul
      (PyFloat.mul (confidence_weight (d_confidence detection))
                   (severity_multiplier (d_severity detection)))
      (PyFloat.constant (severity_base (d_severity detection))).
Proof.
  unfold _calculate_priority.
  rewrite confidence_lookup, severity_lookup, multiplier_lookup. reflexivity.
Qed.

(** C6: the priority score of a detection is the product, taken from
    left to right in double precision, of the confidence weight of its
    confidence, the severity multiplier of its severity and the severity
    base of its severity, each table defaulting to its [medium] entry. *)
Theorem C6_priority_is_product_of_lookups (confidence severity : string)
        (detection_id : string) (detection_type : option string) (found : bool)
        (recommendation : option Recommendation) :
  _calculate_priority
    (mkDetection detection_id detection_type confidence severity found recommendation)
  = PyFloat.mul
      (PyFloat.mul (confidence_weight confidence) (severity_multiplier severity))
      (PyFloat.constant (severity_base severity)).
Proof. apply priority_as_product. Qed.

(** The two values asserted by the unit test: [10.0] and [2.1]. *)
Example priority_high_high :
  _calculate_priority (mkDetection "x" None "high" "high" true None)
  = PyFloat.literal 10 1.
Proof. vm_compute. reflexivity. Qed.

Example priority_medium_medium :
  _calculate_priority (mkDetection "x" None "medium" "medium" true None)
  = PyFloat.literal 21 10.
Proof. vm_compute. reflexivity. Qed.

End Priority.

(* ===================================================================== *)
(** ** Health score: what is printed and what is persisted *)
(* ===================================================================== *)

Section HealthScoreLine.

Import Spec.

Lemma trunc_round_pos (m : positive) (e : Z) :
  0 <= PyFloat.trunc_pos m e
  /\ PyFloat.trunc_pos m e <= PyFloat.round_half_even_pos m e
     <= PyFloat.trunc_pos m e + 1.
Proof.
  unfold PyFloat.trunc_pos, PyFloat.round_half_even_pos.
  destruct (0 <=? e) eqn:He.
  - apply Z.leb_le in He. assert (0 < 2 ^ e) by (apply Z.pow_pos_nonneg; lia). nia.
  - apply Z.leb_gt in He. assert (Hd : 0 < 2 ^ (- e)) by (apply Z.pow_pos_nonneg; lia).
    assert (0 <= Z.pos m / 2 ^ (- e)) by (apply Z.div_pos; lia).
    destruct (2 * (Z.pos m mod 2 ^ (- e)) ?= 2 ^ (- e)); [destruct (Z.even _)| |]; lia.
Qed.

(** [max(0, x)] keeps [x] only when it is a positive number or [inf]. *)
Lemma max_zero_cases (x : PyFloat.float) :
  (max_zero x = Int 0)
  \/ (max_zero x = Float x
      /\ (x = S754_infinity false \/ exists m e, x = S754_finite false m e)).
Proof.
  unfold max_zero, PyFloat.gt_int.
  destruct x as [s|s| |s m e]; try destruct s; cbn; auto.
  right. split; [reflexivity|]. right. eauto.
Qed.

(** Decimal numerals are runs of digits. *)
Lemma digits_prefix_uint (u : Decimal.uint) (rest : string) :
  match rest with
  | EmptyString => True
  | String c _ => is_digit c = false
  end ->
  digits_prefix (NilEmpty.string_of_uint u +:+ rest)
  = (NilEmpty.string_of_uint u, rest).
Proof.
  intros Hrest.
  induction u as [|u IH|u IH|u IH|u IH|u IH|u IH|u IH|u IH|u IH|u IH];
    cbn [NilEmpty.string_of_uint];
    try (rewrite append_cons; cbn [digits_prefix];
         change (is_digit _) with true; cbv iota; rewrite IH; reflexivity).
  rewrite append_nil_l. destruct rest as [|c rest]; [reflexivity|].
  cbn [digits_prefix]. rewrite Hrest. reflexivity.
Qed.

Lemma of_Z_numeral (p : Z) :
  0 <= p ->
  exists u, u <> Decimal.Nil
            /\ PyStr.of_Z p = NilEmpty.string_of_uint u
            /\ Z.of_uint u = p.
Proof.
  intros Hp. destruct p as [|q|q]; [| |lia].
  - exists (Decimal.D0 Decimal.Nil). repeat split; discriminate.
  - exists (Pos.to_uint q). split; [apply Unsigned.to_uint_nonnil|]. split.
    + unfold PyStr.of_Z. cbn [Z.to_int NilZero.string_of_int].
      pose proof (Unsigned.to_uint_nonnil q) as Hn.
      destruct (Pos.to_uint q); [congruence|..]; reflexivity.
    + change (Z.of_uint (Pos.to_uint q)) with (Z.of_int (Z.to_int (Z.pos q))).
      apply DecimalZ.of_to.
Qed.

Lemma match_here_score (p : Z) (rest : string) :
  0 <= p -> match_here (PyStr.of_Z p +:+ "/100" +:+ rest) = Some p.
Proof.
  intros Hp. destruct (of_Z_numeral p Hp) as [u [Hu [-> Hz]]].
  unfold match_here. rewrite digits_prefix_uint by reflexivity.
  change (String.prefix "/100" ("/100" +:+ rest)) with (String.prefix "" rest).
  replace (String.prefix "" rest) with true by (destruct rest; reflexivity).
  replace (NilEmpty.string_of_uint u) with (NilZero.string_of_uint u)
    by (destruct u; [congruence|..]; reflexivity).
  rewrite NilZero.usu by exact Hu. cbn. congruence.
Qed.

Lemma match_here_no_digit (c : ascii) (s : string) :
  is_digit c = false -> match_here (String c s) = None.
Proof. intros H. unfold match_here. cbn [digits_prefix]. rewrite H.
  destruct (String.prefix "/100" (String c s)); reflexivity. Qed.

Lemma of_Z_nonempty (p : Z) : 0 <= p -> exists c s, PyStr.of_Z p = String c s.
Proof.
  intros Hp. destruct (of_Z_numeral p Hp) as [u [Hu [-> _]]].
  destruct u; [congruence|..]; cbn; eauto.
Qed.

(** The regular-expression search finds the score that follows a text
    without digits. *)
Lemma search_score_line (pre : string) (p : Z) (rest : string) :
  no_digit pre = true -> 0 <= p ->
  search_score (pre +:+ PyStr.of_Z p +:+ "/100" +:+ rest) = Some p.
Proof.
  intros Hpre Hp. induction pre as [|c pre IH].
  - rewrite append_nil_l. pose proof (match_here_score p rest Hp) as Hm.
    destruct (of_Z_nonempty p Hp) as [c [s Hs]]. rewrite Hs in *.
    rewrite append_cons in *. cbn [search_score]. rewrite Hm. reflexivity.
  - cbn [no_digit] in Hpre. apply andb_prop in Hpre as [Hc Hpre].
    rewrite append_cons. cbn [search_score].
    rewrite match_here_no_digit by (destruct (is_digit c); [discriminate|reflexivity]).
    apply IH. exact Hpre.
Qed.

End HealthScoreLine.

Section HealthScoreAgreement.

Import Spec.

Lemma health_line_score (icon rating : string) (p : Z) :
  no_digit (icon +:+ " Project Health: ") = true -> 0 <= p ->
  search_score (icon +:+ " Project Health: " +:+ PyStr.of_Z p
                     +:+ "/100 (" +:+ rating +:+ ")") = Some p.
Proof.
  intros Hpre Hp. rewrite <- (append_assoc icon).
  change ("/100 (" +:+ rating +:+ ")") with ("/100" +:+ " (" +:+ rating +:+ ")").
  apply search_score_line; assumption.
Qed.

(** The line built for a score [h] that is [0] or a positive double *)
Lemma health_line_of_number (h : Number) (v : Z) (line : string) :
  (h = Int 0 /\ v = 0
   \/ exists m e, h = Float (S754_finite false m e) /\ v = PyFloat.trunc_pos m e) ->
  (let '(rating, icon) :=
     if ReportGenerator.at_least h 90
     then ("Excellent", ReportGenerator.STATUS_ICONS !!! "rocket")
     else if ReportGenerator.at_least h 75
          then ("Good", ReportGenerator.STATUS_ICONS !!! "ok")
          else if ReportGenerator.at_least h 50
               then ("Fair", ReportGenerator.STATUS_ICONS !!! "warning")
               else ("Needs Improvement", ReportGenerator.STATUS_ICONS !!! "error") in
   icon +:+ " Project Health: " +:+ ReportGenerator.format_score h
        +:+ "/100 (" +:+ rating +:+ ")") = line ->
  exists p, search_score line = Some p /\ v <= p <= v + 1.
Proof.
  intros Hh Hline.
  assert (Hfmt : exists p, ReportGenerator.format_score h = PyStr.of_Z p
                           /\ 0 <= p /\ v <= p <= v + 1).
  { destruct Hh as [[-> ->] | [m [e [-> ->]]]].
    - exists 0. cbn. repeat split; lia.
    - exists (PyFloat.round_half_even_pos m e).
      pose proof (trunc_round_pos m e). cbn [ReportGenerator.format_score PyFloat.format_0f].
      rewrite append_nil_l. repeat split; lia. }
  destruct Hfmt as [p [Hf [Hp Hb]]]. exists p. split; [|exact Hb].
  subst line. rewrite Hf.
  destruct (ReportGenerator.at_least h 90);
    [|destruct (ReportGenerator.at_least h 75);
      [|destruct (ReportGenerator.at_least h 50)]];
    apply health_line_score; try assumption; vm_compute; reflexivity.
Qed.

(** Whenever the persistence collaborator obtains a score [v] for a
    summary, the report's health line is produced for the same summary
    and the integer read back from it is [v] or [v + 1]. *)
Lemma printed_score_is_stored_or_one_more
      (self : ReportGenerator.Generator) (v : Z) :
  MemoryIntegration._calculate_health_score (ReportGenerator.g_summary self) = Ok v ->
  exists line p,
    ReportGenerator._generate_health_score self = Ok line
    /\ search_score line = Some p
    /\ v <= p <= v + 1.
Proof.
  unfold MemoryIntegration._calculate_health_score,
         ReportGenerator._generate_health_score.
  destruct (PyFloat.int_truediv _ _) as [ratio|]; cbn [mbind PyResult_bind];
    [|discriminate].
  destruct (PyFloat.mul_int ratio 100) as [penalty|]; cbn [mbind PyResult_bind];
    [|discriminate].
  destruct (PyFloat.int_sub 100 penalty) as [d1|]; cbn [mbind PyResult_bind];
    [|discriminate].
  destruct (PyFloat.sub_int d1 _) as [d2|]; cbn [mbind PyResult_bind];
    [|discriminate].
  destruct (PyFloat.sub_int d2 _) as [d3|]; cbn [mbind PyResult_bind];
    [|discriminate].
  intros Hv. eexists.
  assert (Hh : max_zero d3 = Int 0 /\ v = 0
               \/ exists m e, max_zero d3 = Float (S754_finite false m e)
                              /\ v = PyFloat.trunc_pos m e).
  { destruct (max_zero_cases d3) as [H0 | [Hf [-> | [m [e ->]]]]].
    - rewrite H0 in Hv. left. split; congruence.
    - rewrite Hf in Hv. discriminate.
    - rewrite Hf in Hv. right. exists m, e. split; [assumption|].
      cbn in Hv. congruence. }
  destruct (health_line_of_number _ v _ Hh eq_refl) as [p [Hs Hb]].
  exists p. split; [|split; [exact Hs|exact Hb]].
  destruct (if ReportGenerator.at_least (max_zero d3) 90 then _ else _) as [rating icon].
  reflexivity.
Qed.

(** C3 (the code departs from the claim): for three patterns and one
    issue of low severity the score is 66.67; the report prints it with
    [.0f] as [67] and the integer read back from its health line is 67,
    while the persistence collaborator converts the same score with
    [int()] and stores 66.  The two copies of the formula do not end in
    the same conversion. *)
Theorem C3_printed_score_differs_from_stored_score :
  let summary : gmap string Z :=
    list_to_map [("total_patterns", 3); ("issues_found", 1); ("high_severity", 0);
                 ("medium_severity", 0); ("low_severity", 1)] in
  let self := ReportGenerator.mkGenerator "demo" [] [] [] [] summary in
  let line :=
    ReportGenerator.STATUS_ICONS !!! "warning" +:+ " Project Health: 67/100 (Fair)" in
  ReportGenerator._generate_health_score self = Ok line
  /\ search_score line = Some 67
  /\ MemoryIntegration._calculate_health_score (ReportGenerator.g_summary self) = Ok 66.
Proof. vm_compute. repeat split; reflexivity. Qed.

End HealthScoreAgreement.

(* ===================================================================== *)
(** ** Report: the per-category status section *)
(* ===================================================================== *)

Section CategoryStatus.

Import PatternDetector ReportGenerator Spec.

Lemma get_category_taxonomy (detection_id : string) :
  In (_get_category detection_id)
     ["Git Configuration"; "Documentation"; "CI/CD"; "Code Quality"; "Setup"; "Other"].
Proof.
  unfold _get_category.
  repeat match goal with
         | |- context [if ?b then _ else _] => destruct b
         end; cbn; tauto.
Qed.

Lemma group_step (base : string -> list Detection) (d : Detection) :
  (let category := _get_category (d_id d) in
   if has_category category (categories_with base)
   then append_to category d (categories_with base)
   else categories_with base)
  = categories_with (fun c => base c ++ (if in_category c d then [d] else [])).
Proof.
  unfold in_category, categories_with.
  pose proof (get_category_taxonomy (d_id d)) as H. cbn [In] in H.
  destruct H as [H|[H|[H|[H|[H|[H|[]]]]]]]; rewrite <- H; cbn;
    rewrite ?app_nil_r; reflexivity.
Qed.

Lemma group_fold (ds : list Detection) (base : string -> list Detection) :
  fold_left
    (fun cats detection =>
       let category := _get_category (d_id detection) in
       if has_category category cats then append_to category detection cats
       else cats)
    ds (categories_with base)
  = categories_with (fun c => base c ++ List.filter (in_category c) ds).
Proof.
  revert base. induction ds as [|d ds IH]; intros base; cbn [fold_left].
  - unfold categories_with. apply map_ext. intros c. cbn. rewrite app_nil_r. reflexivity.
  - rewrite group_step, IH. unfold categories_with. apply map_ext. intros c.
    cbn [List.filter]. rewrite <- app_assoc. destruct (in_category c d); reflexivity.
Qed.

(** Each of the five categories of the dict receives the detections whose
    id maps to it, in their order; the others are dropped. *)
Lemma group_detections_spec (ds : list Detection) :
  group_detections ds
  = map (fun c => (c, List.filter (in_category c) ds)) (map fst categories).
Proof.
  unfold group_detections.
  change categories with (categories_with (fun _ => [])).
  rewrite group_fold. reflexivity.
Qed.

Lemma category_status_lines_spec (ds : list Detection) :
  category_status_lines ds
  = flat_map (fun c => category_lines c (List.filter (in_category c) ds))
             (map fst categories).
Proof.
  unfold category_status_lines. rewrite group_detections_spec.
  induction (map fst categories) as [|c cs IH]; [reflexivity|].
  cbn [map flat_map fst snd]. rewrite IH. reflexivity.
Qed.

Lemma category_lines_header (c : string) (l : list Detection) :
  l <> [] ->
  exists icon,
    In icon [STATUS_ICONS !!! "ok"; STATUS_ICONS !!! "error"; STATUS_ICONS !!! "warning"]
    /\ In (c +:+ ": " +:+ icon) (category_lines c l).
Proof.
  intros Hl. destruct l as [|d l]; [congruence|]. unfold category_lines.
  destruct (List.filter issue_found (d :: l)) as [|i rest].
  - eexists. split; [|left; reflexivity]. cbn; tauto.
  - destruct (existsb _ _); (eexists; split; [|left; reflexivity]); cbn; tauto.
Qed.

Lemma category_lines_issue (c : string) (l : list Detection) (d : Detection) :
  In d l -> issue_found d = true ->
  In ("  " +:+ _format_issue d) (category_lines c l).
Proof.
  intros Hin Hd. destruct l as [|d' l]; [destruct Hin|]. unfold category_lines.
  right. apply in_map_iff. exists d. split; [reflexivity|].
  apply filter_In. split; assumption.
Qed.

Lemma listed_category (detection_id : string) :
  _get_category detection_id <> "Other" ->
  In (_get_category detection_id) (map fst categories).
Proof.
  intros Hne. pose proof (get_category_taxonomy detection_id) as H.
  cbn in *. intuition congruence.
Qed.

Lemma other_not_listed (c : string) : In c (map fst categories) -> c <> "Other".
Proof. cbn. intuition (subst; discriminate). Qed.

End CategoryStatus.

Section CategoryStatusClaim.

Import PatternDetector ReportGenerator Spec.

Lemma flat_map_pointwise {A B : Type} (f g : A -> list B) (l : list A) :
  (forall x, In x l -> f x = g x) -> flat_map f l = flat_map g l.
Proof.
  induction l as [|x l IH]; intros H; [reflexivity|]. cbn [flat_map].
  rewrite (H x) by (left; reflexivity). rewrite IH; [reflexivity|].
  intros y Hy. apply H. right. exact Hy.
Qed.

Lemma listed_category_rendered (ds : list Detection) (d : Detection) :
  In d ds -> _get_category (d_id d) <> "Other" ->
  (exists icon,
      In icon [STATUS_ICONS !!! "ok"; STATUS_ICONS !!! "error"; STATUS_ICONS !!! "warning"]
      /\ In (_get_category (d_id d) +:+ ": " +:+ icon) (category_status_lines ds))
  /\ (issue_found d = true ->
      In ("  " +:+ _format_issue d) (category_status_lines ds)).
Proof.
  intros Hin Hne. rewrite category_status_lines_spec.
  assert (Hd : In d (List.filter (in_category (_get_category (d_id d))) ds)).
  { apply filter_In. split; [exact Hin|]. unfold in_category. apply String.eqb_refl. }
  pose proof (listed_category _ Hne) as Hc. split.
  - destruct (category_lines_header (_get_category (d_id d)) _
                (fun H => eq_ind _ (fun l => In d l) Hd _ H)) as [icon [Hi Hl]].
    exists icon. split; [exact Hi|]. apply in_flat_map. eauto.
  - intros Hissue. apply in_flat_map. eexists. split; [exact Hc|].
    apply category_lines_issue; assumption.
Qed.

Lemma filter_listed_without_other (c : string) (ds : list Detection) :
  c <> "Other" ->
  List.filter (in_category c) (List.filter (fun d => negb (in_category "Other" d)) ds)
  = List.filter (in_category c) ds.
Proof.
  intros Hc. induction ds as [|d ds IH]; [reflexivity|]. cbn [List.filter].
  destruct (in_category "Other" d) eqn:Ho; cbn [negb List.filter];
    destruct (in_category c d) eqn:Hd; rewrite ?IH; try reflexivity.
  unfold in_category in Ho, Hd. apply String.eqb_eq in Ho, Hd. congruence.
Qed.

Lemma other_detections_dropped (ds : list Detection) :
  category_status_lines ds
  = category_status_lines
      (List.filter (fun d => negb (in_category "Other" d)) ds).
Proof.
  rewrite !category_status_lines_spec. apply flat_map_pointwise. intros c Hc.
  rewrite filter_listed_without_other by (apply other_not_listed; exact Hc).
  reflexivity.
Qed.

(** C4 (amended): every detection is assigned exactly one category of
    the six-name taxonomy; when that category is one of the five listed
    ones, the status section holds the category's status line and, for an
    unresolved issue, the issue's line; detections of category "Other"
    are left out of the section, which is rendered as if they were not
    there. *)
Theorem C4_listed_categories_rendered_other_dropped
        (self : Generator) (d : Detection) :
  In d (g_detections self) ->
  In (_get_category (d_id d))
     ["Git Configuration"; "Documentation"; "CI/CD"; "Code Quality"; "Setup"; "Other"]
  /\ (_get_category (d_id d) <> "Other" ->
      (exists icon,
          In icon [STATUS_ICONS !!! "ok"; STATUS_ICONS !!! "error";
                   STATUS_ICONS !!! "warning"]
          /\ PyStr.contains (_get_category (d_id d) +:+ ": " +:+ icon)
                            (_generate_category_status self) = true)
      /\ (issue_found d = true ->
          PyStr.contains ("  " +:+ _format_issue d)
                         (_generate_category_status self) = true))
  /\ _generate_category_status self
     = PyStr.join newline
         (category_status_lines
            (List.filter (fun d => negb (in_category "Other" d)) (g_detections self))).
Proof.
  intros Hin. split; [apply get_category_taxonomy|]. split.
  - intros Hne. destruct (listed_category_rendered _ _ Hin Hne) as [[icon [Hi Hl]] Hissue].
    unfold _generate_category_status. split.
    + exists icon. split; [exact Hi|]. apply contains_join. exact Hl.
    + intros Hd. apply contains_join. apply Hissue. exact Hd.
  - unfold _generate_category_status. rewrite <- other_detections_dropped. reflexivity.
Qed.

Lemma C4_listed_categories_witness :
  let d := mkDetection "missing-gitignore" (Some "file_absence") "high" "medium" true None in
  let self := mkGenerator "demo" ["node"] [] [d] [] ∅ in
  In d (g_detections self)
  /\ (In (_get_category (d_id d))
         ["Git Configuration"; "Documentation"; "CI/CD"; "Code Quality"; "Setup"; "Other"]
      /\ (_get_category (d_id d) <> "Other" ->
          (exists icon,
              In icon [STATUS_ICONS !!! "ok"; STATUS_ICONS !!! "error";
                       STATUS_ICONS !!! "warning"]
              /\ PyStr.contains (_get_category (d_id d) +:+ ": " +:+ icon)
                                (_generate_category_status self) = true)
          /\ (issue_found d = true ->
              PyStr.contains ("  " +:+ _format_issue d)
                             (_generate_category_status self) = true))
      /\ _generate_category_status self
         = PyStr.join newline
             (category_status_lines
                (List.filter (fun d => negb (in_category "Other" d))
                             (g_detections self)))).
Proof.
  intros d self.
  assert (H : In d (g_detections self)) by (left; reflexivity).
  split; [exact H|].
  exact (C4_listed_categories_rendered_other_dropped self d H).
Defined.

(** C4 as claimed fails: an unresolved issue whose id matches no
    substring of the taxonomy is categorised "Other", the status section
    is empty and the word "Other" occurs nowhere in the report. *)
Lemma C4_counterexample_other_not_rendered :
  let d :=
    mkDetection "missing-tests" (Some "directory_absence") "high" "high" true
                (Some (mkRecommendation "testing/setup" "No tests found" None)) in
  let self :=
    mkGenerator "demo" ["node"] [] [d] []
                (list_to_map [("total_patterns", 1); ("issues_found", 1);
                              ("high_severity", 1); ("medium_severity", 0);
                              ("low_severity", 0)]) in
  issue_found d = true
  /\ _get_category (d_id d) = "Other"
  /\ _generate_category_status self = ""
  /\ exists report, generate_report self = Ok report
                    /\ PyStr.contains "Other" report = false
                    /\ PyStr.contains (_format_issue d) report = false.
Proof.
  vm_compute. repeat split; try reflexivity. eexists. repeat split; reflexivity.
Qed.

End CategoryStatusClaim.

(* ===================================================================== *)
(** ** Scanner: ecosystem classification *)
(* ===================================================================== *)

Section ProjectTypes.

Import ProjectAnalyzer.

Lemma any_indicator_iff (files directories indicators : list string) :
  any_indicator files directories indicators = true
  <-> exists indicator,
      In indicator indicators /\ indicator_matches files directories indicator = true.
Proof.
  induction indicators as [|i rest IH]; cbn [any_indicator].
  - split; [discriminate | intros [? [[] _]]].
  - destruct (indicator_matches files directories i) eqn:Hi.
    + split; [intros _; exists i; split; [left; reflexivity | exact Hi] | reflexivity].
    + rewrite IH. split.
      * intros [j [Hj Hm]]. exists j. split; [right; exact Hj | exact Hm].
      * intros [j [[<-|Hj] Hm]]; [congruence | exists j; split; assumption].
Qed.

Lemma detect_loop_spec (files directories : list string)
      (table : list (string * list string)) (detected : list string) :
  detect_loop files directories table detected
  = detected
    ++ map fst (List.filter (fun e => any_indicator files directories (snd e)) table).
Proof.
  revert detected. induction table as [|[t inds] table IH]; intros detected;
    cbn [detect_loop List.filter snd].
  - rewrite app_nil_r. reflexivity.
  - rewrite IH. destruct (any_indicator files directories inds); cbn [map fst].
    + rewrite <- app_assoc. reflexivity.
    + reflexivity.
Qed.

Lemma detected_type_iff (files directories : list string) (project_type : string) :
  In project_type (_detect_project_types files directories)
  <-> exists indicators indicator,
      In (project_type, indicators) PROJECT_INDICATORS
      /\ In indicator indicators
      /\ indicator_matches files directories indicator = true.
Proof.
  unfold _detect_project_types. rewrite detect_loop_spec, app_nil_l, in_map_iff. split.
  - intros [[t inds] [Ht Hin]]. cbn in Ht. subst t.
    apply filter_In in Hin as [Hin Hany]. cbn [snd] in Hany.
    apply any_indicator_iff in Hany as [i [Hi Hm]]. eauto.
  - intros [inds [i [Hin [Hi Hm]]]]. exists (project_type, inds).
    split; [reflexivity|]. apply filter_In. split; [exact Hin|].
    apply any_indicator_iff. eauto.
Qed.

(** An indicator of the third kind is looked up as a suffix of the file
    paths; the exact match is a special case of it. *)
Lemma exact_indicator_iff (files directories : list string) (indicator : string) :
  PyStr.endswith indicator "/" = false ->
  PyStr.startswith indicator "*" = false ->
  indicator_matches files directories indicator = true
  <-> exists f, In f files /\ PyStr.endswith f indicator = true.
Proof.
  intros Hd Hp. unfold indicator_matches. rewrite Hd, Hp, orb_true_iff, existsb_exists.
  split.
  - intros [Hin | Hex]; [|exact Hex]. apply bool_decide_eq_true in Hin.
    exists indicator. split; [apply list_elem_of_In; exact Hin | apply endswith_refl].
  - intros Hex. right. exact Hex.
Qed.

(** C8 (amended): a project type is detected exactly when one of its
    indicators matches, and an indicator that neither ends with [/] nor
    starts with [*] matches exactly when some inventory file path ends
    with it, the path equal to the indicator included. *)
Theorem C8_exact_indicator_matches_by_suffix
        (files directories : list string) (project_type indicator : string)
        (indicators : list string) :
  In (project_type, indicators) PROJECT_INDICATORS ->
  In indicator indicators ->
  PyStr.endswith indicator "/" = false ->
  PyStr.startswith indicator "*" = false ->
  (indicator_matches files directories indicator = true
   <-> exists f, In f files /\ PyStr.endswith f indicator = true)
  /\ ((exists f, In f files /\ PyStr.endswith f indicator = true) ->
      In project_type (_detect_project_types files directories))
  /\ (In project_type (_detect_project_types files directories)
      <-> exists indicator',
          In indicator' indicators
          /\ indicator_matches files directories indicator' = true).
Proof.
  intros Htab Hind Hd Hp. split; [apply exact_indicator_iff; assumption|]. split.
  - intros Hex. apply detected_type_iff. exists indicators, indicator.
    repeat split; try assumption. apply exact_indicator_iff; assumption.
  - rewrite detected_type_iff. split.
    + intros [inds [i [Hin [Hi Hm]]]].
      assert (inds = indicators); [|subst; eauto].
      revert Hin Htab. unfold PROJECT_INDICATORS. cbn [In].
      intuition congruence.
    + intros [i [Hi Hm]]. eauto.
Qed.

Lemma C8_exact_indicator_witness :
  In ("node", ["package.json"; "package-lock.json"; "node_modules/"]) PROJECT_INDICATORS
  /\ In "package.json" ["package.json"; "package-lock.json"; "node_modules/"]
  /\ PyStr.endswith "package.json" "/" = false
  /\ PyStr.startswith "package.json" "*" = false
  /\ ((indicator_matches ["src/app/package.json"] ["src"; "src/app"] "package.json" = true
       <-> exists f, In f ["src/app/package.json"]
                     /\ PyStr.endswith f "package.json" = true)
      /\ ((exists f, In f ["src/app/package.json"]
                     /\ PyStr.endswith f "package.json" = true) ->
          In "node" (_detect_project_types ["src/app/package.json"] ["src"; "src/app"]))
      /\ (In "node" (_detect_project_types ["src/app/package.json"] ["src"; "src/app"])
          <-> exists indicator',
              In indicator' ["package.json"; "package-lock.json"; "node_modules/"]
              /\ indicator_matches ["src/app/package.json"] ["src"; "src/app"]
                                   indicator' = true)).
Proof.
  assert (H1 : In ("node", ["package.json"; "package-lock.json"; "node_modules/"])
                  PROJECT_INDICATORS) by (left; reflexivity).
  assert (H2 : In "package.json" ["package.json"; "package-lock.json"; "node_modules/"])
    by (left; reflexivity).
  assert (H3 : PyStr.endswith "package.json" "/" = false) by reflexivity.
  assert (H4 : PyStr.startswith "package.json" "*" = false) by reflexivity.
  repeat (split; [assumption|]).
  exact (C8_exact_indicator_matches_by_suffix
           ["src/app/package.json"] ["src"; "src/app"] "node" "package.json"
           ["package.json"; "package-lock.json"; "node_modules/"] H1 H2 H3 H4).
Defined.

(** C8 as claimed fails: the only file is [my-package.json], which is
    not the file [package.json] and no other indicator of [node], yet
    [node] is detected. *)
Lemma C8_counterexample_suffix_of_file_name :
  let files := ["my-package.json"] in
  let directories : list string := [] in
  _detect_project_types files directories = ["node"]
  /\ ~ In "package.json" files
  /\ indicator_matches files directories "package-lock.json" = false
  /\ indicator_matches files directories "node_modules/" = false.
Proof.
  cbv zeta. split; [vm_compute; reflexivity|]. split.
  - cbn [In]. intros [H|[]]. discriminate.
  - split; vm_compute; reflexivity.
Qed.

End ProjectTypes.

(* ===================================================================== *)
(** ** Rule engine: the detection loop *)
(* ===================================================================== *)

Section DetectLoop.

Import PatternDetector Spec.

Variable project_structure : ProjectStructure.
Variables files directories : gset string.

Local Abbreviation rule_detections' := (rule_detections files directories project_structure).
Local Abbreviation rule_advice' := (rule_advice files directories project_structure).

Lemma record_detection_fields (results : Results) (d : Detection) :
  detections (record_detection results d) = detections results ++ [d]
  /\ recommendations (record_detection results d)
     = recommendations results ++ advice_of d
  /\ total_patterns (summary (record_detection results d))
     = total_patterns (summary results).
Proof.
  unfold record_detection, advice_of.
  destruct (issue_found d); cbn; [destruct (d_recommendation d)|];
    cbn; rewrite ?app_nil_r; auto.
Qed.

Lemma fold_record_fields (ds : list Detection) (results : Results) :
  detections (fold_left record_detection ds results) = detections results ++ ds
  /\ recommendations (fold_left record_detection ds results)
     = recommendations results ++ flat_map advice_of ds
  /\ total_patterns (summary (fold_left record_detection ds results))
     = total_patterns (summary results).
Proof.
  revert results. induction ds as [|d ds IH]; intros results; cbn [fold_left flat_map].
  - rewrite !app_nil_r. auto.
  - destruct (IH (record_detection results d)) as [H1 [H2 H3]].
    destruct (record_detection_fields results d) as [G1 [G2 G3]].
    rewrite H1, H2, H3, G1, G2, G3, <- !app_assoc. auto.
Qed.

(** The loop appends, rule after rule, what each rule contributes. *)
Lemma detect_loop_ok (patterns : list Pattern) (results results' : Results) :
  detect_loop patterns files directories project_structure results = Ok results' ->
  results' = fold_left record_detection (flat_map rule_detections' patterns) results.
Proof.
  revert results. induction patterns as [|p patterns IH]; intros results;
    cbn [detect_loop flat_map].
  - intros [= <-]. reflexivity.
  - unfold rule_detections at 1.
    destruct (_apply_pattern p files directories project_structure) as [[d|]|e];
      cbn [mbind PyResult_bind]; [| |discriminate]; intros H; apply IH in H;
      rewrite H; [rewrite fold_left_app|]; reflexivity.
Qed.

(** The loop raises only when the evaluation of some rule does. *)
Lemma detect_loop_total (patterns : list Pattern) (results : Results) :
  Forall (fun p => exists d, _apply_pattern p files directories project_structure = Ok d)
         patterns ->
  exists results',
    detect_loop patterns files directories project_structure results = Ok results'.
Proof.
  intros H. revert results. induction H as [|p patterns [d Hd] _ IH]; intros results;
    cbn [detect_loop].
  - eauto.
  - rewrite Hd. cbn [mbind PyResult_bind]. apply IH.
Qed.

Lemma well_formed_evaluates (p : Pattern) :
  well_formed p = true ->
  exists d, _apply_pattern p files directories project_structure = Ok d.
Proof.
  unfold well_formed, _apply_pattern, check_issue. intros Hwf.
  destruct (truthy _ && negb _); [eauto|].
  destruct (type_is (p_type p) "file_absence").
  - destruct (p_check p); try discriminate. cbn. eauto.
  - destruct (type_is (p_type p) "directory_absence").
    + destruct (p_check p); try discriminate; cbn; eauto.
    + destruct (type_is (p_type p) "file_quality"); cbn; eauto.
Qed.

(** A rule that fails its [applies_when] gate contributes nothing, and
    an applicable rule at most the detection that carries its id. *)
Lemma inapplicable_rule_contributes_nothing (p : Pattern) :
  applicable p files directories = false ->
  _apply_pattern p files directories project_structure = Ok None
  /\ rule_detections' p = [].
Proof.
  unfold applicable, rule_detections, _apply_pattern. intros H.
  apply negb_false_iff in H. rewrite H. split; reflexivity.
Qed.

Lemma applicable_rule_detection (p : Pattern) (d : option Detection) :
  applicable p files directories = true ->
  _apply_pattern p files directories project_structure = Ok d ->
  exists d', d = Some d' /\ d_id d' = p_id p /\ rule_detections' p = [d'].
Proof.
  unfold applicable, rule_detections. intros H Hd. rewrite Hd.
  unfold _apply_pattern in Hd. apply negb_true_iff in H. rewrite H in Hd.
  destruct (check_issue _ _ _ _ _); cbn [mbind PyResult_bind] in Hd; [|discriminate].
  injection Hd as <-. eexists. repeat split.
Qed.

Lemma detection_ids (patterns : list Pattern) :
  Forall (fun p => exists d, _apply_pattern p files directories project_structure = Ok d)
         patterns ->
  map d_id (flat_map rule_detections' patterns)
  = map p_id (List.filter (fun p => applicable p files directories) patterns).
Proof.
  induction 1 as [|p patterns [d Hd] _ IH]; [reflexivity|].
  cbn [flat_map List.filter]. rewrite map_app, IH.
  destruct (applicable p files directories) eqn:Ha.
  - destruct (applicable_rule_detection p d Ha Hd) as [d' [_ [Hid ->]]].
    cbn. rewrite Hid. reflexivity.
  - destruct (inapplicable_rule_contributes_nothing p Ha) as [_ ->]. reflexivity.
Qed.

Lemma detect_loop_evaluates (patterns : list Pattern) (results results' : Results) :
  detect_loop patterns files directories project_structure results = Ok results' ->
  Forall (fun p => exists d, _apply_pattern p files directories project_structure = Ok d)
         patterns.
Proof.
  revert results. induction patterns as [|p patterns IH]; intros results;
    cbn [detect_loop]; [constructor|].
  destruct (_apply_pattern p files directories project_structure) as [d|e] eqn:Hp;
    cbn [mbind PyResult_bind]; [|discriminate].
  intros H. constructor; [exists d; exact Hp | eapply IH; exact H].
Qed.

Lemma flat_map_advice (patterns : list Pattern) :
  flat_map advice_of (flat_map rule_detections' patterns)
  = flat_map rule_advice' patterns.
Proof.
  induction patterns as [|p patterns IH]; [reflexivity|].
  cbn [flat_map]. rewrite flat_map_app, IH. reflexivity.
Qed.

End DetectLoop.

Section Detect.

Import PatternDetector Spec.

Lemma detect_spec (patterns : list Pattern) (ps : ProjectStructure) (results : Results) :
  let fs : gset string := list_to_set (files ps) in
  let ds : gset string := list_to_set (directories ps) in
  detect patterns ps = Ok results ->
  detections results = flat_map (rule_detections fs ds ps) patterns
  /\ recommendations results
     = PyList.sort_reverse priority_score PyFloat.ltb
         (flat_map (rule_advice fs ds ps) patterns)
  /\ total_patterns (summary results) = Z.of_nat (length patterns)
  /\ Forall (fun p => exists d, _apply_pattern p fs ds ps = Ok d) patterns.
Proof.
  intros fs ds. unfold detect. fold fs ds.
  destruct (detect_loop patterns fs ds ps _) as [r|e] eqn:Hloop;
    cbn [mbind PyResult_bind]; [|discriminate].
  intros [= <-]. cbn [detections recommendations summary].
  pose proof (detect_loop_evaluates _ _ _ _ _ _ Hloop) as Hev.
  apply detect_loop_ok in Hloop. subst r.
  match goal with
  | |- context [fold_left record_detection ?l ?r0] =>
      destruct (fold_record_fields l r0) as [H1 [H2 H3]]
  end.
  rewrite H1, H2, H3. cbn [detections recommendations summary total_patterns app].
  rewrite flat_map_advice. auto.
Qed.

Lemma detect_total (patterns : list Pattern) (ps : ProjectStructure) :
  Forall (fun p => well_formed p = true) patterns ->
  exists results, detect patterns ps = Ok results.
Proof.
  intros Hwf. unfold detect.
  match goal with
  | |- context [detect_loop patterns ?fs ?ds ps ?r0] =>
      destruct (detect_loop_total ps fs ds patterns r0) as [r Hr]
  end.
  - eapply Forall_impl; [exact Hwf|]. intros p Hp. apply well_formed_evaluates. exact Hp.
  - rewrite Hr. cbn [mbind PyResult_bind]. eauto.
Qed.

(** C5: a rule set whose checks have the shape their type works on is
    always evaluated to a result; and in every result of [detect], the
    detections are, in rule order, what the rules contribute, a rule whose
    [applies_when] condition is false contributes nothing (the ids of the
    detections are the ids of the applicable rules), while
    [total_patterns] is the number of all loaded rules. *)
Theorem C5_inapplicable_rules_absent_but_counted
        (patterns : list Pattern) (ps : ProjectStructure) :
  let fs : gset string := list_to_set (files ps) in
  let ds : gset string := list_to_set (directories ps) in
  (Forall (fun p => well_formed p = true) patterns ->
   exists results, detect patterns ps = Ok results)
  /\ forall results,
      detect patterns ps = Ok results ->
      total_patterns (summary results) = Z.of_nat (length patterns)
      /\ detections results = flat_map (rule_detections fs ds ps) patterns
      /\ map d_id (detections results)
         = map p_id (List.filter (fun p => applicable p fs ds) patterns)
      /\ forall p, In p patterns -> applicable p fs ds = false ->
                   _apply_pattern p fs ds ps = Ok None
                   /\ rule_detections fs ds ps p = [].
Proof.
  intros fs ds. split; [apply detect_total|].
  intros results Hd. destruct (detect_spec _ _ _ Hd) as [H1 [_ [H3 Hev]]].
  fold fs ds in H1, Hev. repeat split; try assumption.
  - rewrite H1. apply detection_ids. exact Hev.
  - apply inapplicable_rule_contributes_nothing. assumption.
  - apply inapplicable_rule_contributes_nothing. assumption.
Qed.

Lemma C5_inapplicable_rules_witness :
  let node_rule :=
    mkPattern "missing-eslint" (Some "file_absence") (CheckStr ".eslintrc")
              (Some "package.json exists") (Some "medium") (Some "low") None in
  let readme_rule :=
    mkPattern "missing-readme" (Some "file_absence") (CheckStr "README.md")
              None (Some "high") (Some "high") None in
  let ps := mkProjectStructure "demo" ["python"] [] ["setup.py"; "README.md"] ["src"] in
  exists results,
    detect [node_rule; readme_rule] ps = Ok results
    /\ total_patterns (summary results) = 2
    /\ map d_id (detections results) = ["missing-readme"].
Proof.
  intros node_rule readme_rule ps.
  destruct (C5_inapplicable_rules_absent_but_counted [node_rule; readme_rule] ps)
    as [Htotal Hprops].
  destruct Htotal as [results Hres]; [repeat constructor|].
  exists results. split; [exact Hres|].
  destruct (Hprops results Hres) as [H1 [_ [H3 _]]].
  split; [exact H1 | exact H3].
Defined.

End Detect.

Section UnknownType.

Import PatternDetector Spec.

Lemma passing_rule_detection (pattern : Pattern) (ps : ProjectStructure)
      (fs ds : gset string) :
  applicable pattern fs ds = true ->
  check_issue (p_type pattern) (p_check pattern) fs ds ps = Ok false ->
  _apply_pattern pattern fs ds ps = Ok (Some (passing_detection pattern)).
Proof.
  unfold applicable, _apply_pattern. intros Ha Hc. apply negb_true_iff in Ha.
  rewrite Ha, Hc. reflexivity.
Qed.

Lemma unknown_type_no_issue (pattern : Pattern) (ps : ProjectStructure)
      (fs ds : gset string) :
  unknown_type pattern = true ->
  check_issue (p_type pattern) (p_check pattern) fs ds ps = Ok false.
Proof.
  unfold unknown_type, check_issue. intros H.
  apply andb_prop in H as [H H3]. apply andb_prop in H as [H1 H2].
  apply negb_true_iff in H1, H2, H3. rewrite H1, H2, H3. reflexivity.
Qed.

Lemma record_passing_detection (results : Results) (pattern : Pattern) :
  record_detection results (passing_detection pattern)
  = {| r_project_name := r_project_name results;
       r_project_types := r_project_types results;
       r_frameworks := r_frameworks results;
       detections := detections results ++ [passing_detection pattern];
       recommendations := recommendations results;
       summary := summary results |}.
Proof. reflexivity. Qed.

(** C10: an applicable rule whose type is missing or is none of the three
    known ones is evaluated without error to a detection with
    [issue_found = false], [confidence] and [severity] defaulting to
    [medium] and no recommendation: the record that an applicable rule of
    a known type yields when its check finds no issue.  Recording it only
    appends it to [detections]; it is among the detections of every run
    over a rule set that holds the rule, and [total_patterns] counts the
    rule. *)
Theorem C10_unknown_type_recorded_as_passing
        (pattern : Pattern) (ps : ProjectStructure) :
  let fs : gset string := list_to_set (files ps) in
  let ds : gset string := list_to_set (directories ps) in
  unknown_type pattern = true ->
  applicable pattern fs ds = true ->
  _apply_pattern pattern fs ds ps = Ok (Some (passing_detection pattern))
  /\ (forall results,
         detections (record_detection results (passing_detection pattern))
         = detections results ++ [passing_detection pattern]
         /\ recommendations (record_detection results (passing_detection pattern))
            = recommendations results
         /\ summary (record_detection results (passing_detection pattern))
            = summary results)
  /\ (forall before after,
         Forall (fun p => well_formed p = true) (before ++ after) ->
         exists results,
           detect (before ++ pattern :: after) ps = Ok results
           /\ In (passing_detection pattern) (detections results)
           /\ total_patterns (summary results)
              = Z.of_nat (length (before ++ pattern :: after)))
  /\ (forall known,
         applicable known fs ds = true ->
         check_issue (p_type known) (p_check known) fs ds ps = Ok false ->
         _apply_pattern known fs ds ps = Ok (Some (passing_detection known))).
Proof.
  intros fs ds Hu Ha.
  assert (Hp : _apply_pattern pattern fs ds ps = Ok (Some (passing_detection pattern))).
  { apply passing_rule_detection; [exact Ha | apply unknown_type_no_issue; exact Hu]. }
  split; [exact Hp|]. split; [|split].
  - intros results. rewrite record_passing_detection. repeat split.
  - intros before after Hwf.
    assert (Hev : Forall (fun p => exists d, _apply_pattern p fs ds ps = Ok d)
                         (before ++ pattern :: after)).
    { apply Forall_app in Hwf as [Hb Hf]. apply Forall_app. split; [|constructor].
      - eapply Forall_impl; [exact Hb|]. intros; apply well_formed_evaluates; assumption.
      - eauto.
      - eapply Forall_impl; [exact Hf|]. intros; apply well_formed_evaluates; assumption. }
    unfold detect. fold fs ds.
    match goal with
    | |- context [detect_loop _ fs ds ps ?r0] =>
        destruct (detect_loop_total ps fs ds _ r0 Hev) as [r Hr]
    end.
    rewrite Hr. cbn [mbind PyResult_bind]. eexists. split; [reflexivity|].
    cbn [detections summary]. apply detect_loop_ok in Hr. subst r.
    match goal with
    | |- context [fold_left record_detection ?l ?r0] =>
        destruct (fold_record_fields l r0) as [H1 [_ H3]]
    end.
    rewrite H1, H3. cbn [detections summary total_patterns app]. split; [|reflexivity].
    rewrite flat_map_app. apply in_or_app. right. cbn [flat_map].
    apply in_or_app. left. unfold rule_detections. rewrite Hp. left. reflexivity.
  - intros known. apply passing_rule_detection.
Qed.

Lemma C10_unknown_type_witness :
  let pattern :=
    mkPattern "has-changelog" (Some "file_presence") (CheckStr "CHANGELOG.md")
              None None None
              (Some (mkRecommendation "docs/changelog" "Keep a changelog" None)) in
  let ps := mkProjectStructure "demo" [] [] ["README.md"] ["src"] in
  unknown_type pattern = true
  /\ applicable pattern (list_to_set (files ps)) (list_to_set (directories ps)) = true
  /\ _apply_pattern pattern (list_to_set (files ps)) (list_to_set (directories ps)) ps
     = Ok (Some (mkDetection "has-changelog" (Some "file_presence") "medium" "medium"
                             false None)).
Proof.
  intros pattern ps.
  assert (Hu : unknown_type pattern = true) by reflexivity.
  assert (Ha : applicable pattern (list_to_set (files ps))
                          (list_to_set (directories ps)) = true) by reflexivity.
  split; [exact Hu|]. split; [exact Ha|].
  exact (proj1 (C10_unknown_type_recorded_as_passing pattern ps Hu Ha)).
Defined.

End UnknownType.

(* ===================================================================== *)
(** ** The reversed stable sort *)
(* ===================================================================== *)

Section SortFacts.

Context {A K : Type}.
Variable key : A -> K.
Variables lt eq : K -> K -> bool.

(** The keys on which [<] and [==] behave as an order: for the scores
    below, the positive doubles. *)
Variable ordered : K -> Prop.

Hypothesis lt_asym :
  forall x y, ordered x -> ordered y -> lt x y = true -> lt y x = false.
Hypothesis lt_negtrans :
  forall x y z, ordered x -> ordered y -> ordered z ->
                lt x y = false -> lt y z = false -> lt x z = false.
Hypothesis lt_not_eq :
  forall x y v, ordered x -> ordered y -> lt x y = true -> eq x v = true -> eq y v = false.

Local Abbreviation insert := (PyList.insert_reverse key lt).
Local Abbreviation sort := (PyList.sort_reverse key lt).

Local Abbreviation not_below := (PyList.not_below key lt).

Lemma insert_perm (x : A) (l : list A) : Permutation (insert x l) (x :: l).
Proof.
  induction l as [|y l IH]; cbn [PyList.insert_reverse]; [reflexivity|].
  destruct (lt (key x) (key y)); [|reflexivity].
  rewrite IH. apply perm_swap.
Qed.

Lemma sort_perm (l : list A) : Permutation (sort l) l.
Proof.
  induction l as [|x l IH]; cbn [PyList.sort_reverse]; [reflexivity|].
  rewrite insert_perm, IH. reflexivity.
Qed.

Lemma insert_sorted (x : A) (l : list A) :
  ordered (key x) -> Forall (fun a => ordered (key a)) l ->
  StronglySorted not_below l -> StronglySorted not_below (insert x l).
Proof.
  intros Hx Hl Hs. induction Hs as [|y l Hs IH Hy]; cbn [PyList.insert_reverse].
  - repeat constructor.
  - apply Forall_cons in Hl as [Hoy Hol].
    destruct (lt (key x) (key y)) eqn:Hxy.
    + constructor; [apply IH; exact Hol|].
      eapply Permutation_Forall; [symmetry; apply insert_perm|].
      constructor; [|exact Hy]. unfold PyList.not_below. apply lt_asym; assumption.
    + constructor; [constructor; assumption|].
      constructor; [exact Hxy|].
      rewrite Forall_forall in Hy, Hol |- *. intros z Hz.
      unfold PyList.not_below in *. eapply lt_negtrans; [| | |exact Hxy|apply Hy]; auto.
Qed.

Lemma sort_sorted (l : list A) :
  Forall (fun a => ordered (key a)) l -> StronglySorted not_below (sort l).
Proof.
  induction 1 as [|x l Hx Hl IH]; cbn [PyList.sort_reverse]; [constructor|].
  apply insert_sorted; [exact Hx| |exact IH].
  eapply Permutation_Forall; [symmetry; apply sort_perm|exact Hl].
Qed.

Lemma insert_stable (v : K) (x : A) (l : list A) :
  ordered (key x) -> Forall (fun a => ordered (key a)) l ->
  List.filter (fun a => eq (key a) v) (insert x l)
  = List.filter (fun a => eq (key a) v) (x :: l).
Proof.
  intros Hx Hl. induction Hl as [|y l Hy Hl IH]; cbn [PyList.insert_reverse];
    [reflexivity|].
  destruct (lt (key x) (key y)) eqn:Hxy; [|reflexivity].
  cbn [List.filter] in *. rewrite IH.
  destruct (eq (key x) v) eqn:Hev; [|reflexivity].
  rewrite (lt_not_eq _ _ v Hx Hy Hxy Hev). reflexivity.
Qed.

Lemma sort_stable (v : K) (l : list A) :
  Forall (fun a => ordered (key a)) l ->
  List.filter (fun a => eq (key a) v) (sort l)
  = List.filter (fun a => eq (key a) v) l.
Proof.
  induction 1 as [|x l Hx Hl IH]; cbn [PyList.sort_reverse]; [reflexivity|].
  rewrite insert_stable; [|exact Hx|].
  - cbn [List.filter]. rewrite IH. reflexivity.
  - eapply Permutation_Forall; [symmetry; apply sort_perm|exact Hl].
Qed.

End SortFacts.

(* ===================================================================== *)
(** ** Rule engine: the order of the recommendations *)
(* ===================================================================== *)

Section RecommendationOrder.

Import PatternDetector Spec.

Lemma ltb_positive (m1 m2 : positive) (e1 e2 : Z) :
  PyFloat.ltb (S754_finite false m1 e1) (S754_finite false m2 e2) = true
  <-> e1 < e2 \/ (e1 = e2 /\ (m1 < m2)%positive).
Proof.
  unfold PyFloat.ltb, SFltb, SFcompare.
  change (Pos.compare_cont Eq m1 m2) with (Pos.compare m1 m2).
  destruct (Z.compare_spec e1 e2); [destruct (Pos.compare_spec m1 m2)| |];
    split; intros; try discriminate; try reflexivity; lia.
Qed.

Lemma leb_positive (m1 m2 : positive) (e1 e2 : Z) :
  PyFloat.leb (S754_finite false m1 e1) (S754_finite false m2 e2) = true
  <-> e1 < e2 \/ (e1 = e2 /\ (m1 <= m2)%positive).
Proof.
  unfold PyFloat.leb, SFleb, SFcompare.
  change (Pos.compare_cont Eq m1 m2) with (Pos.compare m1 m2).
  destruct (Z.compare_spec e1 e2); [destruct (Pos.compare_spec m1 m2)| |];
    split; intros; try discriminate; try reflexivity; lia.
Qed.

Lemma eqb_positive (m : positive) (e : Z) (v : PyFloat.float) :
  PyFloat.eqb (S754_finite false m e) v = true -> v = S754_finite false m e.
Proof.
  unfold PyFloat.eqb, SFeqb, SFcompare. destruct v as [s|s| |s m' e'];
    try destruct s; try discriminate.
  change (Pos.compare_cont Eq m m') with (Pos.compare m m').
  destruct (Z.compare_spec e e'); [destruct (Pos.compare_spec m m')| |];
    intros; try discriminate. congruence.
Qed.

Lemma ltb_false_positive (x y : PyFloat.float) :
  positive_float x -> positive_float y ->
  PyFloat.ltb x y = false <-> PyFloat.leb y x = true.
Proof.
  intros [m1 [e1 ->]] [m2 [e2 ->]]. rewrite leb_positive.
  destruct (PyFloat.ltb _ _) eqn:H.
  - apply ltb_positive in H. split; [discriminate|lia].
  - split; [intros _|reflexivity].
    assert (Hn : ~ (e1 < e2 \/ e1 = e2 /\ (m1 < m2)%positive)).
    { intros Hc. apply ltb_positive in Hc. congruence. }
    lia.
Qed.

Lemma ltb_asym (x y : PyFloat.float) :
  positive_float x -> positive_float y ->
  PyFloat.ltb x y = true -> PyFloat.ltb y x = false.
Proof.
  intros [m1 [e1 ->]] [m2 [e2 ->]] H. apply ltb_positive in H.
  destruct (PyFloat.ltb (S754_finite false m2 e2) _) eqn:H'; [|reflexivity].
  apply ltb_positive in H'. lia.
Qed.

Lemma ltb_negtrans (x y z : PyFloat.float) :
  positive_float x -> positive_float y -> positive_float z ->
  PyFloat.ltb x y = false -> PyFloat.ltb y z = false -> PyFloat.ltb x z = false.
Proof.
  intros Hx Hy Hz. rewrite !ltb_false_positive by assumption.
  destruct Hx as [m1 [e1 ->]], Hy as [m2 [e2 ->]], Hz as [m3 [e3 ->]].
  rewrite !leb_positive. lia.
Qed.

Lemma ltb_not_eqb (x y v : PyFloat.float) :
  positive_float x -> positive_float y ->
  PyFloat.ltb x y = true -> PyFloat.eqb x v = true -> PyFloat.eqb y v = false.
Proof.
  intros [m1 [e1 ->]] [m2 [e2 ->]] Hlt Heq. apply eqb_positive in Heq. subst v.
  destruct (PyFloat.eqb _ _) eqn:H; [|reflexivity].
  apply eqb_positive in H. injection H as -> ->.
  apply ltb_positive in Hlt. lia.
Qed.

(** Every priority score is one of nine positive doubles. *)
Lemma priority_positive (d : Detection) : positive_float (_calculate_priority d).
Proof.
  rewrite priority_as_product.
  unfold confidence_weight, severity_multiplier, severity_base.
  repeat match goal with
         | |- context [String.eqb ?a ?b] => destruct (String.eqb a b)
         end; vm_compute; eauto.
Qed.

Lemma advice_positive (d : Detection) :
  Forall (fun a => positive_float (priority_score a)) (advice_of d).
Proof.
  unfold advice_of. destruct (issue_found d); [|constructor].
  destruct (d_recommendation d); repeat constructor. apply priority_positive.
Qed.

Lemma rule_advice_positive (fs ds : gset string) (ps : ProjectStructure)
      (patterns : list Pattern) :
  Forall (fun a => positive_float (priority_score a))
         (flat_map (rule_advice fs ds ps) patterns).
Proof.
  induction patterns as [|p patterns IH]; [constructor|].
  cbn [flat_map]. apply Forall_app. split; [|exact IH].
  unfold rule_advice, rule_detections.
  destruct (_apply_pattern p fs ds ps) as [[d|]|]; cbn [flat_map]; try constructor.
  rewrite app_nil_r. apply advice_positive.
Qed.

(** C7: the recommendations of a run are the recommendations of the
    rules, taken in configuration order, rearranged so that the scores
    never increase along the list, and such that the recommendations of
    any one score are in the same order as before. *)
Theorem C7_recommendations_sorted_stably
        (patterns : list Pattern) (ps : ProjectStructure) (results : Results) :
  let fs : gset string := list_to_set (files ps) in
  let ds : gset string := list_to_set (directories ps) in
  let in_rule_order := flat_map (rule_advice fs ds ps) patterns in
  detect patterns ps = Ok results ->
  Permutation (recommendations results) in_rule_order
  /\ StronglySorted
       (fun a b => PyFloat.leb (priority_score b) (priority_score a) = true)
       (recommendations results)
  /\ forall score,
      List.filter (fun a => PyFloat.eqb (priority_score a) score)
                  (recommendations results)
      = List.filter (fun a => PyFloat.eqb (priority_score a) score) in_rule_order.
Proof.
  intros fs ds in_rule_order Hd.
  destruct (detect_spec _ _ _ Hd) as [_ [H2 _]]. fold fs ds in_rule_order in H2.
  pose proof (rule_advice_positive fs ds ps patterns) as Hpos.
  fold in_rule_order in Hpos. rewrite H2. split; [apply sort_perm|]. split.
  - pose proof (sort_sorted priority_score PyFloat.ltb positive_float
                  ltb_asym ltb_negtrans in_rule_order Hpos) as Hs.
    assert (Hall : Forall (fun a => positive_float (priority_score a))
                     (PyList.sort_reverse priority_score PyFloat.ltb in_rule_order)).
    { eapply Permutation_Forall; [symmetry; apply sort_perm|exact Hpos]. }
    revert Hs Hall. generalize (PyList.sort_reverse priority_score PyFloat.ltb in_rule_order).
    intros l Hs. induction Hs as [|a l Hs IH Ha]; intros Hall; constructor.
    + apply IH. apply Forall_cons in Hall as [_ Hall]. exact Hall.
    + apply Forall_cons in Hall as [Hpa Hall].
      rewrite Forall_forall in Ha, Hall |- *. intros b Hb.
      apply ltb_false_positive; auto. apply Ha. exact Hb.
  - intros score.
    apply (sort_stable priority_score PyFloat.ltb PyFloat.eqb positive_float ltb_not_eqb).
    exact Hpos.
Qed.

Lemma C7_recommendations_witness :
  let rule id confidence severity :=
    mkPattern id (Some "file_absence") (CheckStr id) None (Some confidence)
              (Some severity) (Some (mkRecommendation id "missing" None)) in
  let patterns :=
    [rule "README.md" "medium" "medium"; rule ".gitignore" "high" "high";
     rule "LICENSE" "medium" "medium"] in
  let ps := mkProjectStructure "demo" [] [] ["main.py"] [] in
  exists results,
    detect patterns ps = Ok results
    /\ map a_id (recommendations results) = [".gitignore"; "README.md"; "LICENSE"]
    /\ StronglySorted
         (fun a b => PyFloat.leb (priority_score b) (priority_score a) = true)
         (recommendations results).
Proof.
  intros rule patterns ps.
  destruct (detect patterns ps) as [results|e] eqn:Hd; [|vm_compute in Hd; discriminate].
  exists results. split; [reflexivity|].
  destruct (C7_recommendations_sorted_stably patterns ps results Hd) as [_ [Hs _]].
  split; [|exact Hs].
  vm_compute in Hd. injection Hd as <-. reflexivity.
Defined.

End RecommendationOrder.

(* ===================================================================== *)
(** ** Scanner: the walk *)
(* ===================================================================== *)

Section Walk.

Import ProjectAnalyzer Spec.

Variable Q : string -> bool.

Lemma names_sat_entries (entries : list (string * Node)) :
  names_sat Q (Dir entries) = true ->
  Forall (fun e => Q (fst e) = true /\ names_sat Q (snd e) = true) entries.
Proof.
  induction entries as [|[name sub] es IH]; [constructor|].
  cbn [names_sat]. intros H.
  apply andb_prop in H as [H Hes]. apply andb_prop in H as [Hn Hs].
  constructor; [split; assumption | apply IH; exact Hes].
Qed.

Lemma append_directory_consistent (st : Structure) (path : list string) :
  consistent Q st -> path <> [] -> Forall (kept Q) path ->
  consistent Q (append_directory st path).
Proof.
  intros [Hf [Hd [Hfs Hds]]] Hne Hp. unfold consistent, append_directory.
  cbn [files directories file_count directory_count].
  rewrite length_app, Nat2Z.inj_add. cbn [length]. repeat split; try assumption; try lia.
  apply Forall_app. split; [exact Hds|]. constructor; [|constructor].
  exists path. auto.
Qed.

Lemma append_file_consistent (st : Structure) (path : list string) :
  consistent Q st -> path <> [] -> Forall (kept Q) path ->
  consistent Q (append_file st path).
Proof.
  intros [Hf [Hd [Hfs Hds]]] Hne Hp. unfold consistent, append_file.
  cbn [files directories file_count directory_count].
  rewrite length_app, Nat2Z.inj_add. cbn [length]. repeat split; try assumption; try lia.
  apply Forall_app. split; [exact Hfs|]. constructor; [|constructor].
  exists path. auto.
Qed.

Lemma extend_kept (rel_root : list string) (name : string) :
  Forall (kept Q) rel_root -> _should_skip name = false -> Q name = true ->
  rel_root ++ [name] <> [] /\ Forall (kept Q) (rel_root ++ [name]).
Proof.
  intros Hr Hs Hq. split; [destruct rel_root; discriminate|].
  apply Forall_app. split; [exact Hr|]. repeat constructor; assumption.
Qed.

Lemma directories_consistent (rel_root names : list string) (st : Structure) :
  Forall (kept Q) rel_root -> Forall (fun n => Q n = true) names -> consistent Q st ->
  consistent Q
    (fold_left (fun s dir_name => append_directory s (rel_root ++ [dir_name]))
               (List.filter (fun d => negb (_should_skip d)) names) st).
Proof.
  intros Hr Hn. revert st. induction Hn as [|n names Hq _ IH]; intros st Hst;
    cbn [List.filter fold_left]; [exact Hst|].
  destruct (_should_skip n) eqn:Hs; cbn [negb fold_left]; [apply IH; exact Hst|].
  apply IH. destruct (extend_kept rel_root n Hr Hs Hq).
  apply append_directory_consistent; assumption.
Qed.

Lemma files_consistent (rel_root names : list string) (st : Structure) :
  Forall (kept Q) rel_root -> Forall (fun n => Q n = true) names -> consistent Q st ->
  consistent Q
    (fold_left (fun s file_name =>
                  if _should_skip file_name then s
                  else append_file s (rel_root ++ [file_name]))
               names st).
Proof.
  intros Hr Hn. revert st. induction Hn as [|n names Hq _ IH]; intros st Hst;
    cbn [fold_left]; [exact Hst|].
  apply IH. destruct (_should_skip n) eqn:Hs; [exact Hst|].
  destruct (extend_kept rel_root n Hr Hs Hq).
  apply append_file_consistent; assumption.
Qed.

Lemma entry_names_sat (entries : list (string * Node)) (f : string * Node -> bool) :
  Forall (fun e => Q (fst e) = true /\ names_sat Q (snd e) = true) entries ->
  Forall (fun n => Q n = true) (map fst (List.filter f entries)).
Proof.
  induction 1 as [|e es [Hq _] _ IH]; cbn [List.filter]; [constructor|].
  destruct (f e); cbn [map]; [constructor|]; assumption.
Qed.

(** The walk keeps the inventory consistent. *)
Lemma walk_consistent (node : Node) :
  names_sat Q node = true ->
  forall rel_root st,
    Forall (kept Q) rel_root -> consistent Q st -> consistent Q (walk rel_root node st).
Proof.
  induction node as [|entries IH] using Node_induction; intros Hsat rel_root st Hr Hst.
  - exact Hst.
  - apply names_sat_entries in Hsat. cbn [walk].
    pose proof (directories_consistent rel_root (dir_names entries) st Hr
                  (entry_names_sat entries _ Hsat) Hst) as H1.
    pose proof (files_consistent rel_root (file_names entries) _ Hr
                  (entry_names_sat entries _ Hsat) H1) as H2.
    revert H2. generalize (fold_left
      (fun s file_name => if _should_skip file_name then s
                          else append_file s (rel_root ++ [file_name]))
      (file_names entries)
      (fold_left (fun s dir_name => append_directory s (rel_root ++ [dir_name]))
         (List.filter (fun d => negb (_should_skip d)) (dir_names entries)) st)).
    clear H1 Hst st. induction IH as [|[name sub] es Hsub _ IHes]; intros st Hst.
    + exact Hst.
    + apply Forall_cons in Hsat as [[Hq Hs] Hsat]. cbn [fst snd] in *.
      destruct sub as [|sub_entries]; [apply IHes; assumption|].
      destruct (_should_skip name) eqn:Hskip; [apply IHes; assumption|].
      apply IHes; [exact Hsat|].
      apply Hsub; [exact Hs| |exact Hst].
      apply (extend_kept rel_root name Hr Hskip Hq).
Qed.

End Walk.

Section PathStrings.

Import ProjectAnalyzer Spec.

Lemma slash_free_cons (c : ascii) (x : string) :
  slash_free (String c x) = true -> c <> "/"%char /\ slash_free x = true.
Proof.
  unfold slash_free. cbn [PyStr.contains String.prefix].
  destruct (Ascii.ascii_dec "/" c) as [<-|Hne].
  - destruct x; discriminate.
  - cbn [orb]. intros H. split; [congruence | exact H].
Qed.

Lemma slash_free_no_separator (x y r : string) :
  slash_free x = true -> x <> y +:+ "/" +:+ r.
Proof.
  unfold slash_free. intros H ->.
  assert (Hc : PyStr.contains "/" (y +:+ "/" +:+ r) = true)
    by (apply contains_iff; eauto).
  rewrite Hc in H. discriminate.
Qed.

Lemma first_component_unique (x y r r' : string) :
  slash_free x = true -> slash_free y = true ->
  x +:+ "/" +:+ r = y +:+ "/" +:+ r' -> x = y /\ r = r'.
Proof.
  revert y. induction x as [|c x IH]; intros [|c' y] Hx Hy;
    rewrite ?append_cons, ?append_nil_l.
  - change ("/" +:+ r) with (String "/" r). change ("/" +:+ r') with (String "/" r').
    intros [= ->]. split; reflexivity.
  - change ("/" +:+ r) with (String "/" r). intros [= <- _].
    apply slash_free_cons in Hy as [Hc _]. congruence.
  - change ("/" +:+ r') with (String "/" r'). intros [= -> _].
    apply slash_free_cons in Hx as [Hc _]. congruence.
  - intros [= -> H]. apply slash_free_cons in Hx as [_ Hx], Hy as [_ Hy].
    destruct (IH y Hx Hy H) as [-> ->]. split; reflexivity.
Qed.

(** The string of a path determines its components. *)
Lemma path_str_injective (p q : list string) :
  p <> [] -> q <> [] ->
  Forall (fun c => slash_free c = true) p ->
  Forall (fun c => slash_free c = true) q ->
  path_str p = path_str q -> p = q.
Proof.
  unfold path_str. revert q. induction p as [|x p IH]; intros [|y q] Hp Hq Hsp Hsq;
    try congruence.
  apply Forall_cons in Hsp as [Hx Hsp]. apply Forall_cons in Hsq as [Hy Hsq].
  destruct p as [|x2 p], q as [|y2 q].
  - cbn [PyStr.join]. congruence.
  - change (PyStr.join "/" (y :: y2 :: q)) with (y +:+ "/" +:+ PyStr.join "/" (y2 :: q)).
    change (PyStr.join "/" [x]) with x.
    intros H. exfalso. exact (slash_free_no_separator _ _ _ Hx H).
  - change (PyStr.join "/" (x :: x2 :: p)) with (x +:+ "/" +:+ PyStr.join "/" (x2 :: p)).
    change (PyStr.join "/" [y]) with y.
    intros H. exfalso. exact (slash_free_no_separator _ _ _ Hy (eq_sym H)).
  - change (PyStr.join "/" (x :: x2 :: p)) with (x +:+ "/" +:+ PyStr.join "/" (x2 :: p)).
    change (PyStr.join "/" (y :: y2 :: q)) with (y +:+ "/" +:+ PyStr.join "/" (y2 :: q)).
    intros H. apply first_component_unique in H as [-> H]; [|assumption..].
    f_equal. apply IH; [discriminate|discriminate|assumption|assumption|exact H].
Qed.

Lemma resolves_names (Q : string -> bool) (path : list string) (node : Node) :
  names_sat Q node = true -> resolves path node ->
  Forall (fun c => Q c = true) path.
Proof.
  revert node. induction path as [|name path IH]; intros node Hsat Hres; [constructor|].
  destruct node as [|entries]; [destruct Hres|].
  destruct Hres as [sub [Hin Hres]].
  apply names_sat_entries in Hsat. rewrite List.Forall_forall in Hsat.
  destruct (Hsat _ Hin) as [Hq Hs]. constructor; [exact Hq | eapply IH; eassumption].
Qed.

Lemma names_sat_trivial (node : Node) : names_sat (fun _ => true) node = true.
Proof.
  induction node as [|entries IH] using Node_induction; [reflexivity|].
  cbn [names_sat]. induction IH as [|[name sub] es Hs _ IHes]; [reflexivity|].
  cbn [snd] in Hs. rewrite Hs, IHes. reflexivity.
Qed.

Lemma scan_consistent (Q : string -> bool) (root : Node) :
  names_sat Q root = true -> consistent Q (walk [] root (mkStructure [] [] 0 0 [])).
Proof.
  intros H. apply walk_consistent; [exact H|constructor|].
  repeat split; constructor.
Qed.

(** A scan: [node_modules] is not descended into, [main.pyc] is left
    out, directories are listed level by level before the walk goes down. *)
Example scan_structure_example :
  scan_structure
    (Dir [ ("src", Dir [("main.py", File); ("main.pyc", File); ("lib", Dir [])]);
           ("node_modules", Dir [("left-pad", Dir [("index.js", File)])]);
           ("package.json", File);
           ("docs", Dir [("index.md", File)]) ])
  = {| files := ["package.json"; "src/main.py"; "docs/index.md"];
       directories := ["src"; "docs"; "src/lib"];
       file_count := 3;
       directory_count := 3;
       project_types := ["node"] |}.
Proof. vm_compute. reflexivity. Qed.

(** C9: in the inventory of a scan the two counters are the lengths of
    the two lists and every entry is the path of names none of which the
    exclusion policy matches; names being free of the path separator,
    every way of reading an entry as a path has only such components,
    and no path of the tree that has an excluded component, its own name
    or any directory above it, is an entry. *)
Theorem C9_inventory_counts_and_exclusion (root : Node) :
  let inventory := scan_structure root in
  file_count inventory = Z.of_nat (length (files inventory))
  /\ directory_count inventory = Z.of_nat (length (directories inventory))
  /\ (forall entry,
         In entry (files inventory) \/ In entry (directories inventory) ->
         exists path, path <> [] /\ entry = path_str path
                      /\ Forall (fun c => _should_skip c = false) path)
  /\ (names_ok root = true ->
      (forall entry path,
          In entry (files inventory) \/ In entry (directories inventory) ->
          path <> [] -> Forall (fun c => slash_free c = true) path ->
          entry = path_str path ->
          Forall (fun c => _should_skip c = false) path)
      /\ (forall path,
             resolves path root ->
             Exists (fun c => _should_skip c = true) path ->
             ~ In (path_str path) (files inventory)
             /\ ~ In (path_str path) (directories inventory))).
Proof.
  cbv zeta. unfold scan_structure. cbn [files directories file_count directory_count].
  pose proof (scan_consistent (fun _ => true) root (names_sat_trivial root))
    as [Hf [Hd [Hfs Hds]]].
  split; [exact Hf|]. split; [exact Hd|]. split.
  - intros entry Hin. rewrite List.Forall_forall in Hfs, Hds.
    assert (Hfrom : from_path (fun _ => true) entry) by (destruct Hin; auto).
    destruct Hfrom as [path [Hne [He Hk]]]. exists path. repeat split; try assumption.
    eapply Forall_impl; [exact Hk|]. intros c [Hc _]. exact Hc.
  - intros Hok.
    pose proof (scan_consistent slash_free root Hok) as [_ [_ [Hfs' Hds']]].
    rewrite List.Forall_forall in Hfs', Hds'.
    assert (Hcomp : forall entry path,
               In entry (files (walk [] root (mkStructure [] [] 0 0 [])))
               \/ In entry (directories (walk [] root (mkStructure [] [] 0 0 []))) ->
               path <> [] -> Forall (fun c => slash_free c = true) path ->
               entry = path_str path ->
               Forall (fun c => _should_skip c = false) path).
    { intros entry path Hin Hne Hsf He.
      assert (Hfrom : from_path slash_free entry) by (destruct Hin; auto).
      destruct Hfrom as [q [Hq [He' Hk]]].
      assert (path = q).
      { apply path_str_injective; trivial; [|congruence].
        eapply Forall_impl; [exact Hk|]. intros c [_ Hc]. exact Hc. }
      subst q. eapply Forall_impl; [exact Hk|]. intros c [Hc _]. exact Hc. }
    split; [exact Hcomp|].
    intros path Hres Hex.
    assert (Hno : ~ (In (path_str path) (files (walk [] root (mkStructure [] [] 0 0 [])))
                     \/ In (path_str path)
                           (directories (walk [] root (mkStructure [] [] 0 0 []))))).
    { intros Hin.
      assert (Hall : Forall (fun c => _should_skip c = false) path).
      { apply (Hcomp _ path Hin); [|eapply resolves_names; eassumption|reflexivity].
        intros ->. inversion Hex. }
      apply Exists_exists in Hex as [c [Hc Hs]].
      rewrite Forall_forall in Hall. specialize (Hall c Hc). congruence. }
    split; intros Hin; apply Hno; auto.
Qed.

Lemma C9_inventory_witness :
  let root :=
    Dir [ ("src", Dir [("main.py", File); ("main.pyc", File)]);
          ("node_modules", Dir [("left-pad", Dir [("index.js", File)])]);
          ("README.md", File) ] in
  names_ok root = true
  /\ resolves ["node_modules"; "left-pad"; "index.js"] root
  /\ Exists (fun c => _should_skip c = true) ["node_modules"; "left-pad"; "index.js"]
  /\ ~ In "node_modules/left-pad/index.js" (files (scan_structure root))
  /\ ~ In "node_modules/left-pad/index.js" (directories (scan_structure root))
  /\ file_count (scan_structure root) = 2.
Proof.
  intros root.
  assert (Hok : names_ok root = true) by reflexivity.
  assert (Hres : resolves ["node_modules"; "left-pad"; "index.js"] root).
  { cbn. eexists. split; [right; left; reflexivity|].
    eexists. split; [left; reflexivity|].
    eexists. split; [left; reflexivity|]. exact I. }
  assert (Hex : Exists (fun c => _should_skip c = true)
                       ["node_modules"; "left-pad"; "index.js"])
    by (left; reflexivity).
  destruct (C9_inventory_counts_and_exclusion root) as [Hf [_ [_ Hno]]].
  destruct (proj2 (Hno Hok) _ Hres Hex) as [H1 H2].
  split; [exact Hok|]. split; [exact Hres|]. split; [exact Hex|].
  split; [exact H1|]. split; [exact H2|]. exact Hf.
Defined.

End PathStrings.

Section WalkComplete.

Import ProjectAnalyzer Spec.

Lemma walk_dir (rel_root : list string) (entries : list (string * Node)) (st : Structure) :
  walk rel_root (Dir entries) st
  = descend rel_root entries
      (fold_left (fun s file_name =>
                    if _should_skip file_name then s
                    else append_file s (rel_root ++ [file_name]))
                 (file_names entries)
                 (fold_left (fun s dir_name => append_directory s (rel_root ++ [dir_name]))
                            (List.filter (fun d => negb (_should_skip d))
                                         (dir_names entries)) st)).
Proof.
  cbn [walk]. generalize (fold_left
      (fun s file_name => if _should_skip file_name then s
                          else append_file s (rel_root ++ [file_name]))
      (file_names entries)
      (fold_left (fun s dir_name => append_directory s (rel_root ++ [dir_name]))
         (List.filter (fun d => negb (_should_skip d)) (dir_names entries)) st)).
  induction entries as [|[name [|sub]] es IH]; intros s; cbn [descend];
    [reflexivity | apply IH |].
  destruct (_should_skip name); apply IH.
Qed.

Lemma extends_refl (st : Structure) : extends st st.
Proof. split; auto. Qed.

Lemma extends_trans (a b c : Structure) : extends a b -> extends b c -> extends a c.
Proof. intros [H1 H2] [G1 G2]. split; auto. Qed.

Lemma extends_append_directory (st : Structure) (path : list string) :
  extends st (append_directory st path)
  /\ In (path_str path) (directories (append_directory st path)).
Proof.
  unfold extends, append_directory. cbn [files directories]. repeat split; auto.
  - intros e He. apply in_or_app. auto.
  - apply in_or_app. right. left. reflexivity.
Qed.

Lemma extends_append_file (st : Structure) (path : list string) :
  extends st (append_file st path)
  /\ In (path_str path) (files (append_file st path)).
Proof.
  unfold extends, append_file. cbn [files directories]. repeat split; auto.
  - intros e He. apply in_or_app. auto.
  - apply in_or_app. right. left. reflexivity.
Qed.

Lemma fold_directories_extends (rel_root names : list string) (st : Structure) :
  let st' := fold_left (fun s d => append_directory s (rel_root ++ [d])) names st in
  extends st st'
  /\ forall d, In d names -> In (path_str (rel_root ++ [d])) (directories st').
Proof.
  revert st. induction names as [|n names IH]; intros st; cbn [fold_left].
  - split; [apply extends_refl | intros d []].
  - destruct (IH (append_directory st (rel_root ++ [n]))) as [He Hin].
    destruct (extends_append_directory st (rel_root ++ [n])) as [He' Hn].
    split; [eapply extends_trans; eassumption|].
    intros d [<-|Hd]; [apply He; exact Hn | apply Hin; exact Hd].
Qed.

Lemma fold_files_extends (rel_root names : list string) (st : Structure) :
  let st' := fold_left (fun s f => if _should_skip f then s
                                   else append_file s (rel_root ++ [f])) names st in
  extends st st'
  /\ forall f, In f names -> _should_skip f = false ->
               In (path_str (rel_root ++ [f])) (files st').
Proof.
  revert st. induction names as [|n names IH]; intros st; cbn [fold_left].
  - split; [apply extends_refl | intros f []].
  - destruct (_should_skip n) eqn:Hs.
    + destruct (IH st) as [He Hin]. split; [exact He|].
      intros f [<-|Hf] Hk; [congruence | apply Hin; assumption].
    + destruct (IH (append_file st (rel_root ++ [n]))) as [He Hin].
      destruct (extends_append_file st (rel_root ++ [n])) as [He' Hn].
      split; [eapply extends_trans; eassumption|].
      intros f [<-|Hf] Hk; [apply He; exact Hn | apply Hin; assumption].
Qed.

(** The walk only adds entries. *)
Lemma walk_extends (node : Node) :
  forall rel_root st, extends st (walk rel_root node st).
Proof.
  induction node as [|entries IH] using Node_induction; intros rel_root st.
  - apply extends_refl.
  - rewrite walk_dir.
    assert (Hdesc : forall s, extends s (descend rel_root entries s)).
    { induction IH as [|[name [|sub]] es Hsub _ IHes]; intros s; cbn [descend].
      - apply extends_refl.
      - apply IHes.
      - destruct (_should_skip name); [apply IHes|].
        eapply extends_trans; [apply Hsub | apply IHes]. }
    eapply extends_trans; [|apply Hdesc].
    eapply extends_trans; [|apply (fold_files_extends rel_root (file_names entries))].
    apply (fold_directories_extends rel_root).
Qed.

Lemma descend_extends (rel_root : list string) (es : list (string * Node)) (s : Structure) :
  extends s (descend rel_root es s).
Proof.
  revert s. induction es as [|[name [|sub]] es IH]; intros s; cbn [descend].
  - apply extends_refl.
  - apply IH.
  - destruct (_should_skip name); [apply IH|].
    eapply extends_trans; [apply walk_extends | apply IH].
Qed.

Lemma walk_lists_entry (rel_root : list string) (entries : list (string * Node))
      (name : string) (sub : Node) (st : Structure) :
  In (name, sub) entries -> _should_skip name = false ->
  In (path_str (rel_root ++ [name]))
     (if is_dir sub then directories (walk rel_root (Dir entries) st)
      else files (walk rel_root (Dir entries) st)).
Proof.
  intros Hin Hk. rewrite walk_dir.
  match goal with
  | |- context [descend rel_root entries ?s2] =>
      destruct (descend_extends rel_root entries s2) as [Hdf Hdd]
  end.
  match goal with
  | |- context [fold_left _ (file_names entries) ?s1] =>
      destruct (fold_files_extends rel_root (file_names entries) s1) as [[_ Hfd] Hff]
  end.
  destruct (fold_directories_extends rel_root
              (List.filter (fun d => negb (_should_skip d)) (dir_names entries)) st)
    as [_ Hd].
  destruct (is_dir sub) eqn:Hsub.
  - apply Hdd, Hfd, Hd. apply filter_In. split; [|rewrite Hk; reflexivity].
    unfold dir_names. apply in_map_iff. exists (name, sub). split; [reflexivity|].
    apply filter_In. split; assumption.
  - apply Hdf, Hff; [|exact Hk].
    unfold file_names. apply in_map_iff. exists (name, sub). split; [reflexivity|].
    apply filter_In. split; [assumption|]. cbn [snd]. rewrite Hsub. reflexivity.
Qed.

Lemma descend_reaches (rel_root : list string) (es : list (string * Node))
      (name : string) (sub_entries : list (string * Node)) (P : Structure -> Prop) :
  In (name, Dir sub_entries) es -> _should_skip name = false ->
  (forall s, P (walk (rel_root ++ [name]) (Dir sub_entries) s)) ->
  (forall s s', extends s s' -> P s -> P s') ->
  forall s, P (descend rel_root es s).
Proof.
  intros Hin Hk Hsub Hmono. induction es as [|[n [|sub]] es IH]; intros s;
    [destruct Hin| |]; cbn [descend].
  - destruct Hin as [[=]|Hin]. apply IH. exact Hin.
  - destruct Hin as [[= -> ->]|Hin].
    + rewrite Hk. eapply Hmono; [apply descend_extends|apply Hsub].
    + destruct (_should_skip n); apply IH; exact Hin.
Qed.

(** Every path of the tree none of whose names is excluded is in the
    inventory: a directory among the directories, a file among the
    files. *)
Lemma walk_complete (path : list string) :
  path <> [] -> Forall (fun c => _should_skip c = false) path ->
  forall node target rel_root st,
    leads_to path node target ->
    In (path_str (rel_root ++ path))
       (if is_dir target then directories (walk rel_root node st)
        else files (walk rel_root node st)).
Proof.
  induction path as [|name path IH]; [congruence|]. intros _ Hk.
  apply Forall_cons in Hk as [Hname Hk].
  intros [|entries] target rel_root st; [intros []|].
  intros [sub [Hin Hlead]]. destruct path as [|name2 path].
  - cbn in Hlead. subst sub. apply walk_lists_entry; assumption.
  - destruct sub as [|sub_entries]; [destruct Hlead|].
    rewrite walk_dir.
    replace (rel_root ++ name :: name2 :: path)
      with ((rel_root ++ [name]) ++ name2 :: path) by (rewrite <- app_assoc; reflexivity).
    destruct (is_dir target) eqn:Ht.
    + apply (descend_reaches rel_root entries name sub_entries
               (fun s => In (path_str ((rel_root ++ [name]) ++ name2 :: path))
                            (directories s))); try assumption.
      * intros s. specialize (IH ltac:(discriminate) Hk (Dir sub_entries) target
                                 (rel_root ++ [name]) s Hlead).
        rewrite Ht in IH. exact IH.
      * intros s s' [_ He]. apply He.
    + apply (descend_reaches rel_root entries name sub_entries
               (fun s => In (path_str ((rel_root ++ [name]) ++ name2 :: path))
                            (files s))); try assumption.
      * intros s. specialize (IH ltac:(discriminate) Hk (Dir sub_entries) target
                                 (rel_root ++ [name]) s Hlead).
        rewrite Ht in IH. exact IH.
      * intros s s' [He _]. apply He.
Qed.

(** The inventory of a scan misses no path of the tree that is free of
    excluded names. *)
Lemma scan_complete (root target : Node) (path : list string) :
  path <> [] -> Forall (fun c => _should_skip c = false) path ->
  leads_to path root target ->
  In (path_str path)
     (if is_dir target then directories (scan_structure root)
      else files (scan_structure root)).
Proof.
  intros Hne Hk Hlead. unfold scan_structure.
  pose proof (walk_complete path Hne Hk root target [] (mkStructure [] [] 0 0 []) Hlead)
    as H.
  destruct (is_dir target); exact H.
Qed.

End WalkComplete.

(* ===================================================================== *)
(** ** Scanner: the exclusion policy *)
(* ===================================================================== *)

Section ExclusionPolicy.

Import ProjectAnalyzer Spec SpecExtra.

Lemma startswith_refl (s : string) : PyStr.startswith s s = true.
Proof. unfold PyStr.startswith. apply prefix_iff. exists "". symmetry. apply append_nil_r. Qed.

Lemma startswith_trans (s p q : string) :
  PyStr.startswith s p = true -> PyStr.startswith p q = true ->
  PyStr.startswith s q = true.
Proof.
  unfold PyStr.startswith. rewrite !prefix_iff. intros [r ->] [r' ->].
  exists (r' +:+ r). apply append_assoc.
Qed.

Lemma eqb_or_startswith (name pattern : string) :
  String.eqb name pattern || PyStr.startswith name pattern
  = PyStr.startswith name pattern.
Proof.
  destruct (String.eqb_spec name pattern) as [->|_]; [|reflexivity].
  rewrite startswith_refl. reflexivity.
Qed.

Lemma if_true_else (a b : bool) : (if a then true else b) = a || b.
Proof. destruct a; reflexivity. Qed.

Lemma should_skip_spec (name : string) :
  _should_skip name
  = existsb (fun p => PyStr.startswith name p) excluded_names
    || existsb (fun s => PyStr.endswith name s) excluded_extensions.
Proof.
  unfold excluded_names, excluded_extensions.
  unfold _should_skip, skip_patterns. cbn [should_skip_loop existsb].
  change (PyStr.startswith "node_modules" "*") with false.
  change (PyStr.startswith "__pycache__" "*") with false.
  change (PyStr.startswith ".git" "*") with false.
  change (PyStr.startswith ".venv" "*") with false.
  change (PyStr.startswith "venv" "*") with false.
  change (PyStr.startswith "target" "*") with false.
  change (PyStr.startswith "dist" "*") with false.
  change (PyStr.startswith "build" "*") with false.
  change (PyStr.startswith ".next" "*") with false.
  change (PyStr.startswith ".nuxt" "*") with false.
  change (PyStr.startswith "*.pyc" "*") with true.
  change (PyStr.startswith "*.class" "*") with true.
  change (PyStr.startswith "*.o" "*") with true.
  change (PyStr.startswith "*.so" "*") with true.
  cbv iota. rewrite !eqb_or_startswith, !if_true_else.
  change (PyStr.tail "*.pyc") with ".pyc". change (PyStr.tail "*.class") with ".class".
  change (PyStr.tail "*.o") with ".o". change (PyStr.tail "*.so") with ".so".
  rewrite !orb_false_r, <- !orb_assoc. reflexivity.
Qed.

(** A name that starts with a name excluded by prefix is excluded. *)
Lemma excluded_prefix_skipped (name q : string) :
  excluded_by_prefix q = true -> PyStr.startswith name q = true ->
  _should_skip name = true.
Proof.
  unfold excluded_by_prefix. rewrite should_skip_spec. intros Hq Hn.
  apply orb_true_iff. left.
  apply existsb_exists in Hq as [p [Hp Hqp]]. apply existsb_exists.
  exists p. split; [exact Hp|]. eapply startswith_trans; eassumption.
Qed.

(** X1: a name is excluded exactly when it starts with one of the ten
    listed names or ends with one of the four compiled-artifact
    extensions: the test for an exact name adds nothing to the prefix
    test, so that [builder.py], [distribution] or [.github] are excluded
    like [build], [dist] and [.git]. *)
Theorem X1_should_skip_prefix_or_suffix (name : string) :
  _should_skip name
  = existsb (fun p => PyStr.startswith name p)
            ["node_modules"; "__pycache__"; ".git"; ".venv"; "venv";
             "target"; "dist"; "build"; ".next"; ".nuxt"]
    || existsb (fun s => PyStr.endswith name s) [".pyc"; ".class"; ".o"; ".so"].
Proof. apply should_skip_spec. Qed.

End ExclusionPolicy.


(* ===================================================================== *)
(** ** Scanner: the inventory is the set of kept paths *)
(* ===================================================================== *)

Section InventoryExact.

Import ProjectAnalyzer Spec SpecExtra.

Variable root : Node.

Lemma leads_to_extend (rel : list string) (node : Node)
      (entries : list (string * Node)) (name : string) (sub : Node) :
  leads_to rel node (Dir entries) -> In (name, sub) entries ->
  leads_to (rel ++ [name]) node sub.
Proof.
  revert node. induction rel as [|r rel IH]; intros node; cbn [leads_to app].
  - intros -> Hin. exists sub. split; [exact Hin | reflexivity].
  - destruct node as [|es]; [intros []|].
    intros [s [Hs Hl]] Hin. exists s. split; [exact Hs | apply IH; assumption].
Qed.

Local Abbreviation sound := (sound root).

Lemma listed_child (rel : list string) (entries : list (string * Node))
      (name : string) (sub : Node) :
  leads_to rel root (Dir entries) -> Forall (fun c => _should_skip c = false) rel ->
  In (name, sub) entries -> _should_skip name = false ->
  listed root (is_dir sub) (path_str (rel ++ [name])).
Proof.
  intros Hl Hk Hin Hs. exists (rel ++ [name]), sub.
  split; [destruct rel; discriminate|]. split; [reflexivity|]. split.
  - apply Forall_app. split; [exact Hk | repeat constructor; exact Hs].
  - split; [eapply leads_to_extend; eassumption | reflexivity].
Qed.

Lemma fold_directories_sound (rel names : list string) (st : Structure) :
  (forall d, In d names -> listed root true (path_str (rel ++ [d]))) ->
  sound st ->
  sound (fold_left (fun s d => append_directory s (rel ++ [d])) names st).
Proof.
  revert st. induction names as [|n names IH]; intros st Hn Hst; cbn [fold_left];
    [exact Hst|].
  apply IH; [intros d Hd; apply Hn; right; exact Hd|].
  destruct Hst as [Hf Hd]. split; cbn [append_directory files directories]; [exact Hf|].
  apply Forall_app. split; [exact Hd|]. constructor; [|constructor].
  apply Hn. left. reflexivity.
Qed.

Lemma fold_files_sound (rel names : list string) (st : Structure) :
  (forall f, In f names -> _should_skip f = false ->
             listed root false (path_str (rel ++ [f]))) ->
  sound st ->
  sound (fold_left (fun s f => if _should_skip f then s
                               else append_file s (rel ++ [f])) names st).
Proof.
  revert st. induction names as [|n names IH]; intros st Hn Hst; cbn [fold_left];
    [exact Hst|].
  apply IH; [intros f Hf; apply Hn; right; exact Hf|].
  destruct (_should_skip n) eqn:Hs; [exact Hst|].
  destruct Hst as [Hf Hd]. split; cbn [append_file files directories]; [|exact Hd].
  apply Forall_app. split; [exact Hf|]. constructor; [|constructor].
  apply Hn; [left; reflexivity | exact Hs].
Qed.

Lemma walk_sound (node : Node) :
  forall rel st,
    leads_to rel root node -> Forall (fun c => _should_skip c = false) rel ->
    sound st -> sound (walk rel node st).
Proof.
  induction node as [|entries IH] using Node_induction; intros rel st Hl Hk Hst.
  - exact Hst.
  - rewrite walk_dir.
    assert (Hdesc : forall es s, (forall e, In e es -> In e entries) -> sound s ->
                                 sound (descend rel es s)).
    { induction es as [|[name [|sub]] es IHes]; intros s Hin Hs; cbn [descend].
      - exact Hs.
      - apply IHes; [intros e He; apply Hin; right; exact He | exact Hs].
      - assert (Hes : forall e, In e es -> In e entries)
          by (intros e He; apply Hin; right; exact He).
        destruct (_should_skip name) eqn:Hskip; [apply IHes; assumption|].
        apply IHes; [exact Hes|].
        assert (Hname : In (name, Dir sub) entries) by (apply Hin; left; reflexivity).
        rewrite List.Forall_forall in IH.
        apply (IH _ Hname); [| |exact Hs].
        + eapply leads_to_extend; eassumption.
        + apply Forall_app. split; [exact Hk | repeat constructor; exact Hskip]. }
    apply Hdesc; [auto|].
    apply fold_files_sound.
    + intros f Hf Hs. unfold file_names in Hf. apply in_map_iff in Hf as [[n sub] [<- He]].
      apply filter_In in He as [He Hsub]. cbn [snd fst] in *.
      apply negb_true_iff in Hsub. rewrite <- Hsub.
      eapply listed_child; eassumption.
    + apply fold_directories_sound; [|exact Hst].
      intros d Hd. apply filter_In in Hd as [Hd Hs]. apply negb_true_iff in Hs.
      unfold dir_names in Hd. apply in_map_iff in Hd as [[n sub] [<- He]].
      apply filter_In in He as [He Hsub]. cbn [snd fst] in *. rewrite <- Hsub.
      eapply listed_child; eassumption.
Qed.

End InventoryExact.

Section InventoryExactSets.

Import ProjectAnalyzer Spec SpecExtra.

(** X2: the inventory of a scan is exactly the set of kept paths: a
    string is among the files (the directories) if and only if it is the
    path of a non-directory (a directory) of the tree reached through
    names none of which the exclusion policy matches. *)
Theorem X2_inventory_is_the_set_of_kept_paths (root : Node) (entry : string) :
  (In entry (files (scan_structure root)) <-> listed root false entry)
  /\ (In entry (directories (scan_structure root)) <-> listed root true entry).
Proof.
  assert (Hs : sound root (walk [] root (mkStructure [] [] 0 0 []))).
  { apply walk_sound; [reflexivity|constructor|]. split; constructor. }
  destruct Hs as [Hf Hd]. rewrite List.Forall_forall in Hf, Hd.
  unfold scan_structure. cbn [files directories]. split; split.
  - apply Hf.
  - intros [path [target [Hne [-> [Hk [Hl Ht]]]]]].
    pose proof (walk_complete path Hne Hk root target [] (mkStructure [] [] 0 0 []) Hl)
      as H.
    rewrite Ht in H. exact H.
  - apply Hd.
  - intros [path [target [Hne [-> [Hk [Hl Ht]]]]]].
    pose proof (walk_complete path Hne Hk root target [] (mkStructure [] [] 0 0 []) Hl)
      as H.
    rewrite Ht in H. exact H.
Qed.

End InventoryExactSets.


(* ===================================================================== *)
(** ** Scanner: what an inventory can never hold *)
(* ===================================================================== *)

Section ExcludedPrefixes.

Import ProjectAnalyzer Spec SpecExtra.

(** Of two names without separator that start the same text, the one
    followed by a separator extends the other. *)
Lemma component_extends_prefix (a q x y : string) :
  slash_free a = true -> slash_free q = true ->
  a +:+ "/" +:+ x = q +:+ y -> PyStr.startswith a q = true.
Proof.
  revert q. induction a as [|c a IH]; intros [|c' q] Ha Hq;
    rewrite ?append_cons, ?append_nil_l; try reflexivity.
  - change ("/" +:+ x) with (String "/" x). intros [= <- _].
    apply slash_free_cons in Hq as [Hc _]. congruence.
  - intros [= -> H]. apply slash_free_cons in Ha as [_ Ha], Hq as [_ Hq].
    specialize (IH q Ha Hq H). unfold PyStr.startswith in *. cbn [String.prefix].
    destruct (Ascii.ascii_dec c' c') as [_|Hn]; [exact IH | congruence].
Qed.

Lemma path_startswith_first (c1 : string) (rest : list string) (p q : string) :
  slash_free c1 = true -> slash_free q = true ->
  PyStr.startswith p q = true ->
  PyStr.startswith (path_str (c1 :: rest)) p = true ->
  PyStr.startswith c1 q = true.
Proof.
  intros Hc Hq Hpq Hd. pose proof (startswith_trans _ _ _ Hd Hpq) as H.
  unfold path_str in H. destruct rest as [|x rest]; [exact H|].
  change (PyStr.join "/" (c1 :: x :: rest))
    with (c1 +:+ "/" +:+ PyStr.join "/" (x :: rest)) in H.
  unfold PyStr.startswith in H. apply prefix_iff in H as [r Hr].
  eapply component_extends_prefix; eassumption.
Qed.

Lemma entry_avoids_excluded_prefix (entry p q : string) :
  from_path slash_free entry ->
  PyStr.startswith p q = true -> slash_free q = true -> excluded_by_prefix q = true ->
  PyStr.startswith entry p = false.
Proof.
  intros [path [Hne [-> Hk]]] Hpq Hq Hex.
  destruct path as [|c1 rest]; [congruence|].
  apply Forall_cons in Hk as [[Hskip Hsf] _].
  destruct (PyStr.startswith (path_str (c1 :: rest)) p) eqn:Hd; [|reflexivity].
  pose proof (path_startswith_first c1 rest p q Hsf Hq Hpq Hd) as Hc.
  pose proof (excluded_prefix_skipped c1 q Hex Hc). congruence.
Qed.

Lemma scan_avoids_excluded_prefix (root : Node) (p q : string) :
  names_ok root = true ->
  PyStr.startswith p q = true -> slash_free q = true -> excluded_by_prefix q = true ->
  existsb (fun f => PyStr.startswith f p) (files (scan_structure root)) = false
  /\ existsb (fun d => PyStr.startswith d p) (directories (scan_structure root)) = false.
Proof.
  intros Hok Hpq Hq Hex.
  destruct (scan_consistent slash_free root Hok) as [_ [_ [Hf Hd]]].
  unfold scan_structure. cbn [files directories].
  rewrite List.Forall_forall in Hf, Hd.
  split; apply not_true_is_false; intros H; apply existsb_exists in H as [e [He Hs]];
    [apply Hf in He | apply Hd in He];
    rewrite (entry_avoids_excluded_prefix e p q He Hpq Hq Hex) in Hs; discriminate.
Qed.

(** X3: names being free of the path separator, no entry of a scan's
    inventory starts with a path whose first name starts with an excluded
    name: whatever the tree holds, the inventory has no entry under
    [.github/workflows], [node_modules], [__pycache__] or [target]. *)
Theorem X3_inventory_never_starts_with_excluded_path (root : Node) (p q : string) :
  names_ok root = true ->
  PyStr.startswith p q = true -> slash_free q = true -> excluded_by_prefix q = true ->
  existsb (fun f => PyStr.startswith f p) (files (scan_structure root)) = false
  /\ existsb (fun d => PyStr.startswith d p) (directories (scan_structure root)) = false.
Proof. apply scan_avoids_excluded_prefix. Qed.

Lemma X3_inventory_witness :
  let root :=
    Dir [ (".github", Dir [("workflows", Dir [("ci.yml", File)])]);
          ("src", Dir [("main.py", File)]) ] in
  names_ok root = true
  /\ PyStr.startswith ".github/workflows" ".github" = true
  /\ slash_free ".github" = true
  /\ excluded_by_prefix ".github" = true
  /\ existsb (fun f => PyStr.startswith f ".github/workflows")
             (files (scan_structure root)) = false
  /\ existsb (fun d => PyStr.startswith d ".github/workflows")
             (directories (scan_structure root)) = false.
Proof.
  intros root.
  assert (H1 : names_ok root = true) by reflexivity.
  assert (H2 : PyStr.startswith ".github/workflows" ".github" = true) by reflexivity.
  assert (H3 : slash_free ".github" = true) by reflexivity.
  assert (H4 : excluded_by_prefix ".github" = true) by reflexivity.
  repeat (split; [assumption|]).
  exact (X3_inventory_never_starts_with_excluded_path
           root ".github/workflows" ".github" H1 H2 H3 H4).
Defined.

(** The directory test of a loop finds nothing in such an inventory. *)
Lemma scan_directories_github (root : Node) :
  names_ok root = true ->
  existsb (fun d => PyStr.startswith d ".github/workflows")
          (directories (scan_structure root)) = false.
Proof.
  intros Hok. apply (scan_avoids_excluded_prefix root ".github/workflows" ".github");
    [exact Hok|reflexivity..].
Qed.

(** X4: on the inventory of a scan, names being free of the path
    separator, neither the CI check nor the ecosystem classification
    ever succeeds through a directory: their results are those for the
    same files and no directory at all.  A [.github/workflows] directory
    never makes [has_ci] true, and [node_modules/], [__pycache__/] and
    [target/] never add a project type. *)
Theorem X4_scan_checks_never_use_directories (root : Node) :
  names_ok root = true ->
  let inventory := scan_structure root in
  _check_ci_setup (files inventory) (directories inventory)
  = _check_ci_setup (files inventory) []
  /\ _detect_project_types (files inventory) (directories inventory)
     = _detect_project_types (files inventory) []
  /\ project_types inventory = _detect_project_types (files inventory) [].
Proof.
  intros Hok inventory.
  assert (Hci : _check_ci_setup (files inventory) (directories inventory)
                = _check_ci_setup (files inventory) []).
  { unfold _check_ci_setup, ci_indicators. cbn [check_ci_loop].
    change (PyStr.endswith ".github/workflows" ".yml"
            || PyStr.endswith ".github/workflows" "file") with false. cbv iota.
    unfold inventory. rewrite (scan_directories_github root Hok). reflexivity. }
  assert (Hty : _detect_project_types (files inventory) (directories inventory)
                = _detect_project_types (files inventory) []).
  { unfold _detect_project_types, PROJECT_INDICATORS.
    cbn [detect_loop any_indicator]. unfold indicator_matches.
    repeat match goal with
           | |- context [PyStr.endswith ?i "/"] =>
               let b := eval vm_compute in (PyStr.endswith i "/") in
               change (PyStr.endswith i "/") with b
           end.
    cbv iota.
    change (PyStr.init "node_modules/") with "node_modules".
    change (PyStr.init "__pycache__/") with "__pycache__".
    change (PyStr.init "target/") with "target".
    unfold inventory.
    destruct (scan_avoids_excluded_prefix root "node_modules" "node_modules" Hok)
      as [_ ->]; [reflexivity..|].
    destruct (scan_avoids_excluded_prefix root "__pycache__" "__pycache__" Hok)
      as [_ ->]; [reflexivity..|].
    destruct (scan_avoids_excluded_prefix root "target" "target" Hok)
      as [_ ->]; [reflexivity..|].
    reflexivity. }
  split; [exact Hci|]. split; [exact Hty|]. exact Hty.
Qed.

Lemma X4_scan_checks_witness :
  let root :=
    Dir [ (".github", Dir [("workflows", Dir [("ci.yml", File)])]);
          ("node_modules", Dir [("left-pad", Dir [])]);
          ("index.js", File) ] in
  names_ok root = true
  /\ _check_ci_setup (files (scan_structure root)) (directories (scan_structure root))
     = false
  /\ project_types (scan_structure root) = [].
Proof.
  intros root.
  assert (Hok : names_ok root = true) by reflexivity.
  destruct (X4_scan_checks_never_use_directories root Hok) as [Hci [_ Hty]].
  split; [exact Hok|]. split; [rewrite Hci | rewrite Hty]; reflexivity.
Defined.

End ExcludedPrefixes.


(* ===================================================================== *)
(** ** Scanner: tests, ecosystems and frameworks *)
(* ===================================================================== *)

Section Classification.

Import ProjectAnalyzer Spec SpecExtra.

Lemma contains_weaken (a b s : string) :
  PyStr.contains a b = true -> PyStr.contains b s = true -> PyStr.contains a s = true.
Proof. apply contains_trans. Qed.

(** X5: the test-directory check is decided by the two keywords [test]
    and [spec] alone: a project has tests exactly when the lower-cased
    path of some directory contains one of them ([tests] and [__tests__]
    add nothing), so that [latest] or [Inspector] count as test
    directories. *)
Theorem X5_test_setup_is_test_or_spec (directories : list string) :
  _check_test_setup directories
  = existsb (fun d => PyStr.contains "test" (PyStr.lower d)
                      || PyStr.contains "spec" (PyStr.lower d))
            directories.
Proof.
  unfold _check_test_setup, test_indicators.
  induction directories as [|d ds IH]; [reflexivity|].
  cbn [existsb] in *. rewrite IH. f_equal.
  destruct (PyStr.contains "test" (PyStr.lower d)) eqn:Ht; [reflexivity|].
  assert (H1 : PyStr.contains "tests" (PyStr.lower d) = false).
  { destruct (PyStr.contains "tests" (PyStr.lower d)) eqn:H; [|reflexivity].
    rewrite (contains_trans "test" "tests" _ eq_refl H) in Ht. discriminate. }
  assert (H2 : PyStr.contains "__tests__" (PyStr.lower d) = false).
  { destruct (PyStr.contains "__tests__" (PyStr.lower d)) eqn:H; [|reflexivity].
    rewrite (contains_trans "test" "__tests__" _ eq_refl H) in Ht. discriminate. }
  rewrite H1, H2. cbn [orb]. rewrite orb_false_r. reflexivity.
Qed.

Lemma detected_types_filter (files directories : list string) :
  _detect_project_types files directories
  = map fst (List.filter (fun e => any_indicator files directories (snd e))
                         PROJECT_INDICATORS).
Proof. unfold _detect_project_types. rewrite detect_loop_spec. reflexivity. Qed.

Lemma map_fst_filter_sublist {A B : Type} (f : A * B -> bool) (l : list (A * B)) :
  sublist (map fst (List.filter f l)) (map fst l).
Proof.
  induction l as [|x l IH]; cbn [List.filter map]; [constructor|].
  destruct (f x); cbn [map]; [apply sublist_skip | apply sublist_cons]; exact IH.
Qed.

Lemma detected_types_sublist (files directories : list string) :
  sublist (_detect_project_types files directories)
          ["node"; "python"; "java"; "rust"; "go"; "ruby"; "php"; "csharp"].
Proof.
  rewrite detected_types_filter. apply (map_fst_filter_sublist _ PROJECT_INDICATORS).
Qed.

(** X6: the project types of [get_project_info] come in the order of the
    indicator table, each at most once, whatever the order of the
    inventory; the primary type is the first of them, that is the first
    detected type of the table, and it is [unknown] exactly when no type
    is detected.  The function returns exactly when the framework
    detection does, with its frameworks, and fails with its error
    otherwise. *)
Theorem X6_project_types_in_table_order
        (project_name : string) (root : Node)
        (package_json : Manifest PackageJson)
        (requirements_txt : Manifest string) :
  match get_project_info project_name root package_json requirements_txt with
  | Ok info =>
      sublist (i_types info)
              ["node"; "python"; "java"; "rust"; "go"; "ruby"; "php"; "csharp"]
      /\ NoDup (i_types info)
      /\ (i_type info = "unknown" <-> i_types info = [])
      /\ (i_types info = [] \/ exists rest, i_types info = i_type info :: rest)
      /\ _detect_frameworks package_json requirements_txt = Ok (i_frameworks info)
  | Raise e => _detect_frameworks package_json requirements_txt = Raise e
  end.
Proof.
  unfold get_project_info.
  destruct (_detect_frameworks package_json requirements_txt) as [frameworks|e];
    cbn [mbind PyResult_bind]; [|reflexivity].
  cbn [i_type i_types i_frameworks].
  unfold scan_structure. cbn [project_types].
  match goal with
  | |- context [_detect_project_types ?f ?d] =>
      pose proof (detected_types_sublist f d) as Hsub;
      destruct (_detect_project_types f d) as [|t ts] eqn:Hty
  end.
  - repeat split; auto; constructor.
  - split; [exact Hsub|]. split.
    + eapply sublist_NoDup; [|exact Hsub].
      repeat constructor; rewrite ?elem_of_cons, ?elem_of_nil; intuition discriminate.
    + split; [|split; [right; eauto | reflexivity]].
      split; [|discriminate]. intros ->. exfalso.
      assert (Hin : "unknown" ∈ ["node"; "python"; "java"; "rust"; "go"; "ruby";
                                  "php"; "csharp"]).
      { eapply elem_of_sublist; [|exact Hsub]. left. }
      rewrite !elem_of_cons, elem_of_nil in Hin. intuition discriminate.
Qed.

End Classification.


Section Frameworks.

Import ProjectAnalyzer Spec SpecExtra.








Example frameworks_by_substring_example :
  _detect_frameworks (Loaded (Document (Keys ["preact"]) (Keys ["jest"])))
                     (Failing IOError)
  = Ok ["react"].
Proof. vm_compute. reflexivity. Qed.

(** A [package.json] that holds [[]] makes the scan fail, whatever the
    requirements file names; so does a requirements file that is not
    UTF-8. *)
Example frameworks_escaping_example :
  _detect_frameworks (Loaded NotADocument) (Loaded "flask") = Raise AttributeError
  /\ _detect_frameworks (Loaded (Document NoEntry NotAMapping)) Missing
     = Raise TypeError
  /\ _detect_frameworks (Failing JSONDecodeError) (Failing UnicodeDecodeError)
     = Raise UnicodeDecodeError
  /\ _detect_frameworks (Failing JSONDecodeError) (Loaded "Flask==3.0")
     = Ok ["flask"].
Proof. vm_compute. repeat split; reflexivity. Qed.

End Frameworks.


(* ===================================================================== *)
(** ** Rule engine: checks and counters *)
(* ===================================================================== *)

Section RuleChecks.

Import PatternDetector Spec SpecExtra.

Lemma any_in_iff (p : string -> bool) (s : gset string) :
  any_in p s = true <-> exists x, x ∈ s /\ p x = true.
Proof.
  unfold any_in. rewrite existsb_exists. split; intros [x [Hx Hp]]; exists x;
    (split; [|exact Hp]).
  - apply elem_of_elements, list_elem_of_In. exact Hx.
  - apply list_elem_of_In, elem_of_elements. exact Hx.
Qed.

Lemma any_in_empty (p : string -> bool) : any_in p ∅ = false.
Proof. unfold any_in. rewrite elements_empty. reflexivity. Qed.

Lemma file_absence_by_suffix (path : string) (files : gset string) :
  _check_file_absence (CheckStr path) files
  = Ok (negb (any_in (fun f => PyStr.endswith f path) files)).
Proof.
  cbn [_check_file_absence]. f_equal.
  destruct (bool_decide (path ∈ files)) eqn:Hin; [|reflexivity].
  apply bool_decide_eq_true in Hin.
  assert (H : any_in (fun f => PyStr.endswith f path) files = true).
  { apply any_in_iff. exists path. split; [exact Hin | apply endswith_refl]. }
  rewrite H. reflexivity.
Qed.

(** X8: a [file_absence] check on a path reports the issue exactly when
    no file path of the inventory ends with the given text: the
    membership test adds nothing, a file of that name in any
    sub-directory, or any file whose path merely ends with the text,
    counts as present. *)
Theorem X8_file_absence_is_suffix_absence (path : string) (files : gset string) :
  exists found,
    _check_file_absence (CheckStr path) files = Ok found
    /\ (found = true <-> forall f, f ∈ files -> PyStr.endswith f path = false).
Proof.
  exists (negb (any_in (fun f => PyStr.endswith f path) files)).
  split; [apply file_absence_by_suffix|].
  rewrite negb_true_iff. split.
  - intros Hany f Hf. destruct (PyStr.endswith f path) eqn:He; [|reflexivity].
    assert (any_in (fun f => PyStr.endswith f path) files = true)
      by (apply any_in_iff; eauto).
    congruence.
  - intros Hall. apply not_true_is_false. intros Hany.
    apply any_in_iff in Hany as [f [Hf He]]. rewrite (Hall f Hf) in He. discriminate.
Qed.

Lemma record_detection_summary (results : Results) (d : Detection) :
  let s := summary results in
  let s' := summary (record_detection results d) in
  issues_found s' = issues_found s + Z.of_nat (length (flagged [d]))
  /\ high_severity s' = high_severity s + Z.of_nat (length (flagged_as "high" [d]))
  /\ medium_severity s' = medium_severity s + Z.of_nat (length (flagged_as "medium" [d]))
  /\ low_severity s' = low_severity s + Z.of_nat (length (flagged_as "low" [d])).
Proof.
  unfold record_detection, flagged, flagged_as. cbn [List.filter].
  destruct (issue_found d); cbn [summary andb length issues_found high_severity
                                   medium_severity low_severity];
    [|repeat split; lia].
  destruct (String.eqb_spec (d_severity d) "high") as [->|_];
    [cbn; repeat split; lia|].
  destruct (String.eqb_spec (d_severity d) "medium") as [->|_];
    [cbn; repeat split; lia|].
  destruct (String.eqb (d_severity d) "low"); cbn; repeat split; lia.
Qed.

Lemma fold_record_summary (ds : list Detection) (results : Results) :
  let s := summary results in
  let s' := summary (fold_left record_detection ds results) in
  issues_found s' = issues_found s + Z.of_nat (length (flagged ds))
  /\ high_severity s' = high_severity s + Z.of_nat (length (flagged_as "high" ds))
  /\ medium_severity s' = medium_severity s + Z.of_nat (length (flagged_as "medium" ds))
  /\ low_severity s' = low_severity s + Z.of_nat (length (flagged_as "low" ds)).
Proof.
  revert results. induction ds as [|d ds IH]; intros results; cbn [fold_left].
  - cbn. repeat split; lia.
  - destruct (IH (record_detection results d)) as [H1 [H2 [H3 H4]]].
    destruct (record_detection_summary results d) as [G1 [G2 [G3 G4]]].
    cbn zeta in *. rewrite H1, H2, H3, H4, G1, G2, G3, G4.
    unfold flagged, flagged_as in *. cbn [List.filter].
    destruct (issue_found d); cbn [andb length];
      repeat match goal with
             | |- context [String.eqb ?a ?b] => destruct (String.eqb a b)
             end; cbn [length]; repeat split; lia.
Qed.

Lemma severity_counts (ds : list Detection) :
  (length (flagged_as "high" ds) + length (flagged_as "medium" ds)
   + length (flagged_as "low" ds) <= length (flagged ds))%nat
  /\ (Forall (fun d => issue_found d = true -> counted_severity d = true) ds ->
      (length (flagged_as "high" ds) + length (flagged_as "medium" ds)
       + length (flagged_as "low" ds) = length (flagged ds))%nat).
Proof.
  unfold flagged, flagged_as, counted_severity.
  induction ds as [|d ds [IH1 IH2]]; [split; reflexivity|]. cbn [List.filter].
  split.
  - destruct (issue_found d); cbn [andb]; [|exact IH1].
    destruct (String.eqb_spec (d_severity d) "high") as [->|_]; [cbn; lia|].
    destruct (String.eqb_spec (d_severity d) "medium") as [->|_]; [cbn; lia|].
    destruct (String.eqb (d_severity d) "low"); cbn; lia.
  - intros HF. apply Forall_cons in HF as [Hd HF]. specialize (IH2 HF).
    destruct (issue_found d); cbn [andb]; [|exact IH2]. specialize (Hd eq_refl).
    destruct (String.eqb_spec (d_severity d) "high") as [->|_]; [cbn; lia|].
    destruct (String.eqb_spec (d_severity d) "medium") as [->|_]; [cbn; lia|].
    destruct (String.eqb (d_severity d) "low"); [cbn; lia|discriminate].
Qed.

Lemma rule_detections_length (fs ds : gset string) (ps : ProjectStructure)
      (patterns : list Pattern) :
  (length (flat_map (rule_detections fs ds ps) patterns) <= length patterns)%nat.
Proof.
  induction patterns as [|p patterns IH]; [reflexivity|]. cbn [flat_map].
  rewrite length_app. unfold rule_detections at 1.
  destruct (_apply_pattern p fs ds ps) as [[d|]|]; cbn [length]; lia.
Qed.

Lemma filter_length_le {A : Type} (f : A -> bool) (l : list A) :
  (length (List.filter f l) <= length l)%nat.
Proof.
  induction l as [|x l IH]; [reflexivity|]. cbn [List.filter].
  destruct (f x); cbn [length]; lia.
Qed.

Lemma detect_summary (patterns : list Pattern) (ps : ProjectStructure)
      (results : Results) :
  detect patterns ps = Ok results ->
  let s := summary results in
  issues_found s = Z.of_nat (length (flagged (detections results)))
  /\ high_severity s = Z.of_nat (length (flagged_as "high" (detections results)))
  /\ medium_severity s = Z.of_nat (length (flagged_as "medium" (detections results)))
  /\ low_severity s = Z.of_nat (length (flagged_as "low" (detections results)))
  /\ (length (detections results) <= length patterns)%nat.
Proof.
  unfold detect.
  match goal with
  | |- context [detect_loop patterns ?fs ?ds ps ?r0] =>
      destruct (detect_loop patterns fs ds ps r0) as [r|e] eqn:Hloop;
      cbn [mbind PyResult_bind]; [|discriminate];
      apply detect_loop_ok in Hloop;
      destruct (fold_record_summary (flat_map (rule_detections fs ds ps) patterns) r0)
        as [H1 [H2 [H3 H4]]];
      destruct (fold_record_fields (flat_map (rule_detections fs ds ps) patterns) r0)
        as [Hd _];
      pose proof (rule_detections_length fs ds ps patterns) as Hlen
  end.
  intros [= <-]. cbn [summary detections]. subst r. cbn zeta in *.
  rewrite H1, H2, H3, H4, Hd. cbn [summary issues_found high_severity medium_severity
                                      low_severity detections app].
  repeat split; lia.
Qed.

(** X9: in every result of [detect], [issues_found] is the number of
    detections on which an issue was found and each severity counter the
    number of those with that severity; hence
    [high + medium + low <= issues_found <= number of detections <=
    total_patterns], and the three severity counters add up to
    [issues_found] when every flagged detection has severity [high],
    [medium] or [low] (an issue of any other severity is counted in
    [issues_found] only). *)
Theorem X9_summary_counts_flagged_detections
        (patterns : list Pattern) (ps : ProjectStructure) (results : Results) :
  detect patterns ps = Ok results ->
  let s := summary results in
  issues_found s = Z.of_nat (length (flagged (detections results)))
  /\ high_severity s = Z.of_nat (length (flagged_as "high" (detections results)))
  /\ medium_severity s = Z.of_nat (length (flagged_as "medium" (detections results)))
  /\ low_severity s = Z.of_nat (length (flagged_as "low" (detections results)))
  /\ high_severity s + medium_severity s + low_severity s <= issues_found s
  /\ issues_found s <= Z.of_nat (length (detections results)) <= total_patterns s
  /\ (Forall (fun d => issue_found d = true -> counted_severity d = true)
             (detections results) ->
      high_severity s + medium_severity s + low_severity s = issues_found s).
Proof.
  intros Hd. destruct (detect_summary _ _ _ Hd) as [H1 [H2 [H3 [H4 H5]]]].
  destruct (detect_spec _ _ _ Hd) as [_ [_ [Ht _]]].
  destruct (severity_counts (detections results)) as [Hle Heq].
  pose proof (filter_length_le issue_found (detections results)) as Hf.
  cbn zeta in *. unfold flagged in *. rewrite H1, H2, H3, H4, Ht.
  repeat split; try lia. intros HF. specialize (Heq HF). unfold flagged in Heq. lia.
Qed.

Lemma X9_summary_witness :
  let rule id severity :=
    mkPattern id (Some "file_absence") (CheckStr id) None None (Some severity) None in
  let patterns := [rule "README.md" "high"; rule "LICENSE" "critical";
                   rule "main.py" "low"] in
  let ps := mkProjectStructure "demo" [] [] ["main.py"] [] in
  exists results,
    detect patterns ps = Ok results
    /\ issues_found (summary results) = 2
    /\ high_severity (summary results) + medium_severity (summary results)
       + low_severity (summary results) <= issues_found (summary results).
Proof.
  intros rule patterns ps.
  destruct (detect patterns ps) as [results|e] eqn:Hd; [|vm_compute in Hd; discriminate].
  exists results. split; [reflexivity|].
  destruct (X9_summary_counts_flagged_detections patterns ps results Hd)
    as [H1 [_ [_ [_ [H5 _]]]]].
  split; [|exact H5].
  rewrite H1. vm_compute in Hd. injection Hd as <-. reflexivity.
Defined.

End RuleChecks.


(* ===================================================================== *)
(** ** Rule engine: what a detection can be *)
(* ===================================================================== *)

Section Detections.

Import PatternDetector Spec SpecExtra.

Lemma file_quality_never (check : Check) (ps : ProjectStructure) :
  _check_file_quality check ps = false.
Proof. unfold _check_file_quality. destruct (negb _); reflexivity. Qed.

Lemma check_issue_absence_only (t : option string) (check : Check)
      (fs ds : gset string) (ps : ProjectStructure) :
  check_issue t check fs ds ps = Ok true -> absence_type t = true.
Proof.
  unfold check_issue, absence_type.
  destruct (type_is t "file_absence"); [reflexivity|].
  destruct (type_is t "directory_absence"); [reflexivity|].
  rewrite file_quality_never. destruct (type_is t "file_quality"); discriminate.
Qed.

Lemma apply_pattern_detection (p : Pattern) (fs ds : gset string)
      (ps : ProjectStructure) (d : Detection) :
  _apply_pattern p fs ds ps = Ok (Some d) ->
  d_id d = p_id p /\ d_type d = p_type p
  /\ d_confidence d = default "medium" (p_confidence p)
  /\ d_severity d = default "medium" (p_severity p)
  /\ applicable p fs ds = true
  /\ check_issue (p_type p) (p_check p) fs ds ps = Ok (issue_found d)
  /\ d_recommendation d = attach_recommendation p (issue_found d) fs ds.
Proof.
  unfold _apply_pattern, applicable.
  destruct (truthy _ && negb _); [discriminate|].
  destruct (check_issue _ _ _ _ _) as [found|e]; cbn [mbind PyResult_bind];
    [|discriminate].
  intros [= <-]. cbn. repeat split.
Qed.

Lemma attach_recommendation_some (p : Pattern) (found : bool) (fs ds : gset string) :
  is_Some (attach_recommendation p found fs ds)
  <-> found = true /\ is_Some (p_recommendation p).
Proof.
  unfold attach_recommendation. destruct found.
  - destruct (p_recommendation p); split.
    + intros _. split; [reflexivity | eauto].
    + intros _. eauto.
    + intros [x Hx]. discriminate.
    + intros [_ [x Hx]]. discriminate.
  - split; [intros [x Hx]; discriminate | intros [H _]; discriminate].
Qed.

Lemma detection_of_rule (fs ds : gset string) (ps : ProjectStructure)
      (patterns : list Pattern) (d : Detection) :
  In d (flat_map (rule_detections fs ds ps) patterns) ->
  exists p, In p patterns /\ _apply_pattern p fs ds ps = Ok (Some d).
Proof.
  rewrite in_flat_map. intros [p [Hp Hd]]. exists p. split; [exact Hp|].
  unfold rule_detections in Hd.
  destruct (_apply_pattern p fs ds ps) as [[d'|]|]; try (destruct Hd; fail).
  destruct Hd as [->|[]]. reflexivity.
Qed.

(** X10: every detection in a result of [detect] stems from a rule of
    the configuration that passes its [applies_when] gate, and takes its
    id and type from it and its confidence and severity too, [medium]
    standing for an absent one.  An issue is only ever found by a rule
    of type [file_absence] or [directory_absence] (a [file_quality] rule
    and a rule of any other type never report one), and a detection
    carries a recommendation exactly when an issue was found and the
    rule has one. *)
Theorem X10_detections_stem_from_applicable_rules
        (patterns : list Pattern) (ps : ProjectStructure) (results : Results)
        (d : Detection) :
  detect patterns ps = Ok results ->
  In d (detections results) ->
  exists p,
    In p patterns
    /\ applicable p (list_to_set (files ps)) (list_to_set (directories ps)) = true
    /\ d_id d = p_id p /\ d_type d = p_type p
    /\ d_confidence d = default "medium" (p_confidence p)
    /\ d_severity d = default "medium" (p_severity p)
    /\ (issue_found d = true -> absence_type (d_type d) = true)
    /\ (is_Some (d_recommendation d)
        <-> issue_found d = true /\ is_Some (p_recommendation p)).
Proof.
  intros Hdet Hin. destruct (detect_spec _ _ _ Hdet) as [Hds _].
  rewrite Hds in Hin. apply detection_of_rule in Hin as [p [Hp Happ]].
  destruct (apply_pattern_detection _ _ _ _ _ Happ)
    as [H1 [H2 [H3 [H4 [H5 [H6 H7]]]]]].
  exists p. do 6 (split; [assumption|]). split.
  - intros Hi. rewrite Hi in H6. rewrite H2. eapply check_issue_absence_only, H6.
  - rewrite H7. apply attach_recommendation_some.
Qed.

Lemma X10_detections_witness :
  let rule id type :=
    mkPattern id (Some type) (CheckStr "README.md") None None (Some "high")
              (Some (mkRecommendation "readme" "document the project" None)) in
  let patterns := [rule "missing-readme" "file_absence";
                   rule "readme-minimal" "file_quality"] in
  let ps := mkProjectStructure "demo" [] [] ["main.py"] [] in
  exists results d,
    detect patterns ps = Ok results
    /\ In d (detections results)
    /\ d_id d = "readme-minimal"
    /\ (issue_found d = true -> absence_type (d_type d) = true).
Proof.
  intros rule patterns ps.
  destruct (detect patterns ps) as [results|e] eqn:Hd; [|vm_compute in Hd; discriminate].
  assert (Hin : In (passing_detection (rule "readme-minimal" "file_quality"))
                   (detections results)).
  { vm_compute in Hd. injection Hd as <-. right. left. reflexivity. }
  exists results, (passing_detection (rule "readme-minimal" "file_quality")).
  split; [reflexivity|]. split; [exact Hin|]. split; [reflexivity|].
  destruct (X10_detections_stem_from_applicable_rules patterns ps results _ Hd Hin)
    as [p [_ [_ [_ [_ [_ [_ [H _]]]]]]]].
  exact H.
Defined.

Lemma select_variant_first (vs : list Variant) (fs ds : gset string) :
  match _select_variant vs fs ds with
  | Some v =>
      exists before after,
        vs = before ++ v :: after
        /\ Forall (fun v' => variant_matches fs ds v' = false) before
        /\ variant_matches fs ds v = true
  | None => Forall (fun v' => variant_matches fs ds v' = false) vs
  end.
Proof.
  induction vs as [|v vs IH]; cbn [_select_variant]; [constructor|].
  fold (variant_matches fs ds v).
  destruct (variant_matches fs ds v) eqn:Hv.
  - exists [], vs. repeat split; [constructor | exact Hv].
  - destruct (_select_variant vs fs ds) as [w|].
    + destruct IH as [before [after [-> [Hb Hw]]]].
      exists (v :: before), after. repeat split; [constructor; assumption | exact Hw].
    + constructor; assumption.
Qed.

Lemma condition_default (condition : string) (fs ds : gset string) :
  PyStr.contains "package.json exists" condition = false ->
  PyStr.contains "requirements.txt" condition = false ->
  PyStr.contains "setup.py exists" condition = false ->
  PyStr.contains "pom.xml" condition = false ->
  PyStr.contains "build.gradle exists" condition = false ->
  _check_condition condition fs ds = true.
Proof.
  unfold _check_condition. intros -> -> -> -> ->. reflexivity.
Qed.

(** X11: the recommendation of a detection keeps the rule's reason and
    takes its template from the first variant, in the order of the
    configuration, whose condition holds on the inventory; when the rule
    has no variants or none of them matches, the template is the rule's
    own.  A variant without a condition matches every project, so the
    variants listed after it are never chosen. *)
Theorem X11_template_of_first_matching_variant
        (p : Pattern) (fs ds : gset string) (ps : ProjectStructure)
        (d : Detection) (r0 : Recommendation) :
  _apply_pattern p fs ds ps = Ok (Some d) ->
  issue_found d = true ->
  p_recommendation p = Some r0 ->
  exists r,
    d_recommendation d = Some r
    /\ reason r = reason r0 /\ variants r = variants r0
    /\ ((exists before v after,
            variants r0 = Some (before ++ v :: after)
            /\ Forall (fun v' => variant_matches fs ds v' = false) before
            /\ variant_matches fs ds v = true
            /\ template r = v_template v)
        \/ (Forall (fun v' => variant_matches fs ds v' = false)
                   (default [] (variants r0))
            /\ template r = template r0))
    /\ (forall v, v_condition v = None -> variant_matches fs ds v = true).
Proof.
  intros Happ Hi Hr.
  destruct (apply_pattern_detection _ _ _ _ _ Happ) as [_ [_ [_ [_ [_ [_ H7]]]]]].
  rewrite Hi in H7. unfold attach_recommendation in H7. rewrite Hr in H7.
  eexists. split; [exact H7|].
  assert (Hnone : forall v, v_condition v = None -> variant_matches fs ds v = true).
  { intros v Hv. unfold variant_matches. rewrite Hv. reflexivity. }
  destruct (variants r0) as [vs|] eqn:Hvs.
  - pose proof (select_variant_first vs fs ds) as Hsel.
    destruct (_select_variant vs fs ds) as [v|].
    + destruct Hsel as [before [after [-> [Hb Hv]]]]. cbn [reason variants template].
      repeat split; try assumption. left. exists before, v, after. auto.
    + repeat split; try assumption. right. split; [exact Hsel | reflexivity].
  - repeat split; try assumption. right. split; [constructor | reflexivity].
Qed.

Lemma X11_template_witness :
  let r0 := mkRecommendation "gitignore/generic" "keep build output out of git"
              (Some [mkVariant (Some "package.json exists") "gitignore/node";
                     mkVariant None "gitignore/any";
                     mkVariant (Some "requirements.txt exists") "gitignore/python"]) in
  let p := mkPattern "missing-gitignore" (Some "file_absence") (CheckStr ".gitignore")
                     None None None (Some r0) in
  let fs : gset string := list_to_set ["requirements.txt"; "main.py"] in
  let ps := mkProjectStructure "demo" [] [] ["requirements.txt"; "main.py"] [] in
  exists d r,
    _apply_pattern p fs ∅ ps = Ok (Some d)
    /\ issue_found d = true
    /\ d_recommendation d = Some r
    /\ template r = "gitignore/any" /\ reason r = reason r0.
Proof.
  intros r0 p fs ps.
  destruct (_apply_pattern p fs ∅ ps) as [[d|]|e] eqn:Happ;
    [|vm_compute in Happ; discriminate|vm_compute in Happ; discriminate].
  assert (Hi : issue_found d = true)
    by (vm_compute in Happ; injection Happ as <-; reflexivity).
  destruct (X11_template_of_first_matching_variant p fs ∅ ps d r0 Happ Hi eq_refl)
    as [r [Hr [Hreason _]]].
  exists d, r. split; [reflexivity|]. split; [exact Hi|]. split; [exact Hr|].
  split; [|exact Hreason].
  vm_compute in Happ. injection Happ as <-. cbn in Hr. injection Hr as <-. reflexivity.
Defined.

Lemma advice_of_rule (detections : list Detection) (a : Advice) :
  In a (flat_map advice_of detections) <->
  exists d r,
    In d detections /\ issue_found d = true /\ d_recommendation d = Some r
    /\ a = {| a_id := d_id d; a_template := template r; a_reason := reason r;
              a_severity := d_severity d; a_confidence := d_confidence d;
              priority_score := _calculate_priority d |}.
Proof.
  rewrite in_flat_map. unfold advice_of. split.
  - intros [d [Hd Ha]]. destruct (issue_found d) eqn:Hi; [|destruct Ha].
    destruct (d_recommendation d) as [r|] eqn:Hr; [|destruct Ha].
    destruct Ha as [<-|[]]. exists d, r. auto.
  - intros [d [r [Hd [Hi [Hr ->]]]]]. exists d. split; [exact Hd|].
    rewrite Hi, Hr. left. reflexivity.
Qed.

Lemma advice_length (detections : list Detection) :
  (length (flat_map advice_of detections) <= length (flagged detections))%nat.
Proof.
  unfold flagged. induction detections as [|d ds IH]; [reflexivity|].
  cbn [flat_map List.filter]. rewrite length_app. unfold advice_of at 1.
  destruct (issue_found d); [|cbn; exact IH].
  destruct (d_recommendation d); cbn [length]; lia.
Qed.

Lemma recommendations_from_flagged
      (patterns : list Pattern) (ps : ProjectStructure) (results : Results) :
  detect patterns ps = Ok results ->
  Permutation (recommendations results) (flat_map advice_of (detections results))
  /\ (forall a,
        In a (recommendations results) <->
        exists d r,
          In d (detections results) /\ issue_found d = true
          /\ d_recommendation d = Some r
          /\ a = {| a_id := d_id d; a_template := template r; a_reason := reason r;
                    a_severity := d_severity d; a_confidence := d_confidence d;
                    priority_score := _calculate_priority d |})
  /\ Z.of_nat (length (recommendations results)) <= issues_found (summary results).
Proof.
  intros Hdet. destruct (detect_spec _ _ _ Hdet) as [Hds [Hrs _]].
  destruct (detect_summary _ _ _ Hdet) as [Hi _].
  assert (HP : Permutation (recommendations results)
                           (flat_map advice_of (detections results))).
  { rewrite Hrs, Hds, flat_map_advice. apply sort_perm. }
  split; [exact HP|]. split.
  - intros a. rewrite <- advice_of_rule. split; intros H.
    + eapply Permutation_in; [exact HP | exact H].
    + eapply Permutation_in; [symmetry; exact HP | exact H].
  - cbn zeta in Hi. rewrite Hi, (Permutation_length HP).
    pose proof (advice_length (detections results)). lia.
Qed.

(** X12: the recommendations of a result are, up to their order, one per
    detection on which an issue was found and that carries a
    recommendation, with the id, severity, confidence and priority of
    that detection and the template and reason of its recommendation;
    there are never more of them than [issues_found]. *)
Theorem X12_one_recommendation_per_flagged_detection
        (patterns : list Pattern) (ps : ProjectStructure) (results : Results) :
  detect patterns ps = Ok results ->
  Permutation (recommendations results) (flat_map advice_of (detections results))
  /\ (forall a,
        In a (recommendations results) <->
        exists d r,
          In d (detections results) /\ issue_found d = true
          /\ d_recommendation d = Some r
          /\ a = {| a_id := d_id d; a_template := template r; a_reason := reason r;
                    a_severity := d_severity d; a_confidence := d_confidence d;
                    priority_score := _calculate_priority d |})
  /\ Z.of_nat (length (recommendations results)) <= issues_found (summary results).
Proof. apply recommendations_from_flagged. Qed.

Lemma X12_recommendation_witness :
  let rule id severity recommendation :=
    mkPattern id (Some "file_absence") (CheckStr id) None None (Some severity)
              recommendation in
  let patterns :=
    [rule "LICENSE" "low" (Some (mkRecommendation "license/mit" "state the terms" None));
     rule "README.md" "high" None;
     rule "main.py" "high" (Some (mkRecommendation "none" "never used" None))] in
  let ps := mkProjectStructure "demo" [] [] ["main.py"] [] in
  exists results,
    detect patterns ps = Ok results
    /\ issues_found (summary results) = 2
    /\ Z.of_nat (length (recommendations results)) <= issues_found (summary results)
    /\ map a_id (recommendations results) = ["LICENSE"].
Proof.
  intros rule patterns ps.
  destruct (detect patterns ps) as [results|e] eqn:Hd; [|vm_compute in Hd; discriminate].
  exists results. split; [reflexivity|].
  destruct (X12_one_recommendation_per_flagged_detection patterns ps results Hd)
    as [_ [_ Hlen]].
  vm_compute in Hd. injection Hd as <-.
  split; [reflexivity|]. split; [exact Hlen | reflexivity].
Defined.

End Detections.


(* ===================================================================== *)
(** ** Rule engine: the inventory as [detect] sees it *)
(* ===================================================================== *)

Section InventoryOfDetect.

Import ProjectAnalyzer PatternDetector Spec SpecExtra.

Lemma directory_absence_nothing_listed (paths : list string) :
  directory_absence_loop paths ∅ = true.
Proof.
  induction paths as [|p paths IH]; cbn [directory_absence_loop]; [reflexivity|].
  destruct (PyStr.endswith p ".yml" || PyStr.endswith p ".yaml"); [reflexivity|].
  rewrite any_in_empty. exact IH.
Qed.

Lemma empty_inventory_issue (p : Pattern) (ps : ProjectStructure) :
  well_formed p = true ->
  check_issue (p_type p) (p_check p) ∅ ∅ ps = Ok (absence_type (p_type p)).
Proof.
  unfold well_formed, check_issue, absence_type.
  destruct (type_is (p_type p) "file_absence").
  - destruct (p_check p); try discriminate. intros _.
    rewrite file_absence_by_suffix, any_in_empty. reflexivity.
  - destruct (type_is (p_type p) "directory_absence").
    + destruct (p_check p); try discriminate; intros _;
        cbn [_check_directory_absence]; rewrite directory_absence_nothing_listed;
        reflexivity.
    + intros _. rewrite file_quality_never.
      destruct (type_is (p_type p) "file_quality"); reflexivity.
Qed.

Lemma empty_inventory_detections (ps : ProjectStructure) (patterns : list Pattern) :
  Forall (fun p => well_formed p = true) patterns ->
  let detections := flat_map (rule_detections ∅ ∅ ps) patterns in
  map d_id detections = map p_id (List.filter (fun p => applicable p ∅ ∅) patterns)
  /\ Forall (fun d => issue_found d = absence_type (d_type d)) detections.
Proof.
  induction 1 as [|p patterns Hp _ [IH1 IH2]]; cbn [flat_map List.filter map].
  - split; constructor.
  - unfold rule_detections at 1 3, _apply_pattern. unfold applicable at 1.
    destruct (truthy _ && negb _); cbn [negb app]; [split; assumption|].
    rewrite (empty_inventory_issue p ps Hp). cbn [mbind PyResult_bind app map].
    split; [f_equal; exact IH1 | constructor; [reflexivity | exact IH2]].
Qed.

(** X13: on a project with no files and no directories, [detect] with
    well-formed rules returns one detection for every rule that passes
    its [applies_when] gate, in the order of the configuration, and
    reports an issue on each of them whose type is [file_absence] or
    [directory_absence], whatever its check names, and on no other. *)
Theorem X13_empty_project_flags_every_absence_rule
        (patterns : list Pattern) (ps : ProjectStructure) :
  files ps = [] -> directories ps = [] ->
  Forall (fun p => well_formed p = true) patterns ->
  exists results,
    detect patterns ps = Ok results
    /\ map d_id (detections results)
       = map p_id (List.filter (fun p => applicable p ∅ ∅) patterns)
    /\ Forall (fun d => issue_found d = absence_type (d_type d)) (detections results).
Proof.
  intros Hf Hd Hwf. destruct (detect_total patterns ps Hwf) as [results Hr].
  exists results. split; [exact Hr|].
  destruct (detect_spec _ _ _ Hr) as [Hds _]. rewrite Hf, Hd in Hds.
  change (list_to_set [] : gset string) with (∅ : gset string) in Hds.
  rewrite Hds. apply empty_inventory_detections, Hwf.
Qed.

Lemma X13_empty_project_witness :
  let patterns :=
    [ mkPattern "missing-readme" (Some "file_absence") (CheckStr "README.md")
                None None None None;
      mkPattern "missing-eslint" (Some "file_absence") (CheckStr ".eslintrc")
                (Some "package.json exists") None None None;
      mkPattern "missing-ci-workflow" (Some "directory_absence")
                (CheckList [".github/workflows"; ".circleci"]) None None None None;
      mkPattern "readme-minimal" (Some "file_quality") (CheckStr "README.md")
                None None None None ] in
  let ps := mkProjectStructure "empty" [] [] [] [] in
  files ps = [] /\ directories ps = []
  /\ Forall (fun p => well_formed p = true) patterns
  /\ exists results,
       detect patterns ps = Ok results
       /\ map d_id (detections results)
          = ["missing-readme"; "missing-ci-workflow"; "readme-minimal"]
       /\ Forall (fun d => issue_found d = absence_type (d_type d))
                 (detections results).
Proof.
  intros patterns ps.
  assert (Hwf : Forall (fun p => well_formed p = true) patterns)
    by (repeat constructor).
  split; [reflexivity|]. split; [reflexivity|]. split; [exact Hwf|].
  destruct (X13_empty_project_flags_every_absence_rule patterns ps eq_refl eq_refl Hwf)
    as [results [Hr [Hids Hall]]].
  exists results. split; [exact Hr|]. split; [|exact Hall].
  rewrite Hids. vm_compute. reflexivity.
Defined.

Lemma apply_pattern_structure (p : Pattern) (fs ds : gset string)
      (ps ps' : ProjectStructure) :
  _apply_pattern p fs ds ps = _apply_pattern p fs ds ps'.
Proof.
  unfold _apply_pattern, check_issue. rewrite !file_quality_never. reflexivity.
Qed.

Lemma detect_loop_structure (patterns : list Pattern) (fs ds : gset string)
      (ps ps' : ProjectStructure) (results : Results) :
  detect_loop patterns fs ds ps results = detect_loop patterns fs ds ps' results.
Proof.
  revert results. induction patterns as [|p patterns IH]; intros results;
    cbn [detect_loop]; [reflexivity|].
  rewrite (apply_pattern_structure p fs ds ps ps').
  destruct (_apply_pattern p fs ds ps') as [d|e]; cbn [mbind PyResult_bind];
    [apply IH | reflexivity].
Qed.

Lemma same_elements_same_set (l l' : list string) :
  (forall x, In x l <-> In x l') ->
  (list_to_set l : gset string) = list_to_set l'.
Proof.
  intros H. apply set_eq. intros x. rewrite !elem_of_list_to_set.
  split; intros Hx; apply list_elem_of_In; apply list_elem_of_In in Hx; apply H, Hx.
Qed.

(** X14: [detect] reads the inventory as two sets: two project
    structures with the same name, types and frameworks that list the
    same file paths and the same directory paths, in any order and any
    number of times, give the same result, down to the order of the
    recommendations and to the error raised. *)
Theorem X14_detect_reads_inventory_as_sets
        (patterns : list Pattern) (ps ps' : ProjectStructure) :
  same_inventory ps ps' -> detect patterns ps = detect patterns ps'.
Proof.
  intros [Hn [Ht [Hw [Hf Hd]]]]. unfold detect.
  rewrite Hn, Ht, Hw, (same_elements_same_set _ _ Hf), (same_elements_same_set _ _ Hd).
  rewrite (detect_loop_structure patterns _ _ ps ps'). reflexivity.
Qed.

Lemma X14_detect_witness :
  let patterns :=
    [ mkPattern "missing-readme" (Some "file_absence") (CheckStr "README.md")
                None None None None;
      mkPattern "missing-tests" (Some "directory_absence") (CheckStr "tests")
                None None None None ] in
  let ps := mkProjectStructure "demo" ["python"] []
                               ["setup.py"; "docs/README.md"] ["docs"; "src"] in
  let ps' := mkProjectStructure "demo" ["python"] []
                                ["docs/README.md"; "setup.py"; "setup.py"]
                                ["src"; "docs"] in
  same_inventory ps ps' /\ detect patterns ps = detect patterns ps'.
Proof.
  intros patterns ps ps'.
  assert (H : same_inventory ps ps').
  { repeat split; cbn; tauto. }
  split; [exact H|]. apply (X14_detect_reads_inventory_as_sets patterns ps ps' H).
Defined.

Lemma scanned_directories_unlisted (root : Node) (paths : list string) :
  names_ok root = true ->
  Forall unlisted_marker paths ->
  directory_absence_loop
    paths (list_to_set (ProjectAnalyzer.directories (scan_structure root))) = true.
Proof.
  intros Hok. induction 1 as [|p paths Hp _ IH]; cbn [directory_absence_loop];
    [reflexivity|].
  destruct (PyStr.endswith p ".yml" || PyStr.endswith p ".yaml") eqn:Hext;
    [reflexivity|].
  destruct Hp as [Hc|[q [Hex [Hq Hpq]]]];
    [unfold config_extension in Hc; congruence|].
  destruct (scan_avoids_excluded_prefix root p q Hok Hpq Hq Hex) as [_ Hd].
  destruct (any_in _ _) eqn:Hany; [|exact IH].
  apply any_in_iff in Hany as [d [Hin Hs]].
  apply elem_of_list_to_set, list_elem_of_In in Hin.
  assert (existsb (fun d => PyStr.startswith d p)
                  (ProjectAnalyzer.directories (scan_structure root)) = true)
    by (apply existsb_exists; eauto).
  congruence.
Qed.

(** X15: fed with the directories of a scan (names being free of the
    path separator), a [directory_absence] check reports the issue
    whenever each of its markers either has a config-file extension or
    starts with a name that the scanner excludes: a rule that looks for
    [.github/workflows] or [.gitlab-ci.yml] finds CI missing in every
    scanned project, also in one that has the workflows. *)
Theorem X15_scanned_project_always_lacks_excluded_markers
        (root : Node) (paths : list string) :
  names_ok root = true ->
  Forall unlisted_marker paths ->
  let scanned : gset string :=
    list_to_set (ProjectAnalyzer.directories (scan_structure root)) in
  _check_directory_absence (CheckList paths) scanned = Ok true
  /\ (forall path, paths = [path] ->
                   _check_directory_absence (CheckStr path) scanned = Ok true).
Proof.
  intros Hok Hun. cbn zeta. split.
  - cbn [_check_directory_absence]. rewrite scanned_directories_unlisted; auto.
  - intros path ->. cbn [_check_directory_absence].
    rewrite scanned_directories_unlisted; auto.
Qed.

Lemma X15_scanned_project_witness :
  let root :=
    Dir [ (".github", Dir [("workflows", Dir [("ci.yml", File)])]);
          ("src", Dir [("main.py", File)]) ] in
  let paths := [".github/workflows"; ".gitlab-ci.yml"] in
  names_ok root = true
  /\ Forall unlisted_marker paths
  /\ _check_directory_absence (CheckList paths)
       (list_to_set (ProjectAnalyzer.directories (scan_structure root))) = Ok true.
Proof.
  intros root paths.
  assert (Hun : Forall unlisted_marker paths).
  { constructor; [|constructor; [|constructor]].
    - right. exists ".github". repeat split.
    - left. reflexivity. }
  split; [reflexivity|]. split; [exact Hun|].
  apply (X15_scanned_project_always_lacks_excluded_markers root paths eq_refl Hun).
Defined.

End InventoryOfDetect.

(* ===================================================================== *)
(** ** Priority scorer: order *)
(* ===================================================================== *)

Section PriorityOrder.

Import PatternDetector Spec SpecExtra.

Lemma level_cases (word : string) : level word = 1 \/ level word = 2 \/ level word = 3.
Proof.
  unfold level. destruct (String.eqb word "high"); [auto|].
  destruct (String.eqb word "low"); auto.
Qed.

Lemma confidence_weight_level (c : string) :
  confidence_weight c
  = if level c =? 3 then PyFloat.literal 10 10
    else if level c =? 1 then PyFloat.literal 4 10 else PyFloat.literal 7 10.
Proof.
  unfold confidence_weight, level.
  destruct (String.eqb c "high"); [reflexivity|].
  destruct (String.eqb_spec c "medium") as [->|_]; [reflexivity|].
  destruct (String.eqb c "low"); reflexivity.
Qed.

Lemma severity_multiplier_level (s : string) :
  severity_multiplier s
  = if level s =? 3 then PyFloat.literal 10 10
    else if level s =? 1 then PyFloat.literal 3 10 else PyFloat.literal 6 10.
Proof.
  unfold severity_multiplier, level.
  destruct (String.eqb s "high"); [reflexivity|].
  destruct (String.eqb_spec s "medium") as [->|_]; [reflexivity|].
  destruct (String.eqb s "low"); reflexivity.
Qed.

Lemma severity_base_level (s : string) :
  severity_base s = if level s =? 3 then 10 else if level s =? 1 then 2 else 5.
Proof.
  unfold severity_base, level.
  destruct (String.eqb s "high"); [reflexivity|].
  destruct (String.eqb_spec s "medium") as [->|_]; [reflexivity|].
  destruct (String.eqb s "low"); reflexivity.
Qed.

Lemma priority_by_level (d : Detection) :
  _calculate_priority d
  = PyFloat.mul
      (PyFloat.mul
         (if level (d_confidence d) =? 3 then PyFloat.literal 10 10
          else if level (d_confidence d) =? 1 then PyFloat.literal 4 10
          else PyFloat.literal 7 10)
         (if level (d_severity d) =? 3 then PyFloat.literal 10 10
          else if level (d_severity d) =? 1 then PyFloat.literal 3 10
          else PyFloat.literal 6 10))
      (PyFloat.constant
         (if level (d_severity d) =? 3 then 10
          else if level (d_severity d) =? 1 then 2 else 5)).
Proof.
  rewrite priority_as_product, confidence_weight_level, severity_multiplier_level,
    severity_base_level. reflexivity.
Qed.

(** X16: the priority score grows with the ranks of the confidence and
    of the severity ([low] below [medium] below [high], any other word
    ranking as [medium]): a detection that is ranked no lower on both
    has a priority no lower, one that is also ranked higher on either
    has a strictly higher priority; and no priority exceeds 10. *)
Theorem X16_priority_grows_with_confidence_and_severity (d d' : Detection) :
  level (d_confidence d) <= level (d_confidence d') ->
  level (d_severity d) <= level (d_severity d') ->
  PyFloat.leb (_calculate_priority d) (_calculate_priority d') = true
  /\ (level (d_confidence d) < level (d_confidence d')
      \/ level (d_severity d) < level (d_severity d') ->
      PyFloat.ltb (_calculate_priority d) (_calculate_priority d') = true)
  /\ PyFloat.leb (_calculate_priority d') (PyFloat.constant 10) = true.
Proof.
  rewrite !priority_by_level.
  destruct (level_cases (d_confidence d)) as [->|[->| ->]],
           (level_cases (d_severity d)) as [->|[->| ->]],
           (level_cases (d_confidence d')) as [->|[->| ->]],
           (level_cases (d_severity d')) as [->|[->| ->]];
    intros H1 H2; try lia;
    (split; [vm_compute; reflexivity|];
     split; [intros H; first [vm_compute; reflexivity | exfalso; lia]
            | vm_compute; reflexivity]).
Qed.

Lemma X16_priority_witness :
  let d := mkDetection "a" None "low" "critical" true None in
  let d' := mkDetection "b" None "certain" "high" true None in
  level (d_confidence d) <= level (d_confidence d')
  /\ level (d_severity d) <= level (d_severity d')
  /\ PyFloat.ltb (_calculate_priority d) (_calculate_priority d') = true.
Proof.
  intros d d'.
  assert (H1 : level (d_confidence d) <= level (d_confidence d'))
    by (vm_compute; discriminate).
  assert (H2 : level (d_severity d) <= level (d_severity d'))
    by (vm_compute; discriminate).
  split; [exact H1|]. split; [exact H2|].
  destruct (X16_priority_grows_with_confidence_and_severity d d' H1 H2) as [_ [H _]].
  apply H. left. vm_compute. reflexivity.
Defined.

End PriorityOrder.


(* ===================================================================== *)
(** ** Health score: errors and sign *)
(* ===================================================================== *)

Section HealthScoreErrors.

Import PatternDetector Spec SpecExtra.

Lemma of_int_error (z : Z) (e : exn) :
  PyFloat.of_int z = Raise e -> e = OverflowError.
Proof.
  unfold PyFloat.of_int. destruct (PyFloat.is_infinite _); [|discriminate].
  intros [= <-]. reflexivity.
Qed.

Lemma mul_int_error (x : PyFloat.float) (n : Z) (e : exn) :
  PyFloat.mul_int x n = Raise e -> e = OverflowError.
Proof.
  unfold PyFloat.mul_int. destruct (PyFloat.of_int n) as [y|e'] eqn:Hy;
    cbn [mbind PyResult_bind]; [discriminate|].
  intros [= <-]. eapply of_int_error, Hy.
Qed.

Lemma int_sub_error (n : Z) (x : PyFloat.float) (e : exn) :
  PyFloat.int_sub n x = Raise e -> e = OverflowError.
Proof.
  unfold PyFloat.int_sub. destruct (PyFloat.of_int n) as [y|e'] eqn:Hy;
    cbn [mbind PyResult_bind]; [discriminate|].
  intros [= <-]. eapply of_int_error, Hy.
Qed.

Lemma sub_int_error (x : PyFloat.float) (n : Z) (e : exn) :
  PyFloat.sub_int x n = Raise e -> e = OverflowError.
Proof.
  unfold PyFloat.sub_int. destruct (PyFloat.of_int n) as [y|e'] eqn:Hy;
    cbn [mbind PyResult_bind]; [discriminate|].
  intros [= <-]. eapply of_int_error, Hy.
Qed.

Lemma int_truediv_error (a b : Z) (e : exn) :
  PyFloat.int_truediv a b = Raise e ->
  (e = ZeroDivisionError /\ b = 0) \/ (e = OverflowError /\ b <> 0).
Proof.
  unfold PyFloat.int_truediv. destruct (Z.eqb_spec b 0) as [->|Hb].
  - intros [= <-]. auto.
  - destruct (PyFloat.is_infinite _); [|discriminate]. intros [= <-]. auto.
Qed.

Lemma default_total_zero (summary : gmap string Z) :
  default 1 (summary !! "total_patterns") = 0 <-> summary !! "total_patterns" = Some 0.
Proof.
  destruct (summary !! "total_patterns") as [n|]; cbn.
  - split; [intros ->; reflexivity | intros [= ->]; reflexivity].
  - split; discriminate.
Qed.

Lemma score_of_max_zero (x : PyFloat.float) :
  match max_zero x with
  | Int n => n = 0
  | Float y =>
      match PyFloat.to_int y with
      | Ok n => 0 <= n
      | Raise e => e = OverflowError
      end
  end.
Proof.
  destruct (max_zero_cases x) as [->|[-> [->|[m [e ->]]]]]; cbn; try reflexivity.
  apply trunc_round_pos.
Qed.

Lemma calculate_health_score_outcome (summary : gmap string Z) :
  match MemoryIntegration._calculate_health_score summary with
  | Ok v => 0 <= v /\ summary !! "total_patterns" <> Some 0
  | Raise e =>
      (e = ZeroDivisionError /\ summary !! "total_patterns" = Some 0)
      \/ (e = OverflowError /\ summary !! "total_patterns" <> Some 0)
  end.
Proof.
  unfold MemoryIntegration._calculate_health_score.
  destruct (PyFloat.int_truediv _ _) as [ratio|e] eqn:Hdiv; cbn [mbind PyResult_bind].
  - assert (Hnz : summary !! "total_patterns" <> Some 0).
    { intros H. apply default_total_zero in H. rewrite H in Hdiv.
      unfold PyFloat.int_truediv in Hdiv. cbn in Hdiv. discriminate. }
    destruct (PyFloat.mul_int ratio 100) as [penalty|e] eqn:H1;
      cbn [mbind PyResult_bind]; [|right; split; [eapply mul_int_error, H1 | exact Hnz]].
    destruct (PyFloat.int_sub 100 penalty) as [d1|e] eqn:H2;
      cbn [mbind PyResult_bind]; [|right; split; [eapply int_sub_error, H2 | exact Hnz]].
    destruct (PyFloat.sub_int d1 _) as [d2|e] eqn:H3;
      cbn [mbind PyResult_bind]; [|right; split; [eapply sub_int_error, H3 | exact Hnz]].
    destruct (PyFloat.sub_int d2 _) as [d3|e] eqn:H4;
      cbn [mbind PyResult_bind]; [|right; split; [eapply sub_int_error, H4 | exact Hnz]].
    pose proof (score_of_max_zero d3) as Hs.
    destruct (max_zero d3) as [n|y]; [subst n; split; [lia | exact Hnz]|].
    destruct (PyFloat.to_int y) as [n|e]; [split; assumption | right; split; assumption].
  - apply int_truediv_error in Hdiv as [[-> Hz]|[-> Hnz]].
    + left. split; [reflexivity | apply default_total_zero, Hz].
    + right. split; [reflexivity|]. intros H. apply Hnz, default_total_zero, H.
Qed.

Lemma generate_health_score_outcome (self : ReportGenerator.Generator) :
  match ReportGenerator._generate_health_score self with
  | Ok line => ReportGenerator.g_summary self !! "total_patterns" <> Some 0
  | Raise e =>
      (e = ZeroDivisionError
       /\ ReportGenerator.g_summary self !! "total_patterns" = Some 0)
      \/ (e = OverflowError
          /\ ReportGenerator.g_summary self !! "total_patterns" <> Some 0)
  end.
Proof.
  unfold ReportGenerator._generate_health_score.
  destruct (PyFloat.int_truediv _ _) as [ratio|e] eqn:Hdiv; cbn [mbind PyResult_bind].
  - assert (Hnz : ReportGenerator.g_summary self !! "total_patterns" <> Some 0).
    { intros H. apply default_total_zero in H. rewrite H in Hdiv.
      unfold PyFloat.int_truediv in Hdiv. cbn in Hdiv. discriminate. }
    destruct (PyFloat.mul_int ratio 100) as [penalty|e] eqn:H1;
      cbn [mbind PyResult_bind]; [|right; split; [eapply mul_int_error, H1 | exact Hnz]].
    destruct (PyFloat.int_sub 100 penalty) as [d1|e] eqn:H2;
      cbn [mbind PyResult_bind]; [|right; split; [eapply int_sub_error, H2 | exact Hnz]].
    destruct (PyFloat.sub_int d1 _) as [d2|e] eqn:H3;
      cbn [mbind PyResult_bind]; [|right; split; [eapply sub_int_error, H3 | exact Hnz]].
    destruct (PyFloat.sub_int d2 _) as [d3|e] eqn:H4;
      cbn [mbind PyResult_bind]; [|right; split; [eapply sub_int_error, H4 | exact Hnz]].
    destruct (if ReportGenerator.at_least (max_zero d3) 90 then _ else _). exact Hnz.
  - apply int_truediv_error in Hdiv as [[-> Hz]|[-> Hnz]].
    + left. split; [reflexivity | apply default_total_zero, Hz].
    + right. split; [reflexivity|]. intros H. apply Hnz, default_total_zero, H.
Qed.

(** X17: the health score that is stored is never negative.  Both
    copies of the computation fail with [ZeroDivisionError] exactly when
    the summary gives [total_patterns] as [0], and the only other error
    either of them can raise is [OverflowError]. *)
Theorem X17_health_score_sign_and_errors (self : ReportGenerator.Generator) :
  let summary := ReportGenerator.g_summary self in
  (forall v, MemoryIntegration._calculate_health_score summary = Ok v -> 0 <= v)
  /\ (MemoryIntegration._calculate_health_score summary = Raise ZeroDivisionError
      <-> summary !! "total_patterns" = Some 0)
  /\ (ReportGenerator._generate_health_score self = Raise ZeroDivisionError
      <-> summary !! "total_patterns" = Some 0)
  /\ (forall e,
         MemoryIntegration._calculate_health_score summary = Raise e
         \/ ReportGenerator._generate_health_score self = Raise e ->
         e = ZeroDivisionError \/ e = OverflowError).
Proof.
  cbn zeta.
  pose proof (calculate_health_score_outcome (ReportGenerator.g_summary self)) as Hc.
  pose proof (generate_health_score_outcome self) as Hg.
  split; [|split; [|split]].
  - intros v Hv. rewrite Hv in Hc. tauto.
  - split; intros H.
    + rewrite H in Hc. destruct Hc as [[_ H']|[H' _]]; [exact H' | discriminate].
    + destruct (MemoryIntegration._calculate_health_score _) as [v|e];
        [destruct Hc; contradiction|].
      destruct Hc as [[-> _]|[_ Hn]]; [reflexivity | contradiction].
  - split; intros H.
    + rewrite H in Hg. destruct Hg as [[_ H']|[H' _]]; [exact H' | discriminate].
    + destruct (ReportGenerator._generate_health_score self) as [v|e];
        [contradiction|].
      destruct Hg as [[-> _]|[_ Hn]]; [reflexivity | contradiction].
  - intros e [Hr|Hr]; [rewrite Hr in Hc | rewrite Hr in Hg]; tauto.
Qed.

End HealthScoreErrors.


(* ===================================================================== *)
(** ** From the rule engine to the report and to the memory *)
(* ===================================================================== *)

Section Pipeline.

Import PatternDetector Spec SpecExtra.

Lemma summary_document_lookup (s : Summary) :
  ReportGenerator.summary_document s !! "total_patterns" = Some (total_patterns s)
  /\ ReportGenerator.summary_document s !! "issues_found" = Some (issues_found s)
  /\ ReportGenerator.summary_document s !! "high_severity" = Some (high_severity s)
  /\ ReportGenerator.summary_document s !! "medium_severity" = Some (medium_severity s).
Proof. repeat split; reflexivity. Qed.

Lemma int_truediv_zero (b : Z) :
  b <> 0 -> exists s, PyFloat.int_truediv 0 b = Ok (S754_zero s).
Proof.
  intros Hb. unfold PyFloat.int_truediv. destruct (Z.eqb_spec b 0); [contradiction|].
  destruct b as [|p|p]; [contradiction| |]; cbn; eauto.
Qed.

Lemma health_without_issue (summary : gmap string Z) :
  default 1 (summary !! "total_patterns") <> 0 ->
  default 0 (summary !! "issues_found") = 0 ->
  default 0 (summary !! "high_severity") = 0 ->
  default 0 (summary !! "medium_severity") = 0 ->
  MemoryIntegration._calculate_health_score summary = Ok 100
  /\ forall self,
      ReportGenerator.g_summary self = summary ->
      ReportGenerator._generate_health_score self
      = Ok (ReportGenerator.STATUS_ICONS !!! "rocket"
              +:+ " Project Health: 100/100 (Excellent)").
Proof.
  intros Ht Hi Hh Hm. destruct (int_truediv_zero _ Ht) as [s Hs]. split.
  - unfold MemoryIntegration._calculate_health_score. rewrite Hi, Hh, Hm, Hs.
    destruct s; vm_compute; reflexivity.
  - intros self Hself. unfold ReportGenerator._generate_health_score.
    rewrite Hself, Hi, Hh, Hm, Hs. destruct s; vm_compute; reflexivity.
Qed.

Lemma detect_rule_count (patterns : list Pattern) (ps : ProjectStructure)
      (results : Results) :
  detect patterns ps = Ok results ->
  ReportGenerator.g_summary (ReportGenerator.__init__ results) !! "total_patterns"
  = Some (Z.of_nat (length patterns)).
Proof.
  intros Hd. destruct (detect_spec _ _ _ Hd) as [_ [_ [Ht _]]].
  cbn [ReportGenerator.__init__ ReportGenerator.g_summary].
  destruct (summary_document_lookup (summary results)) as [-> _]. rewrite Ht. reflexivity.
Qed.

Lemma generate_report_error (self : ReportGenerator.Generator) (e : exn) :
  ReportGenerator.generate_report self = Raise e
  <-> ReportGenerator._generate_health_score self = Raise e.
Proof.
  unfold ReportGenerator.generate_report.
  destruct (ReportGenerator._generate_health_score self); cbn [mbind PyResult_bind];
    split; intros H; try discriminate; exact H.
Qed.

(** X18: from a result of [detect], the report and the stored health
    score fail with [ZeroDivisionError] exactly when the configuration
    holds no rule at all; with at least one rule the division by
    [total_patterns] never fails, whatever the detections are. *)
Theorem X18_report_divides_by_zero_iff_no_rule
        (patterns : list Pattern) (ps : ProjectStructure) (results : Results) :
  detect patterns ps = Ok results ->
  let self := ReportGenerator.__init__ results in
  (ReportGenerator.generate_report self = Raise ZeroDivisionError <-> patterns = [])
  /\ (MemoryIntegration._calculate_health_score (ReportGenerator.g_summary self)
      = Raise ZeroDivisionError <-> patterns = []).
Proof.
  intros Hd self. pose proof (detect_rule_count _ _ _ Hd) as Ht. fold self in Ht.
  assert (Hz : ReportGenerator.g_summary self !! "total_patterns" = Some 0
               <-> patterns = []).
  { rewrite Ht. destruct patterns; cbn [length]; split; intros H;
      try reflexivity; try discriminate. }
  pose proof (calculate_health_score_outcome (ReportGenerator.g_summary self)) as Hc.
  pose proof (generate_health_score_outcome self) as Hg.
  rewrite generate_report_error, <- Hz. split; split; intros H.
  - rewrite H in Hg. destruct Hg as [[_ H']|[H' _]]; [exact H' | discriminate].
  - destruct (ReportGenerator._generate_health_score self) as [v|e];
      [contradiction|].
    destruct Hg as [[-> _]|[_ Hn]]; [reflexivity | contradiction].
  - rewrite H in Hc. destruct Hc as [[_ H']|[H' _]]; [exact H' | discriminate].
  - destruct (MemoryIntegration._calculate_health_score _) as [v|e];
      [destruct Hc; contradiction|].
    destruct Hc as [[-> _]|[_ Hn]]; [reflexivity | contradiction].
Qed.

Lemma X18_report_witness :
  let ps := mkProjectStructure "demo" ["python"] [] ["setup.py"] ["src"] in
  exists results,
    detect [] ps = Ok results
    /\ ReportGenerator.generate_report (ReportGenerator.__init__ results)
       = Raise ZeroDivisionError.
Proof.
  intros ps. destruct (detect [] ps) as [results|e] eqn:Hd; [|discriminate].
  exists results. split; [reflexivity|].
  apply (X18_report_divides_by_zero_iff_no_rule [] ps results Hd). reflexivity.
Defined.

Lemma no_issue_counters (patterns : list Pattern) (ps : ProjectStructure)
      (results : Results) :
  detect patterns ps = Ok results ->
  issues_found (summary results) = 0 ->
  high_severity (summary results) = 0 /\ medium_severity (summary results) = 0
  /\ low_severity (summary results) = 0 /\ recommendations results = [].
Proof.
  intros Hd Hi. destruct (detect_summary _ _ _ Hd) as [H1 [H2 [H3 [H4 _]]]].
  destruct (severity_counts (detections results)) as [Hle _].
  destruct (recommendations_from_flagged _ _ _ Hd) as [_ [_ Hr]].
  cbn zeta in *. repeat split; try lia.
  destruct (recommendations results); [reflexivity|]. cbn [length] in Hr. lia.
Qed.

(** X19: when [detect], with at least one rule, finds no issue, the
    report ends with the sections [No priority actions needed!] and
    [Project Health: 100/100 (Excellent)], and the health score that is
    stored is [100]. *)
Theorem X19_clean_run_scores_100
        (patterns : list Pattern) (ps : ProjectStructure) (results : Results) :
  detect patterns ps = Ok results ->
  patterns <> [] ->
  issues_found (summary results) = 0 ->
  let self := ReportGenerator.__init__ results in
  ReportGenerator.generate_report self
  = Ok (PyStr.join (newline +:+ newline)
          [ ReportGenerator._generate_header;
            ReportGenerator._generate_project_info self;
            ReportGenerator._generate_category_status self;
            ReportGenerator.STATUS_ICONS !!! "ok" +:+ " No priority actions needed!";
            ReportGenerator.STATUS_ICONS !!! "rocket"
              +:+ " Project Health: 100/100 (Excellent)" ])
  /\ MemoryIntegration._calculate_health_score (ReportGenerator.g_summary self) = Ok 100.
Proof.
  intros Hd Hne Hi self.
  destruct (no_issue_counters _ _ _ Hd Hi) as [Hh [Hm [_ Hr]]].
  destruct (detect_spec _ _ _ Hd) as [_ [_ [Ht _]]].
  destruct (summary_document_lookup (summary results)) as [L1 [L2 [L3 L4]]].
  destruct (health_without_issue (ReportGenerator.g_summary self)) as [Hc Hg].
  - cbn [self ReportGenerator.__init__ ReportGenerator.g_summary]. rewrite L1, Ht. cbn.
    destruct patterns; [contradiction | cbn [length]; lia].
  - cbn [self ReportGenerator.__init__ ReportGenerator.g_summary]. rewrite L2. exact Hi.
  - cbn [self ReportGenerator.__init__ ReportGenerator.g_summary]. rewrite L3. exact Hh.
  - cbn [self ReportGenerator.__init__ ReportGenerator.g_summary]. rewrite L4. exact Hm.
  - split; [|exact Hc]. unfold ReportGenerator.generate_report.
    rewrite (Hg self eq_refl). cbn [mbind PyResult_bind].
    unfold ReportGenerator._generate_priority_actions.
    cbn [self ReportGenerator.__init__ ReportGenerator.g_recommendations].
    rewrite Hr. reflexivity.
Qed.

Lemma X19_clean_run_witness :
  let patterns :=
    [ mkPattern "missing-readme" (Some "file_absence") (CheckStr "README.md")
                None None (Some "high") None;
      mkPattern "missing-eslint" (Some "file_absence") (CheckStr ".eslintrc")
                (Some "package.json exists") None None None ] in
  let ps := mkProjectStructure "demo" ["python"] [] ["README.md"; "setup.py"] [] in
  exists results,
    detect patterns ps = Ok results
    /\ patterns <> []
    /\ issues_found (summary results) = 0
    /\ MemoryIntegration._calculate_health_score
         (ReportGenerator.g_summary (ReportGenerator.__init__ results)) = Ok 100.
Proof.
  intros patterns ps.
  destruct (detect patterns ps) as [results|e] eqn:Hd; [|vm_compute in Hd; discriminate].
  assert (Hi : issues_found (summary results) = 0)
    by (vm_compute in Hd; injection Hd as <-; reflexivity).
  assert (Hne : patterns <> []) by discriminate.
  exists results. split; [reflexivity|]. split; [exact Hne|]. split; [exact Hi|].
  apply (X19_clean_run_scores_100 patterns ps results Hd Hne Hi).
Defined.

End Pipeline.


(* ===================================================================== *)
(** ** Report: the status section, category by category *)
(* ===================================================================== *)

Section CategoryBlocks.

Import PatternDetector ReportGenerator Spec SpecExtra.

Lemma no_issue_forallb (l : list Detection) :
  List.filter issue_found l = [] <-> forallb (fun d => negb (issue_found d)) l = true.
Proof.
  induction l as [|d l IH]; cbn [List.filter forallb]; [tauto|].
  destruct (issue_found d); cbn [negb andb]; [split; discriminate | exact IH].
Qed.

Lemma existsb_filter {A : Type} (f g : A -> bool) (l : list A) :
  existsb g (List.filter f l) = existsb (fun x => f x && g x) l.
Proof.
  induction l as [|x l IH]; [reflexivity|]. cbn [List.filter existsb].
  destruct (f x); cbn [existsb andb orb]; rewrite IH; reflexivity.
Qed.

Lemma category_lines_block (category : string) (mine : list Detection) :
  category_lines category mine = category_block category mine.
Proof.
  unfold category_lines, category_block, status_word, flagged.
  destruct mine as [|d l]; [reflexivity|]. f_equal. f_equal. f_equal.
  rewrite <- existsb_filter.
  destruct (List.filter issue_found (d :: l)) as [|i rest] eqn:Hf.
  - apply no_issue_forallb in Hf. rewrite Hf. reflexivity.
  - destruct (forallb _ (d :: l)) eqn:Hall.
    + apply no_issue_forallb in Hall. congruence.
    + destruct (existsb _ (i :: rest)); reflexivity.
Qed.

Lemma category_blocks (detections : list Detection) :
  category_status_lines detections
  = flat_map (fun c => category_block c (List.filter (in_category c) detections))
             ["Git Configuration"; "Documentation"; "CI/CD"; "Code Quality"; "Setup"].
Proof.
  rewrite category_status_lines_spec. apply flat_map_pointwise.
  intros c _. apply category_lines_block.
Qed.

Lemma category_block_length (category : string) (mine : list Detection) :
  length (category_block category mine)
  = ((if existsb (fun _ => true) mine then 1 else 0) + length (flagged mine))%nat.
Proof.
  unfold category_block. destruct mine as [|d l]; [reflexivity|].
  cbn [length existsb orb]. rewrite length_map. reflexivity.
Qed.

Lemma existsb_in_category (category : string) (detections : list Detection) :
  existsb (fun _ => true) (List.filter (in_category category) detections)
  = existsb (in_category category) detections.
Proof.
  rewrite existsb_filter. induction detections as [|d l IH]; [reflexivity|].
  cbn [existsb]. rewrite IH, andb_true_r. reflexivity.
Qed.

Lemma one_category (d : Detection) :
  ((if in_category "Git Configuration" d then 1 else 0)
   + (if in_category "Documentation" d then 1 else 0)
   + (if in_category "CI/CD" d then 1 else 0)
   + (if in_category "Code Quality" d then 1 else 0)
   + (if in_category "Setup" d then 1 else 0))%nat
  = if in_category "Other" d then 0%nat else 1%nat.
Proof.
  unfold in_category. pose proof (get_category_taxonomy (d_id d)) as Hc.
  cbn [In] in Hc. destruct Hc as [<-|[<-|[<-|[<-|[<-|[<-|[]]]]]]]; reflexivity.
Qed.

Lemma flagged_filter_cons (f : Detection -> bool) (d : Detection) (l : list Detection) :
  length (flagged (List.filter f (d :: l)))
  = ((if f d then if issue_found d then 1 else 0 else 0)
     + length (flagged (List.filter f l)))%nat.
Proof.
  unfold flagged. cbn [List.filter]. destruct (f d); [|reflexivity].
  cbn [List.filter]. destruct (issue_found d); reflexivity.
Qed.

Lemma flagged_by_category (detections : list Detection) :
  (length (flagged (List.filter (in_category "Git Configuration") detections))
   + length (flagged (List.filter (in_category "Documentation") detections))
   + length (flagged (List.filter (in_category "CI/CD") detections))
   + length (flagged (List.filter (in_category "Code Quality") detections))
   + length (flagged (List.filter (in_category "Setup") detections)))%nat
  = length (flagged (List.filter (fun d => negb (in_category "Other" d)) detections)).
Proof.
  induction detections as [|d l IH]; [reflexivity|].
  rewrite !flagged_filter_cons, <- IH. pose proof (one_category d) as H.
  destruct (in_category "Git Configuration" d), (in_category "Documentation" d),
    (in_category "CI/CD" d), (in_category "Code Quality" d), (in_category "Setup" d),
    (in_category "Other" d), (issue_found d); cbn [negb] in *; lia.
Qed.

Lemma status_section_entries (detections : list Detection) :
  length (category_status_lines detections)
  = (length (List.filter (fun c => existsb (in_category c) detections)
                         ["Git Configuration"; "Documentation"; "CI/CD";
                          "Code Quality"; "Setup"])
     + length (flagged (List.filter (fun d => negb (in_category "Other" d))
                                    detections)))%nat.
Proof.
  rewrite category_blocks, <- flagged_by_category. cbn [flat_map List.filter].
  rewrite !length_app, !category_block_length, !existsb_in_category. cbn [length].
  repeat match goal with
         | |- context [existsb (in_category ?c) detections] =>
             destruct (existsb (in_category c) detections)
         end; cbn [length]; lia.
Qed.

(** X20: the status section goes through the five listed categories in
    their fixed order; a category without a detection gives nothing, any
    other gives its header, whose icon is [ok] when none of its
    detections is flagged, [error] when a flagged one has severity
    [high] and [warning] otherwise, followed by one entry for each of
    its flagged detections in the order of the detections.  The section
    therefore has one header for every listed category that has a
    detection and one entry for every flagged detection outside
    [Other]. *)
Theorem X20_status_section_by_category (self : Generator) :
  _generate_category_status self
  = PyStr.join newline
      (flat_map
         (fun c => category_block c (List.filter (in_category c) (g_detections self)))
         ["Git Configuration"; "Documentation"; "CI/CD"; "Code Quality"; "Setup"])
  /\ length (category_status_lines (g_detections self))
     = (length (List.filter (fun c => existsb (in_category c) (g_detections self))
                            ["Git Configuration"; "Documentation"; "CI/CD";
                             "Code Quality"; "Setup"])
        + length (flagged (List.filter (fun d => negb (in_category "Other" d))
                                       (g_detections self))))%nat.
Proof.
  split; [|apply status_section_entries].
  unfold _generate_category_status. rewrite category_blocks. reflexivity.
Qed.

End CategoryBlocks.


(* ===================================================================== *)
(** ** Report: the priority actions *)
(* ===================================================================== *)

Section PriorityActions.

Import PatternDetector ReportGenerator Spec SpecExtra.

Lemma action_lines_lookup (recs : list Advice) (first : Z) (i : nat) (a : Advice) :
  recs !! i = Some a ->
  action_lines first recs !! (2 * i)%nat
  = Some ("  " +:+ PyStr.of_Z (first + Z.of_nat i) +:+ ". " +:+ _get_description (a_id a)
               +:+ " (" +:+ a_severity a +:+ " severity)")
  /\ action_lines first recs !! (2 * i + 1)%nat
     = Some ("     → /apply-template " +:+ a_template a).
Proof.
  revert first i. induction recs as [|r recs IH]; intros first i; [discriminate|].
  destruct i as [|i]; cbn [action_lines].
  - intros [= ->]. rewrite Z.add_0_r. split; reflexivity.
  - intros Hi. destruct (IH (first + 1) i Hi) as [H1 H2].
    replace (first + 1 + Z.of_nat i) with (first + Z.of_nat (S i)) in H1 by lia.
    replace (2 * S i)%nat with (S (S (2 * i))) by lia.
    replace (S (S (2 * i)) + 1)%nat with (S (S (2 * i + 1))) by lia.
    split; [exact H1 | exact H2].
Qed.

Lemma action_lines_length (recs : list Advice) (first : Z) :
  length (action_lines first recs) = (2 * length recs)%nat.
Proof.
  revert first. induction recs as [|r recs IH]; intros first; [reflexivity|].
  cbn [action_lines length]. rewrite IH. lia.
Qed.

Lemma recommendations_sorted (patterns : list Pattern) (ps : ProjectStructure)
      (results : Results) :
  detect patterns ps = Ok results ->
  StronglySorted (fun a b => PyFloat.leb (priority_score b) (priority_score a) = true)
                 (recommendations results).
Proof.
  intros Hd. destruct (detect_spec _ _ _ Hd) as [_ [H2 _]].
  pose proof (rule_advice_positive (list_to_set (files ps))
                (list_to_set (directories ps)) ps patterns) as Hpos.
  rewrite H2.
  pose proof (sort_sorted priority_score PyFloat.ltb positive_float
                ltb_asym ltb_negtrans _ Hpos) as Hs.
  assert (Hall : Forall (fun a => positive_float (priority_score a))
                   (PyList.sort_reverse priority_score PyFloat.ltb
                      (flat_map (rule_advice (list_to_set (files ps))
                                             (list_to_set (directories ps)) ps)
                                patterns))).
  { eapply Permutation_Forall; [symmetry; apply sort_perm|exact Hpos]. }
  revert Hs Hall. generalize (PyList.sort_reverse priority_score PyFloat.ltb
                      (flat_map (rule_advice (list_to_set (files ps))
                                             (list_to_set (directories ps)) ps)
                                patterns)).
  intros l Hs. induction Hs as [|a l Hs IH Ha]; intros Hall; constructor.
  - apply IH. apply Forall_cons in Hall as [_ Hall]. exact Hall.
  - apply Forall_cons in Hall as [Hpa Hall].
    rewrite Forall_forall in Ha, Hall |- *. intros b Hb.
    apply ltb_false_positive; auto. apply Ha. exact Hb.
Qed.

Lemma sorted_split {A : Type} (R : A -> A -> Prop) (l1 l2 : list A) :
  StronglySorted R (l1 ++ l2) -> forall a b, In a l1 -> In b l2 -> R a b.
Proof.
  induction l1 as [|x l1 IH]; intros Hs a b Ha Hb; [destruct Ha|].
  cbn [app] in Hs. apply StronglySorted_inv in Hs as [Hs Hx].
  destruct Ha as [->|Ha]; [|eauto].
  rewrite List.Forall_forall in Hx. apply Hx, in_or_app. right. exact Hb.
Qed.

(** X21: the report's priority actions are those of the first five
    recommendations of the result, which no recommendation left out
    outscores; the action of the [i]-th of them (counted from 0) is the
    pair of lines numbered [i + 1] with its description and severity
    and with its template, and a result without recommendations gives
    the line [No priority actions needed!]. *)
Theorem X21_priority_actions_are_the_top_five
        (patterns : list Pattern) (ps : ProjectStructure) (results : Results) :
  detect patterns ps = Ok results ->
  let shown := take 5 (recommendations results) in
  let hidden := drop 5 (recommendations results) in
  (forall a b, In a shown -> In b hidden ->
               PyFloat.leb (priority_score b) (priority_score a) = true)
  /\ _generate_priority_actions (__init__ results)
     = match shown with
       | [] => STATUS_ICONS !!! "ok" +:+ " No priority actions needed!"
       | _ => PyStr.join newline ("Priority Actions:" :: action_lines 1 shown)
       end
  /\ length (action_lines 1 shown)
     = (2 * Nat.min 5 (length (recommendations results)))%nat
  /\ forall i a,
      shown !! i = Some a ->
      action_lines 1 shown !! (2 * i)%nat
      = Some ("  " +:+ PyStr.of_Z (Z.of_nat i + 1) +:+ ". " +:+ _get_description (a_id a)
                   +:+ " (" +:+ a_severity a +:+ " severity)")
      /\ action_lines 1 shown !! (2 * i + 1)%nat
         = Some ("     → /apply-template " +:+ a_template a).
Proof.
  intros Hd shown hidden. split; [|split; [|split]].
  - apply (sorted_split (fun a b => PyFloat.leb (priority_score b) (priority_score a) = true)).
    unfold shown, hidden. rewrite take_drop. eapply recommendations_sorted, Hd.
  - unfold _generate_priority_actions. cbn [__init__ g_recommendations]. subst shown.
    destruct (recommendations results); reflexivity.
  - rewrite action_lines_length. unfold shown. rewrite length_take. reflexivity.
  - intros i a Hi. rewrite (Z.add_comm (Z.of_nat i) 1).
    apply action_lines_lookup. exact Hi.
Qed.

Lemma X21_priority_actions_witness :
  let rule id severity :=
    mkPattern id (Some "file_absence") (CheckStr id) None (Some "high")
              (Some severity) (Some (mkRecommendation ("docs/" +:+ id) "missing" None)) in
  let patterns :=
    [rule "a" "low"; rule "b" "high"; rule "c" "low"; rule "d" "medium";
     rule "e" "high"; rule "f" "low"; rule "g" "medium"] in
  let ps := mkProjectStructure "demo" [] [] ["main.py"] [] in
  exists results,
    detect patterns ps = Ok results
    /\ map a_id (take 5 (recommendations results)) = ["b"; "e"; "d"; "g"; "a"]
    /\ map a_id (drop 5 (recommendations results)) = ["c"; "f"]
    /\ length (action_lines 1 (take 5 (recommendations results))) = 10%nat.
Proof.
  intros rule patterns ps.
  destruct (detect patterns ps) as [results|e] eqn:Hd; [|vm_compute in Hd; discriminate].
  exists results. split; [reflexivity|].
  destruct (X21_priority_actions_are_the_top_five patterns ps results Hd)
    as [_ [_ [Hlen _]]].
  rewrite Hlen. vm_compute in Hd. injection Hd as <-.
  repeat split; reflexivity.
Defined.

End PriorityActions.

(* ===================================================================== *)
(** ** Memory integration: the session and the isolation check *)
(* ===================================================================== *)

Section Session.

Import PatternDetector MemoryIntegration Spec SpecExtra.

Lemma search_session_spec (rounds : nat) (levels : list SessionFile) (s : string) :
  search_session rounds levels = Some s
  <-> exists k text,
      (k < rounds)%nat /\ levels !! k = Some (Holds text)
      /\ (forall j, (j < k)%nat -> levels !! j = Some NoFile)
      /\ s = PyStr.strip text.
Proof.
  revert levels. induction rounds as [|n IH]; intros levels; cbn [search_session].
  - split; [discriminate | intros [k [text [Hk _]]]; lia].
  - destruct levels as [|[| |text] parents].
    + split; [discriminate | intros [k [text [_ [H _]]]]; discriminate].
    + assert (Hrec : search_session n parents = Some s
                     <-> exists k text,
                         (k < S n)%nat /\ (NoFile :: parents) !! k = Some (Holds text)
                         /\ (forall j, (j < k)%nat -> (NoFile :: parents) !! j = Some NoFile)
                         /\ s = PyStr.strip text).
      { rewrite IH. split.
        - intros [k [text [Hk [Hl [Hb ->]]]]]. exists (S k), text.
          split; [lia|]. split; [exact Hl|]. split; [|reflexivity].
          intros [|j] Hj; [reflexivity|]. apply Hb. lia.
        - intros [k [text [Hk [Hl [Hb ->]]]]]. destruct k as [|k]; [discriminate|].
          exists k, text. split; [lia|]. split; [exact Hl|]. split; [|reflexivity].
          intros j Hj. apply (Hb (S j)). lia. }
      destruct parents as [|p parents]; [|exact Hrec].
      rewrite <- Hrec. destruct n; reflexivity.
    + split; [discriminate|]. intros [k [text [_ [Hl [Hb _]]]]].
      destruct k as [|k]; [discriminate|]. specialize (Hb 0%nat ltac:(lia)). discriminate.
    + split.
      * intros [= <-]. exists 0%nat, text. split; [lia|]. split; [reflexivity|].
        split; [intros j Hj; lia | reflexivity].
      * intros [k [text' [_ [Hl [Hb ->]]]]]. destruct k as [|k].
        -- injection Hl as ->. reflexivity.
        -- specialize (Hb 0%nat ltac:(lia)). discriminate.
Qed.

(** X22: the session lookup returns the stripped text of the session
    file nearest to the working directory, provided that it is at most
    four directories up and that no directory below it has a session
    file; a file that cannot be read, or one further up, gives no
    session rather than the session of a directory above. *)
Theorem X22_session_of_nearest_file_within_five_levels
        (levels : list SessionFile) (s : string) :
  _get_project_session_id levels = Some s
  <-> exists k text,
      (k < 5)%nat /\ levels !! k = Some (Holds text)
      /\ (forall j, (j < k)%nat -> levels !! j = Some NoFile)
      /\ s = PyStr.strip text.
Proof. apply search_session_spec. Qed.

Lemma truthy_some (o : option string) :
  truthy o = true <-> exists s, o = Some s /\ s <> "".
Proof.
  unfold truthy. destruct o as [s|].
  - rewrite negb_true_iff. destruct (String.eqb_spec s ""); split.
    + discriminate.
    + intros [s' [[= <-] H]]. contradiction.
    + intros _. eauto.
    + reflexivity.
  - split; [discriminate | intros [s [H _]]; discriminate].
Qed.

Lemma init_outcome (session_id : option string) (levels : list SessionFile) :
  match __init__ session_id levels with
  | Ok sid =>
      sid <> ""
      /\ (truthy session_id = true -> session_id = Some sid)
      /\ (truthy session_id = false -> _get_project_session_id levels = Some sid)
  | Raise e =>
      e = ValueError /\ truthy session_id = false
      /\ truthy (_get_project_session_id levels) = false
  end.
Proof.
  unfold __init__. destruct (truthy session_id) eqn:Ht.
  - rewrite Ht. destruct (proj1 (truthy_some _) Ht) as [s [-> Hs]]. cbn [default].
    split; [exact Hs|]. split; [intros _; reflexivity | intros H; discriminate H].
  - destruct (truthy (_get_project_session_id levels)) eqn:Hf.
    + destruct (proj1 (truthy_some _) Hf) as [s [Hg Hs]]. rewrite Hg. cbn [default].
      split; [exact Hs|]. split; [intros H; discriminate H | intros _; reflexivity].
    + auto.
Qed.

(** X23: a [MemoryIntegration] object never has an empty session id:
    the constructor takes the id it is given when that is a non-empty
    string, otherwise the one of the session file, and raises
    [ValueError], and nothing else, exactly when both are missing or
    empty. *)
Theorem X23_session_id_is_never_empty
        (session_id : option string) (levels : list SessionFile) :
  match __init__ session_id levels with
  | Ok sid =>
      sid <> ""
      /\ (truthy session_id = true -> session_id = Some sid)
      /\ (truthy session_id = false -> _get_project_session_id levels = Some sid)
  | Raise e =>
      e = ValueError /\ truthy session_id = false
      /\ truthy (_get_project_session_id levels) = false
  end.
Proof. apply init_outcome. Qed.

End Session.

Section Isolation.

Import PatternDetector MemoryIntegration Spec SpecExtra.

Variable json_dumps : Content -> string.
Variable now : string.

Lemma isolated_params_pass (session_id : string) (content : Content)
      (tags : list string) (importance : Z) :
  let params := create_isolated_params json_dumps session_id content tags importance in
  params !! "session_filter_mode" = Some (Str "session_only")
  /\ params !! "session_id" = Some (Str session_id)
  /\ params !! "content" = Some (Str (json_dumps content))
  /\ params !! "tags" = Some (Strs tags)
  /\ params !! "importance" = Some (Num importance)
  /\ ensure_isolation params
     = if String.eqb session_id "" then Raise ValueError else Ok tt.
Proof.
  cbn zeta. unfold ensure_isolation.
  assert (H1 : create_isolated_params json_dumps session_id content tags importance
               !! "session_filter_mode" = Some (Str "session_only")) by reflexivity.
  assert (H2 : create_isolated_params json_dumps session_id content tags importance
               !! "session_id" = Some (Str session_id)) by reflexivity.
  rewrite H1, H2. repeat split; try reflexivity.
  cbn. destruct (String.eqb session_id ""); reflexivity.
Qed.

Lemma store_analysis_outcome (session_id : string) (analysis : Analysis)
      (project_name : string) :
  session_id <> "" ->
  match store_analysis json_dumps now session_id analysis project_name with
  | Ok params =>
      params !! "session_filter_mode" = Some (Str "session_only")
      /\ params !! "session_id" = Some (Str session_id)
      /\ ensure_isolation params = Ok tt
      /\ params !! "tags"
         = Some (Strs ["project-analysis"; "catalyst"; "pattern-detection"; project_name])
      /\ params !! "importance" = Some (Num 8)
      /\ exists health_score,
          _calculate_health_score (an_summary analysis) = Ok health_score
          /\ params !! "content"
             = Some (Str (json_dumps
                  {| c_timestamp := now;
                     c_project_name := project_name;
                     c_patterns_detected := Z.of_nat (length (an_detections analysis));
                     c_issues_found := default 0 (an_summary analysis !! "issues_found");
                     c_recommendations := an_recommendations analysis;
                     c_confidence_scores := confidence_scores (an_detections analysis);
                     c_project_type := an_project_types analysis;
                     c_frameworks := an_frameworks analysis;
                     c_health_score := health_score |}))
  | Raise e => _calculate_health_score (an_summary analysis) = Raise e
  end.
Proof.
  intros Hs. unfold store_analysis.
  destruct (_calculate_health_score (an_summary analysis)) as [v|e];
    cbn [mbind PyResult_bind]; [|reflexivity].
  match goal with
  | |- context [create_isolated_params json_dumps session_id ?c ?t ?i] =>
      destruct (isolated_params_pass session_id c t i) as [H1 [H2 [H3 [H4 [H5 H6]]]]]
  end.
  cbn zeta in *. apply String.eqb_neq in Hs. rewrite Hs in H6. rewrite H6.
  cbn [mbind PyResult_bind]. repeat split; try assumption.
  exists v. split; [reflexivity | exact H3].
Qed.

Lemma store_analysis_content (session_id : string) (analysis : Analysis)
      (project_name : string) (params : gmap string Value) :
  store_analysis json_dumps now session_id analysis project_name = Ok params ->
  exists content,
    params !! "content" = Some (Str (json_dumps content))
    /\ c_patterns_detected content = Z.of_nat (length (an_detections analysis))
    /\ c_confidence_scores content = confidence_scores (an_detections analysis).
Proof.
  unfold store_analysis.
  destruct (_calculate_health_score (an_summary analysis)) as [v|e];
    cbn [mbind PyResult_bind]; [|discriminate].
  match goal with
  | |- context [create_isolated_params json_dumps session_id ?c ?t ?i] =>
      destruct (isolated_params_pass session_id c t i)
        as [_ [_ [H3 [_ [_ H6]]]]];
      cbn zeta in H3, H6; rewrite H6
  end.
  destruct (String.eqb session_id ""); cbn [mbind PyResult_bind]; [discriminate|].
  intros [= <-]. eexists. split; [exact H3|]. split; reflexivity.
Qed.

End Isolation.

Section StoredParameters.

Import PatternDetector MemoryIntegration Spec SpecExtra.

(** X24: [store_analysis_to_memory] returns only parameters that pass
    the isolation check: [session_filter_mode] is [session_only] and
    [session_id] is the non-empty id chosen by the constructor; the
    tags end with the project name, the importance is 8 and the content
    is the serialised record with the health score of the summary.  It
    fails with the constructor's [ValueError] when there is no session,
    and otherwise exactly when the health score fails, with that error;
    the isolation check itself never fails here. *)
Theorem X24_stored_parameters_are_isolated
        (json_dumps : Content -> string) (now : string)
        (levels : list SessionFile) (analysis : Analysis)
        (project_name : string) (session_id : option string) :
  match store_analysis_to_memory json_dumps now levels analysis project_name
                                 session_id with
  | Ok params =>
      exists sid health_score,
        __init__ session_id levels = Ok sid /\ sid <> ""
        /\ _calculate_health_score (an_summary analysis) = Ok health_score
        /\ params !! "session_filter_mode" = Some (Str "session_only")
        /\ params !! "session_id" = Some (Str sid)
        /\ ensure_isolation params = Ok tt
        /\ params !! "tags"
           = Some (Strs ["project-analysis"; "catalyst"; "pattern-detection";
                         project_name])
        /\ params !! "importance" = Some (Num 8)
        /\ params !! "content"
           = Some (Str (json_dumps
                {| c_timestamp := now;
                   c_project_name := project_name;
                   c_patterns_detected := Z.of_nat (length (an_detections analysis));
                   c_issues_found := default 0 (an_summary analysis !! "issues_found");
                   c_recommendations := an_recommendations analysis;
                   c_confidence_scores := confidence_scores (an_detections analysis);
                   c_project_type := an_project_types analysis;
                   c_frameworks := an_frameworks analysis;
                   c_health_score := health_score |}))
  | Raise e =>
      (__init__ session_id levels = Raise ValueError /\ e = ValueError)
      \/ (exists sid, __init__ session_id levels = Ok sid
                      /\ _calculate_health_score (an_summary analysis) = Raise e)
  end.
Proof.
  unfold store_analysis_to_memory.
  pose proof (init_outcome session_id levels) as Hi.
  destruct (__init__ session_id levels) as [sid|e]; cbn [mbind PyResult_bind].
  - destruct Hi as [Hs _].
    pose proof (store_analysis_outcome json_dumps now sid analysis project_name Hs) as Ho.
    destruct (store_analysis json_dumps now sid analysis project_name) as [params|e].
    + destruct Ho as [H1 [H2 [H3 [H4 [H5 [v [Hv Hc]]]]]]].
      exists sid, v. repeat split; assumption.
    + right. exists sid. split; [reflexivity | exact Ho].
  - destruct Hi as [-> _]. left. split; reflexivity.
Qed.

(** X25: with a session id that the constructor accepted,
    [retrieve_analysis_history] never fails: it returns the search
    parameters for [project-analysis <name>], limited to 10 results,
    with [session_filter_mode] at [session_only] and that session id,
    and they pass the isolation check. *)
Theorem X25_history_query_is_isolated
        (session_id : option string) (levels : list SessionFile)
        (sid project_name : string) :
  __init__ session_id levels = Ok sid ->
  exists params,
    retrieve_analysis_history sid project_name = Ok params
    /\ ensure_isolation params = Ok tt
    /\ params !! "session_filter_mode" = Some (Str "session_only")
    /\ params !! "session_id" = Some (Str sid)
    /\ params !! "query" = Some (Str ("project-analysis " +:+ project_name))
    /\ params !! "tags" = Some (Strs ["project-analysis"; project_name])
    /\ params !! "limit" = Some (Num 10).
Proof.
  intros Hinit. pose proof (init_outcome session_id levels) as Hi.
  rewrite Hinit in Hi. destruct Hi as [Hs _]. apply String.eqb_neq in Hs.
  unfold retrieve_analysis_history.
  match goal with
  | |- context [ensure_isolation ?p] =>
      assert (He : ensure_isolation p = Ok tt);
      [unfold ensure_isolation;
       assert (H1 : p !! "session_filter_mode" = Some (Str "session_only"))
         by reflexivity;
       assert (H2 : p !! "session_id" = Some (Str sid)) by reflexivity;
       rewrite H1, H2; cbn; rewrite Hs; reflexivity
      |rewrite He; cbn [mbind PyResult_bind]; exists p; repeat split; exact He]
  end.
Qed.

Lemma X25_history_query_witness :
  let levels := [NoFile; Holds " session-42 "] in
  __init__ None levels = Ok "session-42"
  /\ exists params,
      retrieve_analysis_history "session-42" "demo" = Ok params
      /\ params !! "session_id" = Some (Str "session-42").
Proof.
  intros levels.
  assert (H : __init__ None levels = Ok "session-42") by reflexivity.
  split; [exact H|].
  destruct (X25_history_query_is_isolated None levels "session-42" "demo" H)
    as [params [Hp [_ [_ [Hs _]]]]].
  exists params. split; assumption.
Defined.

Lemma fold_confidence_scores (detections : list Detection) (scores : gmap string string)
      (detection_id : string) :
  fold_left (fun scores d => <[d_id d := d_confidence d]> scores) detections scores
    !! detection_id
  = match last (List.filter (fun d => String.eqb (d_id d) detection_id) detections) with
    | Some d => Some (d_confidence d)
    | None => scores !! detection_id
    end.
Proof.
  revert scores. induction detections as [|d ds IH]; intros scores; [reflexivity|].
  cbn [fold_left List.filter]. rewrite IH.
  destruct (String.eqb_spec (d_id d) detection_id) as [<-|Hne].
  - destruct (List.filter _ ds) as [|d' l] eqn:Hf.
    + cbn. apply lookup_insert_eq.
    + change (last (d :: d' :: l)) with (last (d' :: l)).
      destruct (last (d' :: l)) eqn:Hl; [reflexivity|].
      apply last_None in Hl. discriminate.
  - destruct (last _); [reflexivity|]. apply lookup_insert_ne. exact Hne.
Qed.

Lemma last_is_some {A : Type} (l : list A) : is_Some (last l) <-> l <> [].
Proof.
  rewrite last_is_Some. reflexivity.
Qed.

Lemma confidence_scores_last (detections : list Detection) (detection_id : string) :
  confidence_scores detections !! detection_id
  = d_confidence
      <$> last (List.filter (fun d => String.eqb (d_id d) detection_id) detections).
Proof.
  unfold confidence_scores. rewrite fold_confidence_scores.
  destruct (last _); reflexivity.
Qed.

Lemma confidence_scores_ids (detections : list Detection) (detection_id : string) :
  is_Some (confidence_scores detections !! detection_id)
  <-> In detection_id (map d_id detections).
Proof.
  rewrite confidence_scores_last, fmap_is_Some, last_is_some, in_map_iff. split.
  - intros Hne. destruct (List.filter _ detections) as [|d l] eqn:Hf; [congruence|].
    assert (Hin : In d (List.filter (fun d => String.eqb (d_id d) detection_id)
                                    detections)) by (rewrite Hf; left; reflexivity).
    apply filter_In in Hin as [Hin He]. apply String.eqb_eq in He. eauto.
  - intros [d [Hid Hin]] Hf.
    assert (Hd : In d (List.filter (fun d => String.eqb (d_id d) detection_id)
                                   detections)).
    { apply filter_In. split; [exact Hin | apply String.eqb_eq, Hid]. }
    rewrite Hf in Hd. destruct Hd.
Qed.

Lemma size_of_ids (ids : list string) :
  (size (list_to_set ids : gset string) <= length ids)%nat
  /\ (size (list_to_set ids : gset string) = length ids <-> NoDup ids).
Proof.
  induction ids as [|x ids [IHle IHeq]]; cbn [list_to_set length].
  - rewrite size_empty. split; [lia|]. split; [constructor | reflexivity].
  - destruct (decide (x ∈ ids)) as [Hin|Hnin].
    + assert (Hsame : ({[x]} ∪ list_to_set ids : gset string) = list_to_set ids).
      { apply subseteq_union_1_L, singleton_subseteq_l, elem_of_list_to_set, Hin. }
      rewrite Hsame. split; [lia|]. split; [lia|].
      intros Hnd. apply NoDup_cons in Hnd as [Hx _]. contradiction.
    + rewrite size_union, size_singleton
        by (apply disjoint_singleton_l; rewrite elem_of_list_to_set; exact Hnin).
      split; [lia|]. rewrite NoDup_cons, <- IHeq. split; [intros H; split; [exact Hnin | lia] | lia].
Qed.

Lemma confidence_scores_size (detections : list Detection) :
  (size (confidence_scores detections) <= length detections)%nat
  /\ (size (confidence_scores detections) = length detections
      <-> NoDup (map d_id detections)).
Proof.
  assert (Hdom : dom (confidence_scores detections)
                 = (list_to_set (map d_id detections) : gset string)).
  { apply set_eq. intros x.
    rewrite elem_of_dom, elem_of_list_to_set, list_elem_of_In.
    apply confidence_scores_ids. }
  rewrite <- size_dom, Hdom, <- (length_map d_id detections). apply size_of_ids.
Qed.

(** X26: the [confidence_scores] of the stored content map an id to the
    confidence of the last detection that has this id, and hold an entry
    exactly for the ids of the detections, so never more entries than
    there are detections and as many only when no two detections share
    an id.  In the content that [store_analysis] serialises,
    [patterns_detected] is the number of the detections and
    [confidence_scores] is that map: when two detections share an id the
    earlier confidence is lost, while [patterns_detected] counts both. *)
Theorem X26_confidence_scores_keep_last_of_each_id
        (detections : list Detection) (detection_id : string) :
  confidence_scores detections !! detection_id
  = d_confidence
      <$> last (List.filter (fun d => String.eqb (d_id d) detection_id) detections)
  /\ (is_Some (confidence_scores detections !! detection_id)
      <-> In detection_id (map d_id detections))
  /\ (size (confidence_scores detections) <= length detections)%nat
  /\ (size (confidence_scores detections) = length detections
      <-> NoDup (map d_id detections))
  /\ forall (json_dumps : Content -> string) (now session_id : string)
            (analysis : Analysis) (project_name : string)
            (params : gmap string Value),
      an_detections analysis = detections ->
      store_analysis json_dumps now session_id analysis project_name = Ok params ->
      exists content,
        params !! "content" = Some (Str (json_dumps content))
        /\ c_patterns_detected content = Z.of_nat (length detections)
        /\ c_confidence_scores content = confidence_scores detections.
Proof.
  split; [apply confidence_scores_last|]. split; [apply confidence_scores_ids|].
  split; [apply confidence_scores_size|]. split; [apply confidence_scores_size|].
  intros json_dumps now session_id analysis project_name params <- Hstore.
  eapply store_analysis_content, Hstore.
Qed.

Example confidence_scores_example :
  confidence_scores
    [ mkDetection "missing-readme" None "high" "high" true None;
      mkDetection "missing-license" None "low" "low" false None;
      mkDetection "missing-readme" None "medium" "low" false None ]
  = list_to_map [("missing-readme", "medium"); ("missing-license", "low")].
Proof. vm_compute. reflexivity. Qed.

(** The same three detections stored: [patterns_detected] is 3 and the
    map has 2 entries. *)
Example stored_content_example :
  let count (content : Content) :=
    PyStr.of_Z (c_patterns_detected content) +:+ " detections, "
      +:+ PyStr.of_Z (Z.of_nat (size (c_confidence_scores content))) +:+ " scores" in
  let analysis :=
    {| an_detections :=
         [ mkDetection "missing-readme" None "high" "high" true None;
           mkDetection "missing-license" None "low" "low" false None;
           mkDetection "missing-readme" None "medium" "low" false None ];
       an_summary := list_to_map [("total_patterns", 3); ("issues_found", 1);
                                  ("high_severity", 1)];
       an_recommendations := []; an_project_types := []; an_frameworks := [] |} in
  exists params,
    store_analysis count "2026-01-01T00:00:00" "session-42" analysis "demo" = Ok params
    /\ params !! "content" = Some (Str "3 detections, 2 scores").
Proof. eexists. vm_compute. split; reflexivity. Qed.

End StoredParameters.

(* ===================================================================== *)
(** ** Rule engine: which markers a directory check looks up *)
(* ===================================================================== *)

Section LookedUpMarkers.

Import PatternDetector Spec SpecExtra.

Lemma directory_absence_looked_up (paths : list string) (directories : gset string) :
  directory_absence_loop paths directories
  = forallb (fun p => negb (any_in (fun d => PyStr.startswith d p) directories))
            (looked_up paths).
Proof.
  induction paths as [|p paths IH]; cbn [directory_absence_loop looked_up];
    [reflexivity|].
  unfold config_extension.
  destruct (PyStr.endswith p ".yml" || PyStr.endswith p ".yaml"); [reflexivity|].
  cbn [forallb]. rewrite <- IH.
  destruct (any_in (fun d => PyStr.startswith d p) directories); reflexivity.
Qed.

(** X27: a [directory_absence] check looks up only the markers that
    come before the first marker with a [.yml] or [.yaml] extension: it
    reports the issue exactly when none of those is the prefix of a
    directory path of the inventory, and whatever follows that first
    config-file marker, itself included, has no influence on the
    result. *)
Theorem X27_directory_check_stops_at_first_config_marker
        (paths : list string) (directories : gset string) :
  (_check_directory_absence (CheckList paths) directories = Ok true
   <-> forall p d, In p (looked_up paths) -> d ∈ directories ->
                   PyStr.startswith d p = false)
  /\ (forall paths',
         looked_up paths' = looked_up paths ->
         _check_directory_absence (CheckList paths') directories
         = _check_directory_absence (CheckList paths) directories)
  /\ (forall path,
         _check_directory_absence (CheckStr path) directories
         = _check_directory_absence (CheckList [path]) directories).
Proof.
  cbn [_check_directory_absence]. split; [|split].
  - rewrite directory_absence_looked_up. split.
    + intros [= H] p d Hp Hd. rewrite forallb_forall in H. specialize (H p Hp).
      apply negb_true_iff in H. destruct (PyStr.startswith d p) eqn:Hs; [|reflexivity].
      assert (any_in (fun d => PyStr.startswith d p) directories = true)
        by (apply any_in_iff; eauto).
      congruence.
    + intros H. f_equal. apply forallb_forall. intros p Hp. apply negb_true_iff.
      apply not_true_is_false. intros Hany. apply any_in_iff in Hany as [d [Hd Hs]].
      rewrite (H p d Hp Hd) in Hs. discriminate.
  - intros paths' Heq. rewrite !directory_absence_looked_up, Heq. reflexivity.
  - reflexivity.
Qed.

End LookedUpMarkers.
